(** * unglued: an in-memory paste store with expiry and version history

    A shallow embedding of the store ([internal/store]), the data model
    ([internal/model]), the utilities ([internal/util]) and the create,
    edit, raw and view handlers ([internal/httpx]), followed by the
    properties of the store's contract and of the handlers.

    Modelling conventions.
    - A Go [string] is a sequence of bytes: it is a Rocq [string]; a
      [[]byte] is a [list byte]; the conversions between the two are the
      identity on the bytes.
    - [time.Time] instants and [time.Duration] are integers (nanoseconds);
      every call of [time.Now()] is an explicit argument of the function
      that makes it.
    - [map[string]*model.Paste] is a [gmap string Paste]: [Put] stores the
      address of a fresh copy and [Get] returns a copy of the pointee, so
      the map is a map of values.
    - A slice is a list. [append] either copies the elements or writes
      past the length of every other copy of the slice, so a copy of a
      [Paste] keeps the versions it had. Two requests in flight may both
      append into the spare capacity of one backing array; what is proved
      of two requests in flight speaks of lengths only.
    - A run-time panic (an index out of range) is the outcome [Panic].
    - Functions of the Go standard library that the code calls are either
      written out ([strings.TrimSpace], [strconv.Atoi], base64, the gzip
      container, CRC-32) or, for [compress/flate] and
      [time.ParseDuration], taken as an interface with a reference
      instance.
    - [handleView] is followed up to the text it hands to the renderer. *)

From Stdlib Require Import ZArith NArith List String Ascii Bool Lia DecimalString DecimalNat.
From Stdlib.Strings Require Import Byte.
From stdpp Require Import base gmap strings list fin_maps.

Open Scope Z_scope.

(** ** Go strings *)

Module GoStrings.

Definition bytes_of (s : string) : list N :=
  map N_of_ascii (list_ascii_of_string s).

Definition of_bytes (l : list N) : string :=
  string_of_list_ascii (map ascii_of_N l).

(** [asciiSpace] of package strings: tab, newline, vertical tab, form
    feed, carriage return, space. *)
Definition asciiSpace (c : N) : bool :=
  ((9 <=? c) && (c <=? 13) || (c =? 32))%N.

(** The third byte of the UTF-8 encoding of a white-space rune in
    U+2000..U+200A, U+2028, U+2029 or U+202F (lead bytes E2 80). *)
Definition space_E2_80 (c : N) : bool :=
  ((0x80 <=? c) && (c <=? 0x8A) || (c =? 0xA8) || (c =? 0xA9) || (c =? 0xAF))%N.

(** [TrimLeftFunc(s, unicode.IsSpace)] on the bytes of [s]: runes are
    decoded from the left, and a byte sequence that is not the encoding
    of a white-space rune stops the scan. *)
Fixpoint trimLeft (l : list N) : list N :=
  match l with
  | c :: r =>
      if asciiSpace c then trimLeft r
      else
        match r with
        | d :: r2 =>
            if ((c =? 0xC2) && ((d =? 0x85) || (d =? 0xA0)))%N then trimLeft r2
            else
              match r2 with
              | e :: r3 =>
                  if ((c =? 0xE1) && (d =? 0x9A) && (e =? 0x80)
                      || (c =? 0xE2) && (d =? 0x80) && space_E2_80 e
                      || (c =? 0xE2) && (d =? 0x81) && (e =? 0x9F)
                      || (c =? 0xE3) && (d =? 0x80) && (e =? 0x80))%N
                  then trimLeft r3 else l
              | [] => l
              end
        | [] => l
        end
  | [] => []
  end.

(** [TrimRightFunc(s, unicode.IsSpace)], on the reversed bytes:
    [DecodeLastRuneInString] walks back to the nearest lead byte, which
    for the encoding of a white-space rune is the lead byte of that
    encoding. *)
Fixpoint trimRightRev (l : list N) : list N :=
  match l with
  | c :: r =>
      if asciiSpace c then trimRightRev r
      else
        match r with
        | d :: r2 =>
            if ((d =? 0xC2) && ((c =? 0x85) || (c =? 0xA0)))%N then trimRightRev r2
            else
              match r2 with
              | e :: r3 =>
                  if ((e =? 0xE1) && (d =? 0x9A) && (c =? 0x80)
                      || (e =? 0xE2) && (d =? 0x80) && space_E2_80 c
                      || (e =? 0xE2) && (d =? 0x81) && (c =? 0x9F)
                      || (e =? 0xE3) && (d =? 0x80) && (c =? 0x80))%N
                  then trimRightRev r3 else l
              | [] => l
              end
        | [] => l
        end
  | [] => []
  end.

(** [strings.TrimSpace]. *)
Definition TrimSpace (s : string) : string :=
  of_bytes (rev (trimRightRev (rev (trimLeft (bytes_of s))))).

(** [slices.Contains] on a slice of strings. *)
Fixpoint Contains (l : list string) (x : string) : bool :=
  match l with
  | [] => false
  | y :: r => if String.eqb y x then true else Contains r x
  end.

(** [strings.TrimRight(s, "/")]. *)
Fixpoint dropSlashes (l : list ascii) : list ascii :=
  match l with
  | c :: r => if Ascii.eqb c "/"%char then dropSlashes r else l
  | [] => []
  end.

Definition TrimRightSlash (s : string) : string :=
  string_of_list_ascii (rev (dropSlashes (rev (list_ascii_of_string s)))).

(** Decimal digits of a string, most significant first; [None] when a
    byte is not a digit. *)
Fixpoint digits (l : list ascii) (acc : Z) : option Z :=
  match l with
  | [] => Some acc
  | c :: r =>
      let n := Z.of_N (N_of_ascii c) in
      if (48 <=? n) && (n <=? 57) then digits r (acc * 10 + (n - 48)) else None
  end.

(** [strconv.Atoi] on a 64-bit platform: an optional sign, at least one
    decimal digit, and a value that fits [int]; [None] is a
    [*NumError]. *)
Definition Atoi (s : string) : option Z :=
  let signed (neg : bool) (l : list ascii) :=
    match l with
    | [] => None
    | _ =>
        match digits l 0 with
        | Some n =>
            let v := if neg then - n else n in
            if (- 2 ^ 63 <=? v) && (v <=? 2 ^ 63 - 1) then Some v else None
        | None => None
        end
    end in
  match list_ascii_of_string s with
  | [] => None
  | c :: r =>
      if Ascii.eqb c "-"%char then signed true r
      else if Ascii.eqb c "+"%char then signed false r
      else signed false (c :: r)
  end.

(** [strconv.Itoa] for a length. *)
Definition Itoa (n : nat) : string :=
  NilZero.string_of_uint (Nat.to_uint n).

(** [strings.HasPrefix]. *)
Definition HasPrefix (s prefix : string) : bool := String.prefix prefix s.

(** [strings.Contains] for a separator or a word. *)
Fixpoint ContainsStr (s substr : string) : bool :=
  match s with
  | EmptyString => String.prefix substr EmptyString
  | String _ s' => String.prefix substr s || ContainsStr s' substr
  end.

(** [strings.Split(s, sep)] for a separator of one byte: the pieces
    between the separators, one piece more than there are separators. *)
Fixpoint Split (s : string) (sep : ascii) : list string :=
  match s with
  | EmptyString => [EmptyString]
  | String c s' =>
      if Ascii.eqb c sep then EmptyString :: Split s' sep
      else
        match Split s' sep with
        | piece :: pieces => String c piece :: pieces
        | [] => [String c EmptyString]
        end
  end.

(** [strings.SplitN(s, sep, 2)] for a separator of one byte: the text
    before the first separator and the text after it, or [s] alone. *)
Fixpoint SplitN2 (s : string) (sep : ascii) : list string :=
  match s with
  | EmptyString => [EmptyString]
  | String c s' =>
      if Ascii.eqb c sep then [EmptyString; s']
      else
        match SplitN2 s' sep with
        | piece :: pieces => String c piece :: pieces
        | [] => [String c EmptyString]
        end
  end.

(** [strings.Map(unicode.ToLower, s)], which [strings.ToLower] calls for
    a string with a byte above 0x7F, as an interface. *)
Class Unicode : Type := {
  MapToLower : string -> string
}.

Definition isASCII (s : string) : bool :=
  forallb (fun c => (N_of_ascii c <? 0x80)%N) (list_ascii_of_string s).

Definition hasUpper (s : string) : bool :=
  existsb (fun c => (65 <=? N_of_ascii c)%N && (N_of_ascii c <=? 90)%N)
    (list_ascii_of_string s).

Definition lowerByte (c : ascii) : ascii :=
  if ((65 <=? N_of_ascii c) && (N_of_ascii c <=? 90))%N
  then ascii_of_N (N_of_ascii c + 32) else c.

(** [strings.ToLower]: a string of ASCII bytes is returned as it is when
    it has no upper-case letter and lowered byte by byte otherwise. *)
Definition ToLower {U : Unicode} (s : string) : string :=
  if isASCII s then
    if negb (hasUpper s) then s
    else string_of_list_ascii (map lowerByte (list_ascii_of_string s))
  else MapToLower s.

(** What a trimming function does at the front of a list: it stops, or a
    white-space rune [p] is in front and it goes on behind it. *)
Definition strips (f : list N -> list N) : Prop :=
  forall l,
    f l = l
    \/ exists p r, p <> [] /\ l = p ++ r /\ f l = f r /\ forall q, f (p ++ q) = f q.

(** The byte of a decimal digit. *)
Definition digit_byte (n : N) : Prop := (48 <= n <= 57)%N.

End GoStrings.

(** ** Errors *)

(** The [error] values that reach this code; [nil] is [None] of
    [option error]. *)
Inductive error : Type :=
  | io_EOF
  | io_ErrUnexpectedEOF
  | gzip_ErrHeader
  | gzip_ErrChecksum
  | flate_CorruptInputError
  | time_InvalidDuration
  | Errorf (msg : string).

(** How a call can end: it returns, it panics, or its loop has no end. *)
Inductive run (A : Type) : Type :=
  | Returns (a : A)
  | Panics
  | Loops.

Arguments Returns {A} a.
Arguments Panics {A}.
Arguments Loops {A}.

(** ** encoding/base64, encoding/binary, hash/crc32 *)

Module Base64.

(** The URL-safe alphabet: A-Z, a-z, 0-9, '-', '_'. *)
Definition encodeURL (n : N) : ascii :=
  (if n <? 26 then ascii_of_N (65 + n)
   else if n <? 52 then ascii_of_N (97 + (n - 26))
   else if n <? 62 then ascii_of_N (48 + (n - 52))
   else if n =? 62 then "-"%char else "_"%char)%N.

(** [base64.RawURLEncoding.EncodeToString]: three bytes give four
    characters, a remainder of one or two bytes gives two or three, and
    nothing is padded. *)
Fixpoint EncodeToString (src : list byte) : string :=
  match src with
  | [] => EmptyString
  | [a] =>
      let v := (Byte.to_N a * 65536)%N in
      String (encodeURL (v / 262144 mod 64)%N)
        (String (encodeURL (v / 4096 mod 64)%N) EmptyString)
  | [a; b] =>
      let v := (Byte.to_N a * 65536 + Byte.to_N b * 256)%N in
      String (encodeURL (v / 262144 mod 64)%N)
        (String (encodeURL (v / 4096 mod 64)%N)
           (String (encodeURL (v / 64 mod 64)%N) EmptyString))
  | a :: b :: c :: r =>
      let v := (Byte.to_N a * 65536 + Byte.to_N b * 256 + Byte.to_N c)%N in
      String (encodeURL (v / 262144 mod 64)%N)
        (String (encodeURL (v / 4096 mod 64)%N)
           (String (encodeURL (v / 64 mod 64)%N)
              (String (encodeURL (v mod 64)%N) (EncodeToString r))))
  end.

(** A character of the URL-safe alphabet. *)
Definition urlsafe (c : ascii) : bool :=
  let n := N_of_ascii c in
  ((65 <=? n) && (n <=? 90) || (97 <=? n) && (n <=? 122)
   || (48 <=? n) && (n <=? 57) || (n =? 45) || (n =? 95))%N.

End Base64.

Module Binary.

(** The low eight bits of a number, as a byte. *)
Definition low_byte (n : N) : byte :=
  match Byte.of_N (n mod 256) with
  | Some b => b
  | None => x00
  end.

(** [binary.LittleEndian.PutUint16] and [PutUint32]. *)
Definition PutUint16 (v : N) : list byte :=
  [low_byte v; low_byte (v / 256)].

Definition PutUint32 (v : N) : list byte :=
  [low_byte v; low_byte (v / 256); low_byte (v / 65536); low_byte (v / 16777216)].

(** [binary.LittleEndian.Uint16] and [Uint32] of a slice of two and of
    four bytes. *)
Definition Uint16 (b0 b1 : byte) : N :=
  (Byte.to_N b0 + 256 * Byte.to_N b1)%N.

Definition Uint32 (b0 b1 b2 b3 : byte) : N :=
  (Byte.to_N b0 + 256 * Byte.to_N b1 + 65536 * Byte.to_N b2
   + 16777216 * Byte.to_N b3)%N.

End Binary.

Module CRC32.

(** One bit of the reflected IEEE polynomial 0xEDB88320. *)
Definition shift (crc : N) : N :=
  if N.testbit crc 0 then N.lxor (N.shiftr crc 1) 0xEDB88320
  else N.shiftr crc 1.

Definition byte_step (crc : N) (b : byte) : N :=
  Nat.iter 8 shift (N.lxor crc (Byte.to_N b)).

(** [crc32.Update(crc, crc32.IEEETable, p)] on [uint32]: the register
    is complemented on the way in and on the way out. *)
Definition Update (crc : N) (p : list byte) : N :=
  N.lxor (fold_left byte_step p (N.lxor (crc mod 2 ^ 32) 0xFFFFFFFF)) 0xFFFFFFFF.

Definition ChecksumIEEE (p : list byte) : N := Update 0 p.

End CRC32.

(** ** compress/flate, as an interface *)

(** [deflate level data] is the DEFLATE stream a [flate.Writer] of that
    level has emitted once [data] is written and the writer closed;
    [inflate input] decodes one DEFLATE stream from the front of [input]
    and returns the data with the unread rest of the input (the reader is
    a [bytes.Reader], an [io.ByteReader], so nothing is read ahead). *)
Class Flate : Type := {
  deflate : Z -> list byte -> list byte;
  inflate : list byte -> error + (list byte * list byte)
}.

(** The contract of the package: what a writer of a valid level emits, a
    reader decodes, consuming exactly the stream. *)
Definition flate_sound (F : Flate) : Prop :=
  forall (level : Z) (data rest : list byte),
    -2 <= level <= 9 ->
    inflate (deflate level data ++ rest) = inr (data, rest).

(** A reference implementation of the interface that only emits and
    accepts stored (uncompressed) blocks of at most 65535 bytes. *)
Module StoredFlate.

Definition block (final : bool) (chunk : list byte) : list byte :=
  let len := N.of_nat (length chunk) in
  (if final then x01 else x00)
    :: Binary.PutUint16 len ++ Binary.PutUint16 (65535 - len) ++ chunk.

(** The largest stored block. *)
Definition maxStored : nat := N.to_nat 65535.

Fixpoint blocks (fuel : nat) (data : list byte) : list byte :=
  match fuel with
  | O => block true data
  | S f =>
      if (N.of_nat (length data) <=? 65535)%N then block true data
      else block false (take maxStored data) ++ blocks f (drop maxStored data)
  end.

Definition compress (level : Z) (data : list byte) : list byte :=
  blocks (length data) data.

Fixpoint blocks_in (fuel : nat) (input acc : list byte)
  : error + (list byte * list byte) :=
  match fuel with
  | O => inl io_ErrUnexpectedEOF
  | S f =>
      match input with
      | h :: l0 :: l1 :: n0 :: n1 :: r =>
          if (2 <=? Byte.to_N h)%N then inl flate_CorruptInputError
          else
            let len := Binary.Uint16 l0 l1 in
            if negb (Binary.Uint16 n0 n1 =? 65535 - len)%N
            then inl flate_CorruptInputError
            else if (N.of_nat (length r) <? len)%N then inl io_ErrUnexpectedEOF
            else
              let acc' := acc ++ take (N.to_nat len) r in
              if (Byte.to_N h =? 1)%N then inr (acc', drop (N.to_nat len) r)
              else blocks_in f (drop (N.to_nat len) r) acc'
      | _ => inl io_ErrUnexpectedEOF
      end
  end.

Definition decompress (input : list byte) : error + (list byte * list byte) :=
  blocks_in (length input) input [].

Definition impl : Flate := {| deflate := compress; inflate := decompress |}.

End StoredFlate.

(** ** compress/gzip: the container around a DEFLATE stream *)

Module Gzip.
Section WithFlate.
Context {F : Flate}.

Definition HuffmanOnly : Z := -2.
Definition BestSpeed : Z := 1.
Definition BestCompression : Z := 9.

(** A [gzip.Writer] over a [bytes.Buffer]: [out] is the buffer,
    [pending] the data handed to the compressor so far. Writes to a
    buffer do not fail, so the writer's [err] field stays [nil] and is
    left out. *)
Record Writer : Type := {
  level : Z;
  wroteHeader : bool;
  closed : bool;
  digest : N;
  size : N;
  pending : list byte;
  out : list byte
}.

(** [gzip.NewWriterLevel]: [None] is the [(nil, error)] of an invalid
    level. *)
Definition NewWriterLevel (buf : list byte) (lvl : Z) : option Writer :=
  if (lvl <? HuffmanOnly) || (BestCompression <? lvl) then None
  else Some {| level := lvl; wroteHeader := false; closed := false;
               digest := 0%N; size := 0%N; pending := []; out := buf |}.

(** The ten header bytes of a writer with an empty [Header]: magic,
    method 8, no flags, no modification time, the XFL of the level, and
    the unknown operating system 255. *)
Definition header (lvl : Z) : list byte :=
  [x1f; x8b; x08; x00; x00; x00; x00; x00;
   (if lvl =? BestCompression then x02
    else if lvl =? BestSpeed then x04 else x00);
   xff].

(** [Writer.Write]. *)
Definition Write (z : Writer) (p : list byte) : Writer :=
  let o := if wroteHeader z then out z else out z ++ header (level z) in
  {| level := level z; wroteHeader := true; closed := closed z;
     digest := CRC32.Update (digest z) p;
     size := ((size z + N.of_nat (length p)) mod 2 ^ 32)%N;
     pending := pending z ++ p;
     out := o |}.

(** [Writer.Close]: the header if nothing was written, the DEFLATE
    stream, then the CRC-32 and the size of the data. *)
Definition Close (z : Writer) : Writer :=
  if closed z then z
  else
    let z1 := if wroteHeader z then z else Write z [] in
    {| level := level z1; wroteHeader := true; closed := true;
       digest := digest z1; size := size z1; pending := pending z1;
       out := out z1 ++ deflate (level z1) (pending z1)
                ++ Binary.PutUint32 (digest z1) ++ Binary.PutUint32 (size z1) |}.

(** [Reader.readString]: a NUL-terminated field of at most 511
    bytes; the bytes read (with the NUL) and the rest. *)
Fixpoint readString (room : nat) (input seen : list byte)
  : error + (list byte * list byte) :=
  match room with
  | O => inl gzip_ErrHeader
  | S room' =>
      match input with
      | [] => inl io_EOF
      | b :: r =>
          if (Byte.to_N b =? 0)%N then inr (seen ++ [b], r)
          else readString room' r (seen ++ [b])
      end
  end.

(** [noEOF]. *)
Definition noEOF (e : error) : error :=
  match e with
  | io_EOF => io_ErrUnexpectedEOF
  | _ => e
  end.

(** The optional fields of [Reader.readHeader], in the order FEXTRA,
    FNAME, FCOMMENT, FHCRC; [dg] is the running CRC-32 of the header. *)
Definition readExtra (flg : N) (dg : N) (input : list byte)
  : error + (N * list byte) :=
  if N.testbit flg 2 then
    match input with
    | l0 :: l1 :: r =>
        let n := N.to_nat (Binary.Uint16 l0 l1) in
        if (length r <? n)%nat then inl io_ErrUnexpectedEOF
        else inr (CRC32.Update (CRC32.Update dg [l0; l1]) (take n r), drop n r)
    | _ => inl io_ErrUnexpectedEOF
    end
  else inr (dg, input).

Definition readField (present : bool) (dg : N) (input : list byte)
  : error + (N * list byte) :=
  if present then
    match readString 512 input [] with
    | inl e => inl (noEOF e)
    | inr (s, r) => inr (CRC32.Update dg s, r)
    end
  else inr (dg, input).

Definition readHdrCrc (flg : N) (dg : N) (input : list byte)
  : error + list byte :=
  if N.testbit flg 1 then
    match input with
    | c0 :: c1 :: r =>
        if (Binary.Uint16 c0 c1 =? dg mod 65536)%N then inr r
        else inl gzip_ErrHeader
    | _ => inl io_ErrUnexpectedEOF
    end
  else inr input.

(** [Reader.readHeader]: the rest of the input after the header. An
    input with no byte at all is [io.EOF], a shorter header
    [io.ErrUnexpectedEOF]. *)
Definition readHeader (input : list byte) : error + list byte :=
  match input with
  | [] => inl io_EOF
  | id1 :: id2 :: cm :: flg :: m0 :: m1 :: m2 :: m3 :: xfl :: os :: r =>
      if negb ((Byte.to_N id1 =? 0x1f) && (Byte.to_N id2 =? 0x8b)
               && (Byte.to_N cm =? 8))%N
      then inl gzip_ErrHeader
      else
        let f := Byte.to_N flg in
        let dg := CRC32.ChecksumIEEE [id1; id2; cm; flg; m0; m1; m2; m3; xfl; os] in
        match readExtra f dg r with
        | inl e => inl e
        | inr (dg1, r1) =>
            match readField (N.testbit f 3) dg1 r1 with
            | inl e => inl e
            | inr (dg2, r2) =>
                match readField (N.testbit f 4) dg2 r2 with
                | inl e => inl e
                | inr (dg3, r3) => readHdrCrc f dg3 r3
                end
            end
        end
  | _ => inl io_ErrUnexpectedEOF
  end.

(** [io.ReadAll] of a multistream [gzip.Reader] whose first header is
    read and leaves [input]: the DEFLATE stream, the trailer with its
    two checks, then the next member unless the input ends there. *)
Fixpoint readMembers (fuel : nat) (input acc : list byte)
  : error + list byte :=
  match fuel with
  | O => inl io_ErrUnexpectedEOF
  | S fuel' =>
      match inflate input with
      | inl e => inl e
      | inr (data, r) =>
          match r with
          | d0 :: d1 :: d2 :: d3 :: s0 :: s1 :: s2 :: s3 :: r' =>
              if negb ((Binary.Uint32 d0 d1 d2 d3 =? CRC32.Update 0 data)
                       && (Binary.Uint32 s0 s1 s2 s3
                           =? N.of_nat (length data) mod 2 ^ 32))%N
              then inl gzip_ErrChecksum
              else
                match readHeader r' with
                | inl io_EOF => inr (acc ++ data)
                | inl e => inl e
                | inr r'' => readMembers fuel' r'' (acc ++ data)
                end
          | _ => inl io_ErrUnexpectedEOF
          end
      end
  end.

(** [gzip.NewReader] over a [bytes.Reader]: the input left after the
    first header. *)
Definition NewReader (b : list byte) : error + list byte := readHeader b.

(** [io.ReadAll(zr)]. *)
Definition ReadAll (zr : list byte) : error + list byte :=
  readMembers (S (length zr)) zr [].

End WithFlate.

End Gzip.

(** ** internal/model *)

Module model.

Module Version.
Record t : Type := {
  ZCode : list byte;
  Lang : string;
  Author : string;
  At : Z
}.
End Version.

Module Paste.
Record t : Type := {
  ID : string;
  Lang : string;
  Code : string;
  Theme : string;
  ExpiresAt : Z;
  Editable : bool;
  EditKey : string;
  Author : string;
  Versions : list Version.t;
  CreatedAt : Z;
  UpdatedAt : Z
}.

(** The zero value [model.Paste{}]. *)
Definition zero : t :=
  {| ID := ""; Lang := ""; Code := ""; Theme := ""; ExpiresAt := 0;
     Editable := false; EditKey := ""; Author := ""; Versions := [];
     CreatedAt := 0; UpdatedAt := 0 |}.
End Paste.

End model.

Abbreviation Version := model.Version.t.
Abbreviation Paste := model.Paste.t.

(** ** time *)

Module time.

Definition Nanosecond : Z := 1.
Definition Second : Z := 1000000000.
Definition Hour : Z := 3600 * Second.

(** The wall-clock reading that [Format("150405.000")] prints. *)
Record Wall : Type := {
  hour : nat;
  minute : nat;
  second : nat;
  milli : nat
}.

Definition digit (n : nat) : ascii := ascii_of_nat (48 + n mod 10).

(** [t.Format("150405.000")]: hour, minute and second on two digits
    each, a dot, the milliseconds on three. *)
Definition Format150405 (w : Wall) : string :=
  string_of_list_ascii
    [digit (hour w / 10); digit (hour w);
     digit (minute w / 10); digit (minute w);
     digit (second w / 10); digit (second w);
     "."%char;
     digit (milli w / 100); digit (milli w / 10); digit (milli w)].

End time.

(** [t.Format(time.RFC3339)], as an interface. *)
Class Calendar : Type := {
  FormatRFC3339 : Z -> string
}.

(** [time.ParseDuration], as an interface: the duration and the error. *)
Class Durations : Type := {
  ParseDuration : string -> Z * option error
}.

(** A reference implementation for durations written as one run of
    decimal digits and one unit, with an optional sign. *)
Module PlainDurations.

Definition unit (u : string) : option Z :=
  if String.eqb u "ns" then Some 1
  else if String.eqb u "us" then Some 1000
  else if String.eqb u "ms" then Some 1000000
  else if String.eqb u "s" then Some time.Second
  else if String.eqb u "m" then Some (60 * time.Second)
  else if String.eqb u "h" then Some time.Hour
  else None.

Definition is_digit (c : ascii) : bool :=
  let n := N_of_ascii c in ((48 <=? n) && (n <=? 57))%N.

Fixpoint span (l : list ascii) : list ascii * list ascii :=
  match l with
  | c :: r => if is_digit c then let (a, b) := span r in (c :: a, b) else ([], l)
  | [] => ([], [])
  end.

Definition magnitude (l : list ascii) : option Z :=
  let (ds, u) := span l in
  match ds, GoStrings.digits ds 0, unit (string_of_list_ascii u) with
  | _ :: _, Some v, Some k =>
      if v * k <=? 2 ^ 63 then Some (v * k) else None
  | _, _, _ => None
  end.

Definition parse (s : string) : Z * option error :=
  let bad := (0, Some time_InvalidDuration) in
  let l := list_ascii_of_string s in
  let neg := match l with c :: _ => Ascii.eqb c "-"%char | [] => false end in
  let body :=
    match l with
    | c :: r => if Ascii.eqb c "-"%char || Ascii.eqb c "+"%char then r else l
    | [] => l
    end in
  match body with
  | [c] => if Ascii.eqb c "0"%char then (0, None) else bad
  | _ =>
      match magnitude body with
      | Some d =>
          if neg then (- d, None)
          else if d <=? 2 ^ 63 - 1 then (d, None) else bad
      | None => bad
      end
  end.

Definition impl : Durations := {| ParseDuration := parse |}.

End PlainDurations.

(** ** internal/util *)

Module util.

(** The outcome of one [rand.Read]: whether it fails, and the bytes it
    writes, by position. *)
Record Entropy : Type := {
  rand_err : bool;
  rand_byte : nat -> byte
}.

(** [NewID]: [n] random bytes, or when the source fails the wall clock,
    in unpadded URL-safe base64. *)
Definition NewID (e : Entropy) (w : time.Wall) (n : nat) : string :=
  if rand_err e
  then Base64.EncodeToString (list_byte_of_string (time.Format150405 w))
  else Base64.EncodeToString (map (rand_byte e) (seq 0 n)).

Section WithDurations.
Context {D : Durations}.

(** [ParseTTL]. *)
Definition ParseTTL (s : string) : Z * option error :=
  if String.eqb s "1h" then (time.Hour, None)
  else if String.eqb s "24h" then (24 * time.Hour, None)
  else if String.eqb s "168h" || String.eqb s "7d" then (168 * time.Hour, None)
  else if String.eqb s "" then (24 * time.Hour, None)
  else ParseDuration s.

End WithDurations.

Section WithFlate.
Context {F : Flate}.

(** [GzipEncode]. The error of [NewWriterLevel] is dropped by the
    code; [BestSpeed] is a valid level. *)
Definition GzipEncode (s : string) : list byte :=
  let buf := [] in
  match Gzip.NewWriterLevel buf Gzip.BestSpeed with
  | Some zw =>
      let zw := Gzip.Write zw (list_byte_of_string s) in
      let zw := Gzip.Close zw in
      Gzip.out zw
  | None => buf
  end.

(** [GzipDecode]. *)
Definition GzipDecode (b : list byte) : string * option error :=
  match Gzip.NewReader b with
  | inl err => (EmptyString, Some err)
  | inr zr =>
      match Gzip.ReadAll zr with
      | inl err => (EmptyString, Some err)
      | inr out => (string_of_list_byte out, None)
      end
  end.

End WithFlate.

(** The loop [for i := a; i <= b; i++ { hl[i] = true }] of [ParseHL],
    after the swap that orders [a] and [b]: it adds the numbers from [a]
    to [b], and has no end when [b] is the largest [int], which [i++]
    wraps around. A [map[int]bool] that only ever holds [true] is the set
    of its keys. *)
Definition hl_range (a b : Z) (hl : gset Z) : run (gset Z) :=
  let (a, b) := if b <? a then (b, a) else (a, b) in
  if b =? 2 ^ 63 - 1 then Loops
  else Returns (list_to_set (seqZ a (b - a + 1)) ∪ hl).

(** The body of the loop of [ParseHL] over the parts. *)
Definition hl_part (part : string) (hl : gset Z) : run (gset Z) :=
  let part := GoStrings.TrimSpace part in
  if String.eqb part "" then Returns hl
  else if GoStrings.ContainsStr part "-" then
    match GoStrings.SplitN2 part "-"%char with
    | ch0 :: ch1 :: _ =>
        match GoStrings.Atoi (GoStrings.TrimSpace ch0),
              GoStrings.Atoi (GoStrings.TrimSpace ch1) with
        | Some a, Some b => hl_range a b hl
        | _, _ => Returns hl
        end
    | _ => Panics
    end
  else
    match GoStrings.Atoi part with
    | Some n => Returns ({[n]} ∪ hl)
    | None => Returns hl
    end.

Fixpoint hl_parts (parts : list string) (hl : gset Z) : run (gset Z) :=
  match parts with
  | [] => Returns hl
  | part :: rest =>
      match hl_part part hl with
      | Returns hl' => hl_parts rest hl'
      | Panics => Panics
      | Loops => Loops
      end
  end.

(** [ParseHL]. *)
Definition ParseHL (s : string) : run (gset Z) :=
  let hl : gset Z := ∅ in
  if String.eqb s "" then Returns hl
  else hl_parts (GoStrings.Split s ","%char) hl.

Section WithUnicode.
Context {U : GoStrings.Unicode}.

(** [IsTruthy]. *)
Definition IsTruthy (s : string) : bool :=
  let s := GoStrings.ToLower (GoStrings.TrimSpace s) in
  String.eqb s "1" || String.eqb s "true" || String.eqb s "on" || String.eqb s "yes".

End WithUnicode.

End util.

(** ** internal/store *)

Module store.

Import model.

(** The [items] of a [Store]; the mutex makes each of [Put], the map
    read of [Get], [CountActive] and one pass of the janitor one step. *)
Abbreviation Store := (gmap string Paste).

(** [New]: an empty map. *)
Definition New : Store := ∅.

(** [Put]. *)
Definition Put (s : Store) (p : Paste) : Store :=
  <[Paste.ID p := p]> s.

(** [Get], with the instant its [time.Now()] returns. *)
Definition Get (s : Store) (now : Z) (id : string) : Paste * bool :=
  match s !! id with
  | Some ptr =>
      if Paste.ExpiresAt ptr <? now then (Paste.zero, false) else (ptr, true)
  | None => (Paste.zero, false)
  end.

(** An entry that [CountActive] counts at [now]: [now.Before(p.ExpiresAt)]. *)
Definition active (now : Z) (kv : string * Paste) : Prop :=
  now < Paste.ExpiresAt kv.2.

#[global] Instance active_dec (now : Z) (kv : string * Paste) : Decision (active now kv) :=
  Z_lt_dec now (Paste.ExpiresAt kv.2).

(** [CountActive]. *)
Definition CountActive (s : Store) (now : Z) : nat :=
  map_fold (fun (_ : string) (p : Paste) (n : nat) =>
              if now <? Paste.ExpiresAt p then S n else n) O s.

(** One tick of [janitor]. *)
Definition sweep (s : Store) (now : Z) : Store :=
  filter (fun kv : string * Paste => ¬ (Paste.ExpiresAt kv.2 < now)) s.

End store.

(** ** internal/httpx *)

Module httpx.

Import model.
Import GoStrings.

Definition Langs : list string :=
  ["plaintext"; "go"; "javascript"; "typescript"; "json"; "yaml"; "toml";
   "python"; "bash"; "html"; "css"; "sql"; "markdown"].

Definition Themes : list string := ["dark"; "light"].

(** [Config]. *)
Record Config : Type := { PublicBase : string }.

(** [apiReq], the JSON payload of the API. *)
Module apiReq.
Record t : Type := {
  Code : string;
  Lang : string;
  TTL : string;
  Theme : string;
  Editable : bool;
  Author : string
}.
End apiReq.

(** What the handlers read of an [*http.Request]: the [{id}] of the
    route, the pairs of [r.URL.Query()], the pairs of the form body, in
    order, with whether [ParseForm] reports an error, the cookies, the
    body as [json] decodes it ([None] when it does not), and what
    [makeURL] looks at. *)
Record Request : Type := {
  URLParam_id : string;
  Query : list (string * string);
  PostForm : list (string * string);
  ParseFormErr : bool;
  Cookies : list (string * string);
  JSONBody : option apiReq.t;
  Host : string;
  TLS : bool;
  XForwardedProto : string
}.

(** The first value of a key, as [url.Values.Get] and [r.Cookie] find
    it. *)
Fixpoint first (l : list (string * string)) (k : string) : option string :=
  match l with
  | [] => None
  | (k', v) :: r => if String.eqb k' k then Some v else first r k
  end.

(** [r.URL.Query().Get(k)]. *)
Definition QueryGet (r : Request) (k : string) : string :=
  match first (Query r) k with
  | Some v => v
  | None => EmptyString
  end.

(** [r.FormValue(k)] once the form is parsed: body values come before
    those of the query. *)
Definition FormValue (r : Request) (k : string) : string :=
  match first (PostForm r ++ Query r) k with
  | Some v => v
  | None => EmptyString
  end.

(** [r.Cookie(name)]; [None] is [http.ErrNoCookie]. *)
Definition Cookie (r : Request) (name : string) : option string :=
  first (Cookies r) name.

(** A cookie written by [util.WriteCookie]: its name, value and
    [MaxAge] in seconds (the [Expires] attribute repeats it as a date). *)
Record SetCookie : Type := {
  Name : string;
  Value : string;
  MaxAge : Z
}.

Definition WriteCookie (name value : string) (life : Z) : SetCookie :=
  {| Name := name; Value := value; MaxAge := life / time.Second |}.

Inductive json : Type :=
  | JString (s : string)
  | JInt (n : Z).

Inductive body : Type :=
  | Text (s : string)
  | JSON (fields : list (string * json)).

(** What a handler writes: the status, the body, the [url] handed to
    [http.Redirect], and the cookies set. *)
Record Response : Type := {
  Status : Z;
  Body : body;
  Location : string;
  SetCookies : list SetCookie
}.

Definition StatusOK : Z := 200.
Definition StatusSeeOther : Z := 303.
Definition StatusBadRequest : Z := 400.
Definition StatusUnauthorized : Z := 401.
Definition StatusForbidden : Z := 403.
Definition StatusNotFound : Z := 404.

(** [http.Error]: the message and a newline. *)
Definition Error (msg : string) (code : Z) : Response :=
  {| Status := code; Body := Text (msg +:+ String "010"%char EmptyString);
     Location := EmptyString; SetCookies := [] |}.

(** [http.NotFound]. *)
Definition NotFound : Response := Error "404 page not found" StatusNotFound.

(** The result of a handler on the store: the store it leaves and the
    response, or a panic. *)
Inductive outcome : Type :=
  | Done (s : gmap string Paste) (w : Response)
  | Panic.

(** [normalizeLang]. *)
Definition normalizeLang (lang : string) : string :=
  if negb (Contains Langs lang) then "plaintext" else lang.

(** [makeURL]. *)
Definition makeURL (cfg : Config) (r : Request) (path : string) : string :=
  if negb (String.eqb (PublicBase cfg) "")
  then TrimRightSlash (PublicBase cfg) +:+ path
  else
    let scheme :=
      if String.eqb (XForwardedProto r) "https" || TLS r then "https" else "http" in
    scheme +:+ "://" +:+ Host r +:+ path.

(** [canEditPaste]. *)
Definition canEditPaste (r : Request) (p : Paste) : bool :=
  if negb (Paste.Editable p) then false
  else
    let key := QueryGet r "key" in
    let key :=
      if String.eqb key "" then
        match Cookie r ("npk_" +:+ Paste.ID p) with
        | Some v => v
        | None => key
        end
      else key in
    negb (String.eqb key "") && String.eqb key (Paste.EditKey p).

(** The token a request presents for a paste (lines 61 to 66 of
    [canEditPaste]): the [key] of the query, and when that is empty the
    value of the cookie [npk_<ID>], if there is one. *)
Definition presentedToken (r : Request) (p : Paste) : string :=
  let key := QueryGet r "key" in
  if String.eqb key "" then
    match Cookie r ("npk_" +:+ Paste.ID p) with
    | Some v => v
    | None => key
    end
  else key.

(** The last element of a slice, [v[len(v)-1]]; [None] is the panic of
    an empty slice. *)
Definition last_version (v : list Version) : option Version :=
  v !! (length v - 1)%nat.

Section WithLibraries.
Context {F : Flate} {D : Durations}.

(** [buildPaste], with the instant of its [time.Now()] and, for each
    of its two [NewID] calls, the outcome of the random source and the
    wall clock of the fallback. *)
Definition buildPaste (now : Z) (e_id e_key : util.Entropy) (w_id w_key : time.Wall)
    (code lang ttl theme : string) (editable : bool) (author : string)
  : Paste * option error :=
  let code := TrimSpace code in
  if String.eqb code "" then (Paste.zero, Some (Errorf "Code darf nicht leer sein"))
  else
    let lang := normalizeLang lang in
    let theme := if negb (Contains Themes theme) then "dark" else theme in
    let (dur, err) := util.ParseTTL ttl in
    match err with
    | Some _ => (Paste.zero, Some (Errorf "Ungültige TTL"))
    | None =>
        let id := util.NewID e_id w_id 8 in
        let p :=
          {| Paste.ID := id;
             Paste.Lang := lang;
             Paste.Code := code;
             Paste.Theme := theme;
             Paste.ExpiresAt := now + dur;
             Paste.Editable := editable;
             Paste.EditKey := "";
             Paste.Author := author;
             Paste.Versions :=
               [ {| Version.ZCode := util.GzipEncode code; Version.Lang := lang;
                    Version.Author := author; Version.At := now |} ];
             Paste.CreatedAt := now;
             Paste.UpdatedAt := now |} in
        if editable then
          ({| Paste.ID := Paste.ID p; Paste.Lang := Paste.Lang p;
              Paste.Code := Paste.Code p; Paste.Theme := Paste.Theme p;
              Paste.ExpiresAt := Paste.ExpiresAt p;
              Paste.Editable := Paste.Editable p;
              Paste.EditKey := util.NewID e_key w_key 12;
              Paste.Author := Paste.Author p;
              Paste.Versions := Paste.Versions p;
              Paste.CreatedAt := Paste.CreatedAt p;
              Paste.UpdatedAt := Paste.UpdatedAt p |}, None)
        else (p, None)
    end.

(** The body shared by [handleEditSave] (lines 305 to 326) and
    [handleAPIEdit] (lines 441 to 459): compare with the last version,
    append when the text or the language changed, refresh the summary
    fields. [None] is the panic of an empty [Versions]. *)
Definition edited (p : Paste) (now : Z) (code lang author : string)
  : option Paste :=
  match last_version (Paste.Versions p) with
  | None => None
  | Some last =>
      let (prevCode, _) := util.GzipDecode (Version.ZCode last) in
      let versions :=
        if negb (String.eqb code prevCode) || negb (String.eqb lang (Version.Lang last))
        then Paste.Versions p
               ++ [ {| Version.ZCode := util.GzipEncode code; Version.Lang := lang;
                       Version.Author := author; Version.At := now |} ]
        else Paste.Versions p in
      Some {| Paste.ID := Paste.ID p;
              Paste.Lang := lang;
              Paste.Code := code;
              Paste.Theme := Paste.Theme p;
              Paste.ExpiresAt := Paste.ExpiresAt p;
              Paste.Editable := Paste.Editable p;
              Paste.EditKey := Paste.EditKey p;
              Paste.Author := if negb (String.eqb author "") then author else Paste.Author p;
              Paste.Versions := versions;
              Paste.CreatedAt := Paste.CreatedAt p;
              Paste.UpdatedAt := now |}
  end.

(** [handleEditSave]; [t_get] is the instant read inside [Store.Get],
    [now] the one read by the handler. *)
Definition handleEditSave (s : gmap string Paste) (t_get now : Z) (r : Request)
  : outcome :=
  let id := URLParam_id r in
  let (p, ok) := store.Get s t_get id in
  if negb ok then Done s NotFound
  else if negb (canEditPaste r p)
  then Done s (Error "Forbidden (kein Edit-Zugriff)" StatusForbidden)
  else if ParseFormErr r then Done s (Error "Bad form" StatusBadRequest)
  else
    let code := TrimSpace (FormValue r "code") in
    let lang := normalizeLang (TrimSpace (FormValue r "lang")) in
    let author := TrimSpace (FormValue r "author") in
    if String.eqb code ""
    then Done s (Error "Code darf nicht leer sein" StatusBadRequest)
    else
      match edited p now code lang author with
      | None => Panic
      | Some p =>
          let s := store.Put s p in
          let c1 :=
            if negb (String.eqb author "")
            then [WriteCookie "np_author" author (180 * 24 * time.Hour)] else [] in
          let k := QueryGet r "key" in
          let c2 :=
            if negb (String.eqb k "") && String.eqb k (Paste.EditKey p)
            then [WriteCookie ("npk_" +:+ Paste.ID p) (Paste.EditKey p)
                    (365 * 24 * time.Hour)]
            else [] in
          Done s {| Status := StatusSeeOther; Body := Text "";
                    Location := "/p/" +:+ Paste.ID p +:+ "?v="
                                +:+ Itoa (length (Paste.Versions p));
                    SetCookies := c1 ++ c2 |}
      end.

(** [handleAPIEdit]. *)
Definition handleAPIEdit (cfg : Config) (s : gmap string Paste) (t_get now : Z)
    (r : Request) : outcome :=
  let id := URLParam_id r in
  let (p, ok) := store.Get s t_get id in
  if negb ok then Done s NotFound
  else
    let key := QueryGet r "key" in
    if String.eqb key "" then Done s (Error "missing ?key" StatusUnauthorized)
    else if negb (Paste.Editable p) || negb (String.eqb key (Paste.EditKey p))
    then Done s (Error "invalid key" StatusForbidden)
    else
      match JSONBody r with
      | None => Done s (Error "invalid JSON" StatusBadRequest)
      | Some req =>
          let code := TrimSpace (apiReq.Code req) in
          if String.eqb code "" then Done s (Error "code empty" StatusBadRequest)
          else
            let lang := normalizeLang (apiReq.Lang req) in
            let author := TrimSpace (apiReq.Author req) in
            match edited p now code lang author with
            | None => Panic
            | Some p =>
                let s := store.Put s p in
                let c :=
                  if negb (String.eqb author "")
                  then [WriteCookie "np_author" author (180 * 24 * time.Hour)]
                  else [] in
                let n := length (Paste.Versions p) in
                Done s {| Status := StatusOK;
                          Body := JSON [("id", JString (Paste.ID p));
                                        ("url", JString (makeURL cfg r
                                           ("/p/" +:+ Paste.ID p +:+ "?v=" +:+ Itoa n)));
                                        ("versions", JInt (Z.of_nat n))];
                          Location := ""; SetCookies := c |}
            end
      end.

(** An accepted call of the append operation: one of the two edit
    handlers runs on [s] and answers with its status of success,
    leaving [s']; [code], [lang] and [author] are the text, language
    and author the handler took from the request. *)
Definition accepted_edit (cfg : Config) (s : gmap string Paste) (t_get now : Z)
    (r : Request) (s' : gmap string Paste) (code lang author : string) : Prop :=
  (exists w,
      handleEditSave s t_get now r = Done s' w
      /\ Status w = StatusSeeOther
      /\ code = TrimSpace (FormValue r "code")
      /\ lang = normalizeLang (TrimSpace (FormValue r "lang"))
      /\ author = TrimSpace (FormValue r "author"))
  \/ (exists w req,
         handleAPIEdit cfg s t_get now r = Done s' w
         /\ Status w = StatusOK
         /\ JSONBody r = Some req
         /\ code = TrimSpace (apiReq.Code req)
         /\ lang = normalizeLang (apiReq.Lang req)
         /\ author = TrimSpace (apiReq.Author req)).

(** [handleRaw]: the text of the last version. *)
Definition handleRaw (s : gmap string Paste) (t_get : Z) (r : Request) : outcome :=
  let id := URLParam_id r in
  let (p, ok) := store.Get s t_get id in
  if negb ok then Done s NotFound
  else
    match last_version (Paste.Versions p) with
    | Some v =>
        let (sText, _) := util.GzipDecode (Version.ZCode v) in
        Done s {| Status := StatusOK; Body := Text sText;
                  Location := ""; SetCookies := [] |}
    | None =>
        Done s {| Status := StatusOK; Body := Text (Paste.Code p);
                  Location := ""; SetCookies := [] |}
    end.

(** [handleView] up to the call of the renderer (lines 177 to 193):
    the index of the version [?v=] selects, the last one by default,
    with the text and the language handed to [render.CodeHTML];
    [inl] is the response of a paste that is not found, [None] the
    panic of an empty [Versions]. *)
Definition handleView_source (s : gmap string Paste) (t_get : Z) (r : Request)
  : Response + option (nat * string * string) :=
  let id := URLParam_id r in
  let (p, ok) := store.Get s t_get id in
  if negb ok then inl NotFound
  else
    let vParam := TrimSpace (QueryGet r "v") in
    let n := length (Paste.Versions p) in
    let vIdx : Z :=
      if negb (String.eqb vParam "") then
        match Atoi vParam with
        | Some k => if (1 <=? k) && (k <=? Z.of_nat n) then k - 1 else Z.of_nat n - 1
        | None => Z.of_nat n - 1
        end
      else Z.of_nat n - 1 in
    if vIdx <? 0 then inr None
    else
      match Paste.Versions p !! Z.to_nat vIdx with
      | None => inr None
      | Some currVer =>
          let (code, _) := util.GzipDecode (Version.ZCode currVer) in
          inr (Some (Z.to_nat vIdx, code, Version.Lang currVer))
      end.

End WithLibraries.

(** [readAuthorCookie]. *)
Definition readAuthorCookie (r : Request) : string :=
  match Cookie r "np_author" with
  | Some v => v
  | None => EmptyString
  end.

(** [orDash]: an em dash for a blank author. *)
Definition orDash (s : string) : string :=
  if String.eqb (TrimSpace s) "" then "—" else s.

(** [bytesHasJSONPrefix]: the first byte after leading spaces, newlines,
    carriage returns and tabs is an opening brace. *)
Fixpoint bytesHasJSONPrefix (b : list byte) : bool :=
  match b with
  | [] => false
  | c :: r =>
      let n := Byte.to_N c in
      if ((n =? 32) || (n =? 10) || (n =? 13) || (n =? 9))%N
      then bytesHasJSONPrefix r
      else (n =? 123)%N
  end.

(** The bytes [bytesHasJSONPrefix] skips: space, newline, carriage
    return and tab. *)
Definition blank (c : byte) : Prop := c = x20 \/ c = x0a \/ c = x0d \/ c = x09.

(** [err.Error()] for the errors that [buildPaste] makes; of the library
    errors, which do not reach a handler, the fixed part of the message. *)
Definition message (e : error) : string :=
  match e with
  | Errorf msg => msg
  | io_EOF => "EOF"
  | io_ErrUnexpectedEOF => "unexpected EOF"
  | gzip_ErrHeader => "gzip: invalid header"
  | gzip_ErrChecksum => "gzip: invalid checksum"
  | flate_CorruptInputError => "flate: corrupt input"
  | time_InvalidDuration => "time: invalid duration"
  end.

(** What [handleAPIPaste] reads of a request besides what the other
    handlers read: two headers and the bytes of the body. *)
Record APIRequest : Type := {
  Req : Request;
  ContentType : string;
  Accept : string;
  RawBody : list byte
}.

(** The data [handleEditForm] hands to the edit template. *)
Record EditForm : Type := {
  form_ID : string;
  form_Code : string;
  form_Langs : list string;
  form_Lang : string;
  form_Author : string;
  form_Key : string
}.

Section WithUnicode.
Context {F : Flate} {D : Durations} {U : GoStrings.Unicode} {C : Calendar}.

(** [handleCreate], with the instant, the random source and the wall
    clock that [buildPaste] reads. *)
Definition handleCreate (s : gmap string Paste) (now : Z)
    (e_id e_key : util.Entropy) (w_id w_key : time.Wall) (r : Request) : outcome :=
  if ParseFormErr r then Done s (Error "Bad form" StatusBadRequest)
  else
    let code := TrimSpace (FormValue r "code") in
    let lang := TrimSpace (FormValue r "lang") in
    let ttl := TrimSpace (FormValue r "ttl") in
    let theme := TrimSpace (FormValue r "theme") in
    let editable := util.IsTruthy (FormValue r "editable") in
    let author := TrimSpace (FormValue r "author") in
    let author := if String.eqb author "" then readAuthorCookie r else author in
    match buildPaste now e_id e_key w_id w_key code lang ttl theme editable author with
    | (_, Some err) => Done s (Error (message err) StatusBadRequest)
    | (p, None) =>
        let s := store.Put s p in
        let c1 :=
          if negb (String.eqb author "")
          then [WriteCookie "np_author" author (180 * 24 * time.Hour)] else [] in
        let c2 :=
          if Paste.Editable p
          then [WriteCookie ("npk_" +:+ Paste.ID p) (Paste.EditKey p)
                  (365 * 24 * time.Hour)]
          else [] in
        Done s {| Status := StatusSeeOther; Body := Text "";
                  Location := "/p/" +:+ Paste.ID p; SetCookies := c1 ++ c2 |}
    end.

(** [handleAPIPaste]. *)
Definition handleAPIPaste (cfg : Config) (s : gmap string Paste) (now : Z)
    (e_id e_key : util.Entropy) (w_id w_key : time.Wall) (a : APIRequest) : outcome :=
  let r := Req a in
  let ct := ContentType a in
  let accept := Accept a in
  let body := RawBody a in
  let parsed : option (string * string * string * string * bool * string) :=
    if HasPrefix ct "application/json"
       || (0 <? length body)%nat && bytesHasJSONPrefix body
    then
      match JSONBody r with
      | None => None
      | Some req =>
          Some (apiReq.Code req, apiReq.Lang req, apiReq.TTL req, apiReq.Theme req,
                apiReq.Editable req, TrimSpace (apiReq.Author req))
      end
    else
      Some (string_of_list_byte body, QueryGet r "lang", QueryGet r "ttl",
            QueryGet r "theme", util.IsTruthy (QueryGet r "editable"),
            TrimSpace (QueryGet r "author")) in
  match parsed with
  | None => Done s (Error "Invalid JSON" StatusBadRequest)
  | Some (code, lang, ttl, theme, editable, author) =>
      match buildPaste now e_id e_key w_id w_key code lang ttl theme editable author with
      | (_, Some err) => Done s (Error (message err) StatusBadRequest)
      | (p, None) =>
          let s := store.Put s p in
          let c1 :=
            if negb (String.eqb author "")
            then [WriteCookie "np_author" author (180 * 24 * time.Hour)] else [] in
          let url := makeURL cfg r ("/p/" +:+ Paste.ID p) in
          let raw := makeURL cfg r ("/raw/" +:+ Paste.ID p) in
          let edit :=
            if Paste.Editable p
            then makeURL cfg r ("/p/" +:+ Paste.ID p +:+ "/edit?key=" +:+ Paste.EditKey p)
            else EmptyString in
          let c2 :=
            if Paste.Editable p
            then [WriteCookie ("npk_" +:+ Paste.ID p) (Paste.EditKey p)
                    (365 * 24 * time.Hour)]
            else [] in
          let nl := String "010"%char EmptyString in
          if ContainsStr accept "application/json"
             || String.eqb (QueryGet r "format") "json"
          then
            Done s {| Status := StatusOK;
                      Body := JSON ([("id", JString (Paste.ID p));
                                     ("url", JString url);
                                     ("raw_url", JString raw)]
                                    ++ (if String.eqb edit "" then []
                                        else [("edit_url", JString edit)])
                                    ++ [("expires_at",
                                         JString (FormatRFC3339 (Paste.ExpiresAt p)))]);
                      Location := ""; SetCookies := c1 ++ c2 |}
          else if negb (String.eqb edit "")
          then Done s {| Status := StatusOK;
                         Body := Text (url +:+ nl +:+ "# edit: " +:+ edit +:+ nl);
                         Location := ""; SetCookies := c1 ++ c2 |}
          else Done s {| Status := StatusOK; Body := Text (url +:+ nl);
                         Location := ""; SetCookies := c1 ++ c2 |}
      end
  end.

(** [handleEditForm]: the response of a paste that is not found or may
    not be edited, or the data of the form; [None] is the panic of an
    empty [Versions]. *)
Definition handleEditForm (s : gmap string Paste) (t_get : Z) (r : Request)
  : Response + option EditForm :=
  let id := URLParam_id r in
  let (p, ok) := store.Get s t_get id in
  if negb ok then inl NotFound
  else if negb (canEditPaste r p) then inl (Error "Forbidden" StatusForbidden)
  else
    match last_version (Paste.Versions p) with
    | None => inr None
    | Some curr =>
        let (code, _) := util.GzipDecode (Version.ZCode curr) in
        let author := readAuthorCookie r in
        let author := if String.eqb author "" then Paste.Author p else author in
        let key := QueryGet r "key" in
        inr (Some {| form_ID := id; form_Code := code; form_Langs := Langs;
                     form_Lang := Version.Lang curr; form_Author := author;
                     form_Key := key |})
    end.

End WithUnicode.

End httpx.

(** ** Requests in flight

    [Store.Get] holds the read lock for the map read and [Store.Put] the
    write lock for the map write; a handler holds no lock in between. A
    request in [handleEditSave] therefore takes two steps on the shared
    map: the read, and the write with the work on its own copy that comes
    before it. *)

Module inflight.

Import model httpx GoStrings.

Section WithLibraries.
Context {F : Flate} {D : Durations}.

Inductive thread : Type :=
  | Start (t_get now : Z) (r : Request)
  | Read (now : Z) (r : Request) (got : Paste * bool)
  | Finished (w : Response)
  | Crashed.

(** [handleEditSave] from the return of [Store.Get] on: [got] is what
    the read returned, [s] the map at the time of the write. *)
Definition commit (s : gmap string Paste) (now : Z) (r : Request)
    (got : Paste * bool) : outcome :=
  let (p, ok) := got in
  if negb ok then Done s NotFound
  else if negb (canEditPaste r p)
  then Done s (Error "Forbidden (kein Edit-Zugriff)" StatusForbidden)
  else if ParseFormErr r then Done s (Error "Bad form" StatusBadRequest)
  else
    let code := TrimSpace (FormValue r "code") in
    let lang := normalizeLang (TrimSpace (FormValue r "lang")) in
    let author := TrimSpace (FormValue r "author") in
    if String.eqb code ""
    then Done s (Error "Code darf nicht leer sein" StatusBadRequest)
    else
      match edited p now code lang author with
      | None => Panic
      | Some p =>
          let s := store.Put s p in
          let c1 :=
            if negb (String.eqb author "")
            then [WriteCookie "np_author" author (180 * 24 * time.Hour)] else [] in
          let k := QueryGet r "key" in
          let c2 :=
            if negb (String.eqb k "") && String.eqb k (Paste.EditKey p)
            then [WriteCookie ("npk_" +:+ Paste.ID p) (Paste.EditKey p)
                    (365 * 24 * time.Hour)]
            else [] in
          Done s {| Status := StatusSeeOther; Body := Text "";
                    Location := "/p/" +:+ Paste.ID p +:+ "?v="
                                +:+ Itoa (length (Paste.Versions p));
                    SetCookies := c1 ++ c2 |}
      end.

(** A request that [handleEditSave] accepts for the paste [p]: the
    token is right, the form parses and the text is not empty. *)
Definition admissible (r : Request) (p : Paste) : Prop :=
  URLParam_id r = Paste.ID p
  /\ canEditPaste r p = true
  /\ ParseFormErr r = false
  /\ TrimSpace (FormValue r "code") <> EmptyString.

(** One step of a request on the shared map. *)
Definition step (s : gmap string Paste) (th : thread)
  : gmap string Paste * thread :=
  match th with
  | Start t_get now r => (s, Read now r (store.Get s t_get (URLParam_id r)))
  | Read now r got =>
      match commit s now r got with
      | Done s' w => (s', Finished w)
      | Panic => (s, Crashed)
      end
  | Finished _ | Crashed => (s, th)
  end.

(** Two requests under a schedule: [true] moves the first, [false] the
    second. *)
Fixpoint run (sch : list bool) (s : gmap string Paste) (a b : thread)
  : gmap string Paste * thread * thread :=
  match sch with
  | [] => (s, a, b)
  | true :: sch' => let (s', a') := step s a in run sch' s' a' b
  | false :: sch' => let (s', b') := step s b in run sch' s' a b'
  end.

(** The schedules that let both requests take their two steps. *)
Definition serial : list (list bool) :=
  [[true; true; false; false]; [false; false; true; true]].

Definition overlapping : list (list bool) :=
  [[true; false; true; false]; [true; false; false; true];
   [false; true; true; false]; [false; true; false; true]].

(** The response of a finished request is the redirect of an accepted
    edit. *)
Definition accepted (th : thread) : bool :=
  match th with
  | Finished w => Status w =? StatusSeeOther
  | _ => false
  end.

End WithLibraries.

End inflight.

(** ** The server as a transition system *)

Module server.

Import model httpx.

Section WithLibraries.
Context {F : Flate} {D : Durations}.

(** What the create handlers, the edit handlers and the janitor do to
    the map. *)
Inductive step (cfg : Config) : gmap string Paste -> gmap string Paste -> Prop :=
  | step_create s now e_id e_key w_id w_key code lang ttl theme editable author p :
      buildPaste now e_id e_key w_id w_key code lang ttl theme editable author
        = (p, None) ->
      step cfg s (store.Put s p)
  | step_edit_save s t_get now r s' w :
      handleEditSave s t_get now r = Done s' w ->
      step cfg s s'
  | step_api_edit s t_get now r s' w :
      handleAPIEdit cfg s t_get now r = Done s' w ->
      step cfg s s'
  | step_tick s now :
      step cfg s (store.sweep s now).

Inductive reachable (cfg : Config) : gmap string Paste -> Prop :=
  | reach_new : reachable cfg store.New
  | reach_step s s' : reachable cfg s -> step cfg s s' -> reachable cfg s'.

(** A version holds what [GzipEncode] returned for some text. *)
Definition encoded (v : Version) : Prop :=
  exists code, Version.ZCode v = util.GzipEncode code.

(** Every entry is filed under its own [ID], has at least one
    version, and holds only encoded versions. *)
Definition wf (s : gmap string Paste) : Prop :=
  forall id p,
    s !! id = Some p ->
    Paste.ID p = id /\ Paste.Versions p <> [] /\ Forall encoded (Paste.Versions p).

End WithLibraries.

Section Entries.
Context {F : Flate}.

(** What the handlers keep true of every entry: it is filed under its
    own [ID] with at least one version, its language, its theme and the
    language of each version are known tags, its text is trimmed and not
    empty, and it has an edit key exactly when it is editable. *)
Definition sound (id : string) (p : Paste) : Prop :=
  Paste.ID p = id
  /\ Paste.Versions p <> []
  /\ GoStrings.Contains Langs (Paste.Lang p) = true
  /\ GoStrings.Contains Themes (Paste.Theme p) = true
  /\ Forall (fun v => GoStrings.Contains Langs (Version.Lang v) = true) (Paste.Versions p)
  /\ Paste.Code p <> EmptyString
  /\ GoStrings.TrimSpace (Paste.Code p) = Paste.Code p
  /\ (Paste.EditKey p <> EmptyString <-> Paste.Editable p = true).

(** The summary fields of an entry repeat its last version. *)
Definition mirrors (p : Paste) : Prop :=
  exists last,
    last_version (Paste.Versions p) = Some last
    /\ fst (util.GzipDecode (Version.ZCode last)) = Paste.Code p
    /\ Version.Lang last = Paste.Lang p.

(** A map all of whose entries are sound, and one all of whose entries
    repeat their last version. *)
Definition all_sound (s : gmap string Paste) : Prop :=
  forall id p, s !! id = Some p -> sound id p.

Definition all_mirror (s : gmap string Paste) : Prop :=
  forall id p, s !! id = Some p -> mirrors p.

End Entries.

End server.

(** ** Concrete data *)

Module examples.

Import model httpx.

Definition entropy_id : util.Entropy :=
  {| util.rand_err := false;
     util.rand_byte := fun i => Binary.low_byte (N.of_nat (37 * i + 11)) |}.

Definition entropy_key : util.Entropy :=
  {| util.rand_err := false;
     util.rand_byte := fun i => Binary.low_byte (N.of_nat (91 * i + 5)) |}.

Definition wall : time.Wall :=
  {| time.hour := 15; time.minute := 4; time.second := 5; time.milli := 7 |}.

Definition created : Z := 1000.

(** An editable paste of one hour, built at [created]. *)
Definition built : Paste * option error :=
  buildPaste (F := StoredFlate.impl) (D := PlainDurations.impl)
    created entropy_id entropy_key wall wall
    "print(1)" "python" "1h" "dark" true "alice".

Definition paste : Paste := fst built.

Definition items : gmap string Paste := store.Put store.New paste.

(** A paste whose only version does not hold a gzip stream. *)
Definition corrupt : Paste :=
  {| Paste.ID := "corrupt"; Paste.Lang := "go"; Paste.Code := "package main";
     Paste.Theme := "dark"; Paste.ExpiresAt := 5000; Paste.Editable := false;
     Paste.EditKey := ""; Paste.Author := "";
     Paste.Versions :=
       [ {| Version.ZCode := [x1f; x8b; x08]; Version.Lang := "go";
            Version.Author := ""; Version.At := 1000 |} ];
     Paste.CreatedAt := 1000; Paste.UpdatedAt := 1000 |}.

Definition request (id : string) (query form : list (string * string)) : Request :=
  {| URLParam_id := id; Query := query; PostForm := form; ParseFormErr := false;
     Cookies := []; JSONBody := None; Host := "localhost:8080"; TLS := false;
     XForwardedProto := "" |}.

(** Two edits of [paste] with the right key and different texts. *)
Definition edit_bob : Request :=
  request (Paste.ID paste) [("key", Paste.EditKey paste)]
    [("code", "print(2)"); ("lang", "python"); ("author", "bob")].

Definition edit_carol : Request :=
  request (Paste.ID paste) [("key", Paste.EditKey paste)]
    [("code", "print(3)"); ("lang", "python"); ("author", "carol")].

(** An edit that resubmits the current text and language. *)
Definition edit_same : Request :=
  request (Paste.ID paste) [("key", Paste.EditKey paste)]
    [("code", " print(1) "); ("lang", "python"); ("author", "dave")].

Definition api_edit_bob : Request :=
  {| URLParam_id := Paste.ID paste; Query := [("key", Paste.EditKey paste)];
     PostForm := []; ParseFormErr := false; Cookies := [];
     JSONBody := Some {| apiReq.Code := "print(2)"; apiReq.Lang := "python"; apiReq.TTL := "";
                         apiReq.Theme := ""; apiReq.Editable := false; apiReq.Author := "bob" |};
     Host := "localhost:8080"; TLS := false; XForwardedProto := "" |}.

Definition config : Config := {| PublicBase := "" |}.

(** A paste that is not editable, and one that lives a nanosecond. *)
Definition plain : Paste :=
fst (buildPaste (F := StoredFlate.impl) (D := PlainDurations.impl)
       created entropy_id entropy_key wall wall
       "print(1)" "python" "1h" "dark" false "").

Definition brief : Paste :=
fst (buildPaste (F := StoredFlate.impl) (D := PlainDurations.impl)
       created entropy_id entropy_key wall wall
       "print(1)" "python" "1ns" "dark" false "").

(** A read of [paste], and a view of its first version. *)
Definition read_paste : Request := request (Paste.ID paste) [] [].

Definition view_first : Request := request (Paste.ID paste) [("v", "1")] [].

Definition view_second : Request := request (Paste.ID paste) [("v", "2")] [].

(** An edit of [paste] that presents the key in the cookie of the paste
    instead of the query. *)
Definition edit_by_cookie : Request :=
{| URLParam_id := Paste.ID paste; Query := [];
   PostForm := [("code", "print(4)"); ("lang", "go"); ("author", "erin")];
   ParseFormErr := false;
   Cookies := [("npk_" +:+ Paste.ID paste, Paste.EditKey paste)];
   JSONBody := None; Host := "localhost:8080"; TLS := false; XForwardedProto := "" |}.

(** The map and the response a handler leaves. *)
Definition saved (o : outcome) : gmap string Paste :=
  match o with
  | Done s _ => s
  | Panic => store.New
  end.

Definition answered (o : outcome) : Response :=
  match o with
  | Done _ w => w
  | Panic => NotFound
  end.

(** The store after the edit of bob, read one nanosecond after the
    creation and written one later. *)
Definition bob_saves : outcome :=
  handleEditSave (F := StoredFlate.impl) items (created + 1) (created + 2) edit_bob.

Definition same_saves : outcome :=
  handleEditSave (F := StoredFlate.impl) items (created + 1) (created + 2) edit_same.

Definition bob_posts : outcome :=
  handleAPIEdit (F := StoredFlate.impl) config items (created + 1) (created + 2)
    api_edit_bob.

(** The edits of bob and carol in flight together: both read, then both
    write. *)
Definition race : gmap string Paste * inflight.thread * inflight.thread :=
  inflight.run (F := StoredFlate.impl) [true; false; true; false] items
    (inflight.Start (created + 1) (created + 2) edit_bob)
    (inflight.Start (created + 1) (created + 3) edit_carol).

(** A store that holds the corrupt paste, and a plain read of it. *)
Definition corrupt_items : gmap string Paste := store.Put store.New corrupt.

Definition read_corrupt : Request := request "corrupt" [] [].

(** [strings.Map(unicode.ToLower, s)] on the strings of the examples,
    which hold no letter outside ASCII. *)
Definition unicode : GoStrings.Unicode := {| GoStrings.MapToLower := fun s => s |}.

(** [t.Format(time.RFC3339)] in UTC for the instants of January 1970. *)
Definition calendar : Calendar :=
{| FormatRFC3339 := fun t =>
     let s := t / time.Second in
     let two := fun n : Z =>
       String (time.digit (Z.to_nat (n / 10))) (String (time.digit (Z.to_nat n)) "") in
     "1970-01-" +:+ two (s / 86400 + 1) +:+ "T" +:+ two (s / 3600 mod 24)
     +:+ ":" +:+ two (s / 60 mod 60) +:+ ":" +:+ two (s mod 60) +:+ "Z" |}.

(** The form that creates an editable paste of one hour. *)
Definition create_form : Request :=
  request "" []
    [("code", " print(1) "); ("lang", "python"); ("ttl", "1h"); ("theme", "dark");
     ("editable", "On"); ("author", "alice")].

Definition alice_creates : outcome :=
  handleCreate (F := StoredFlate.impl) (D := PlainDurations.impl) (U := unicode)
    store.New created entropy_id entropy_key wall wall create_form.

(** A form without text. *)
Definition blank_form : Request :=
  request "" [] [("code", "   "); ("lang", "go")].

(** An upload of plain text to the API. *)
Definition upload : APIRequest :=
{| Req := request "" [("lang", "go")] [];
   ContentType := "text/plain"; Accept := "*/*";
   RawBody := list_byte_of_string "package main" |}.

Definition upload_posts : outcome :=
  handleAPIPaste (F := StoredFlate.impl) (D := PlainDurations.impl) (U := unicode)
    (C := calendar) config items (created + 1) entropy_key entropy_id wall wall upload.

(** An edit of [paste] with a key that is not its key. *)
Definition edit_wrong_key : Request :=
  request (Paste.ID paste) [("key", "guess")] [("code", "print(5)"); ("lang", "go")].

(** The edit form of [paste], and the form submitted as it was served. *)
Definition open_form : Request :=
  request (Paste.ID paste) [("key", Paste.EditKey paste)] [].

Definition served_form : EditForm :=
  match handleEditForm (F := StoredFlate.impl) items (created + 1) open_form with
  | inr (Some form) => form
  | _ => {| form_ID := ""; form_Code := ""; form_Langs := []; form_Lang := "";
            form_Author := ""; form_Key := "" |}
  end.

Definition edit_unchanged : Request :=
  request (Paste.ID paste) [("key", form_Key served_form)]
    [("code", form_Code served_form); ("lang", form_Lang served_form);
     ("author", "dave")].

(** A store that holds the paste that is not editable, and an edit of it. *)
Definition plain_items : gmap string Paste := store.Put store.New plain.

Definition edit_plain : Request :=
  request (Paste.ID plain) [("key", "guess")] [("code", "print(5)"); ("lang", "go")].

(** An upload sent as plain text whose first byte after the blanks is
    an opening brace, and which is not JSON. *)
Definition upload_brace : APIRequest :=
{| Req := request "" [] [];
   ContentType := "text/plain"; Accept := "*/*";
   RawBody := list_byte_of_string "  { return 1; }" |}.

(** A read of the raw text of the paste with a given id. *)
Definition raw_of (id : string) : Request := request id [] [].

End examples.

(** * Properties *)

(** * Properties *)

(** ** Bytes and checksums *)

Section BinaryFacts.

Local Open Scope N_scope.

Lemma low_byte_to_N (n : N) : Byte.to_N (Binary.low_byte n) = n mod 256.
Proof.
  unfold Binary.low_byte.
  destruct (Byte.of_N (n mod 256)) as [b|] eqn:E.
  - now apply Byte.to_of_N.
  - apply Byte.of_N_None_iff in E.
    pose proof (N.mod_upper_bound n 256). lia.
Qed.

Lemma Uint16_PutUint16 (v : N) :
  Binary.Uint16 (Binary.low_byte v) (Binary.low_byte (v / 256)) = v mod 65536.
Proof.
  unfold Binary.Uint16. rewrite !low_byte_to_N.
  change 65536 with (256 * 256).
  rewrite N.Div0.mod_mul_r. reflexivity.
Qed.

Lemma Uint32_PutUint32 (v : N) :
  Binary.Uint32 (Binary.low_byte v) (Binary.low_byte (v / 256))
    (Binary.low_byte (v / 65536)) (Binary.low_byte (v / 16777216))
  = v mod 2 ^ 32.
Proof.
  unfold Binary.Uint32. rewrite !low_byte_to_N.
  change (2 ^ 32) with (256 * (256 * (256 * 256))).
  rewrite !N.Div0.mod_mul_r.
  change 65536 with (256 * 256).
  change 16777216 with (256 * 256 * 256).
  rewrite <- !N.Div0.div_div. lia.
Qed.

Lemma lxor_below (a b : N) (k : N) : a < 2 ^ k -> b < 2 ^ k -> N.lxor a b < 2 ^ k.
Proof.
  intros Ha Hb.
  destruct (N.eq_dec (N.lxor a b) 0) as [->|Hne].
  - apply N.neq_0_lt_0, N.pow_nonzero. lia.
  - apply N.log2_lt_pow2; [lia|].
    pose proof (N.log2_lxor a b) as Hl.
    destruct (N.eq_dec a 0) as [->|Ha0]; destruct (N.eq_dec b 0) as [->|Hb0].
    + now rewrite N.lxor_0_l in Hne.
    + rewrite N.lxor_0_l. apply N.log2_lt_pow2; lia.
    + rewrite N.lxor_0_r. apply N.log2_lt_pow2; lia.
    + apply N.log2_lt_pow2 in Ha; [|lia]. apply N.log2_lt_pow2 in Hb; [|lia]. lia.
Qed.

Lemma shift_below (c : N) : c < 2 ^ 32 -> CRC32.shift c < 2 ^ 32.
Proof.
  intros Hc. unfold CRC32.shift.
  assert (N.shiftr c 1 < 2 ^ 32).
  { rewrite N.shiftr_div_pow2. change (2 ^ 1) with 2.
    pose proof (N.Div0.div_le_upper_bound c 2 (2 ^ 32)). 
    apply N.Div0.div_lt_upper_bound. lia. }
  destruct (N.testbit c 0); [apply lxor_below|]; try assumption.
  reflexivity.
Qed.

Lemma byte_step_below (c : N) (b : byte) : c < 2 ^ 32 -> CRC32.byte_step c b < 2 ^ 32.
Proof.
  intros Hc. unfold CRC32.byte_step.
  assert (H0 : N.lxor c (Byte.to_N b) < 2 ^ 32).
  { apply lxor_below; [assumption|]. pose proof (Byte.to_N_bounded b). lia. }
  generalize dependent (N.lxor c (Byte.to_N b)). intros x Hx.
  do 8 (try apply shift_below). exact Hx.
Qed.

Lemma Update_below (c : N) (p : list byte) : CRC32.Update c p < 2 ^ 32.
Proof.
  unfold CRC32.Update. apply lxor_below; [|reflexivity].
  assert (H0 : N.lxor (c mod 2 ^ 32) 4294967295 < 2 ^ 32).
  { apply lxor_below; [apply N.mod_upper_bound; lia | reflexivity]. }
  generalize dependent (N.lxor (c mod 2 ^ 32) 4294967295).
  induction p as [|b p IH]; intros x Hx; simpl; [exact Hx|].
  apply IH, byte_step_below, Hx.
Qed.

End BinaryFacts.

(** ** The gzip container *)

Section GzipFacts.
Context {F : Flate}.

Lemma readHeader_header (lvl : Z) (r : list byte) :
  Gzip.readHeader (Gzip.header lvl ++ r) = inr r.
Proof.
  unfold Gzip.header.
  destruct (lvl =? Gzip.BestCompression); [reflexivity|].
  destruct (lvl =? Gzip.BestSpeed); reflexivity.
Qed.

(** What a writer leaves in an empty buffer after one [Write] and
    [Close]. *)
Lemma written_once (lvl : Z) (zw : Gzip.Writer) (p : list byte) :
  Gzip.NewWriterLevel [] lvl = Some zw ->
  Gzip.out (Gzip.Close (Gzip.Write zw p))
  = Gzip.header lvl
      ++ deflate lvl p
      ++ Binary.PutUint32 (CRC32.Update 0 p)
      ++ Binary.PutUint32 (N.of_nat (length p) mod 2 ^ 32).
Proof.
  unfold Gzip.NewWriterLevel.
  destruct (_ || _); [discriminate|]. intros [= <-].
  reflexivity.
Qed.

(** One member followed by the end of the input reads back as its
    data. *)
Lemma ReadAll_member (lvl : Z) (p : list byte) :
  flate_sound F ->
  -2 <= lvl <= 9 ->
  Gzip.ReadAll (deflate lvl p
                  ++ Binary.PutUint32 (CRC32.Update 0 p)
                  ++ Binary.PutUint32 (N.of_nat (length p) mod 2 ^ 32))
  = inr p.
Proof.
  intros Hs Hl. unfold Gzip.ReadAll.
  cbn [Gzip.readMembers]. rewrite (Hs lvl p _ Hl).
  unfold Binary.PutUint32. cbn [app].
  rewrite !Uint32_PutUint32.
  rewrite (N.mod_small (CRC32.Update 0 p)) by apply Update_below.
  rewrite N.Div0.mod_mod, !N.eqb_refl. reflexivity.
Qed.

End GzipFacts.

(** ** The stored-block reference codec satisfies the contract *)

Section StoredFacts.

Import StoredFlate.

Lemma block_in (f : nat) (final : bool) (chunk rest acc : list byte) :
  (N.of_nat (length chunk) <= 65535)%N ->
  blocks_in (S f) (block final chunk ++ rest) acc
  = if final then inr (acc ++ chunk, rest) else blocks_in f rest (acc ++ chunk).
Proof.
  intros Hlen. unfold block, Binary.PutUint16. cbn [app blocks_in].
  rewrite !Uint16_PutUint16.
  assert (Hb : (2 <=? Byte.to_N (if final then x01 else x00))%N = false)
    by (destruct final; reflexivity).
  rewrite Hb.
  rewrite !N.mod_small by lia.
  replace (65535 - (65535 - N.of_nat (length chunk)))%N
    with (N.of_nat (length chunk)) by lia.
  rewrite N.eqb_refl. cbn [negb].
  rewrite Nat2N.id.
  assert (Hr : (N.of_nat (length (chunk ++ rest)) <? N.of_nat (length chunk))%N = false).
  { apply N.ltb_ge. rewrite length_app. lia. }
  rewrite Hr.
  rewrite take_app_length, drop_app_length.
  destruct final; reflexivity.
Qed.

Lemma blocks_sound (f : nat) :
  forall (g : nat) (data rest acc : list byte),
    (f < g)%nat ->
    (length data <= f * maxStored)%nat ->
    blocks_in g (blocks f data ++ rest) acc = inr (acc ++ data, rest).
Proof.
  induction f as [|f IH]; intros g data rest acc Hg Hlen.
  - destruct data; [|simpl in Hlen; lia].
    destruct g; [lia|]. cbn [blocks]. rewrite block_in; [reflexivity|]. simpl. lia.
  - destruct g as [|g]; [lia|]. cbn [blocks].
    destruct (N.leb_spec (N.of_nat (length data)) 65535) as [Hs|Hs].
    + now rewrite block_in.
    + assert (Hm : length (take maxStored data) = maxStored).
      { rewrite length_take. unfold maxStored. lia. }
      rewrite <- app_assoc, block_in by (rewrite Hm; unfold maxStored; lia).
      rewrite IH.
      * now rewrite <- app_assoc, take_drop.
      * lia.
      * rewrite length_drop. unfold maxStored in *. lia.
Qed.

Lemma blocks_length (f : nat) :
  forall data : list byte, (length data + 5 <= length (blocks f data))%nat.
Proof.
  induction f as [|f IH]; intros data; cbn [blocks].
  - unfold block. simpl. lia.
  - destruct (_ <=? _)%N; [unfold block; simpl; lia|].
    rewrite length_app. unfold block at 1.
    pose proof (IH (drop maxStored data)) as H.
    rewrite length_drop in H.
    cbn [length]. rewrite !length_app, length_take. cbn [length Binary.PutUint16]. lia.
Qed.

Theorem stored_sound : flate_sound impl.
Proof.
  intros lvl data rest _. cbn [inflate deflate impl].
  unfold decompress, compress.
  apply (blocks_sound (length data) _ data rest []).
  - rewrite length_app. pose proof (blocks_length (length data) data). lia.
  - unfold maxStored. lia.
Qed.

End StoredFacts.

(** ** The codec *)

Section CodecFacts.
Context {F : Flate}.

Lemma GzipEncode_bytes (s : string) :
  util.GzipEncode s
  = Gzip.header Gzip.BestSpeed
      ++ deflate Gzip.BestSpeed (list_byte_of_string s)
      ++ Binary.PutUint32 (CRC32.Update 0 (list_byte_of_string s))
      ++ Binary.PutUint32 (N.of_nat (length (list_byte_of_string s)) mod 2 ^ 32).
Proof.
  unfold util.GzipEncode.
  destruct (Gzip.NewWriterLevel [] Gzip.BestSpeed) as [zw|] eqn:E.
  - now apply written_once.
  - discriminate E.
Qed.

(** What [GzipEncode] returns decodes to the text it was given. *)
Lemma decode_encode (Hs : flate_sound F) (s : string) :
  util.GzipDecode (util.GzipEncode s) = (s, None).
Proof.
  rewrite GzipEncode_bytes.
  unfold util.GzipDecode, Gzip.NewReader.
  rewrite readHeader_header, (ReadAll_member _ _ Hs) by (unfold Gzip.BestSpeed; lia).
  now rewrite string_of_list_byte_of_string.
Qed.

(** A failed decode returns the empty string with its error. *)
Lemma GzipDecode_error (b : list byte) (e : error) :
  snd (util.GzipDecode b) = Some e -> util.GzipDecode b = (EmptyString, Some e).
Proof.
  unfold util.GzipDecode.
  destruct (Gzip.NewReader b) as [e1|zr]; [now intros [= ->]|].
  destruct (Gzip.ReadAll zr) as [e2|o]; [now intros [= ->]|discriminate].
Qed.

End CodecFacts.

(** ** The store *)

Section StoreFacts.

Import model store.

Lemma Get_found (s : gmap string Paste) (now : Z) (id : string) (p : Paste) :
  s !! id = Some p -> now <= Paste.ExpiresAt p -> Get s now id = (p, true).
Proof.
  intros Hl Hn. unfold Get. rewrite Hl.
  destruct (Z.ltb_spec (Paste.ExpiresAt p) now); [lia|reflexivity].
Qed.

Lemma Get_expired (s : gmap string Paste) (now : Z) (id : string) (p : Paste) :
  s !! id = Some p -> Paste.ExpiresAt p < now -> Get s now id = (Paste.zero, false).
Proof.
  intros Hl Hn. unfold Get. rewrite Hl.
  destruct (Z.ltb_spec (Paste.ExpiresAt p) now); [reflexivity|lia].
Qed.

Lemma Get_absent (s : gmap string Paste) (now : Z) (id : string) :
  s !! id = None -> Get s now id = (Paste.zero, false).
Proof. intros Hl. unfold Get. now rewrite Hl. Qed.

Lemma Get_true (s : gmap string Paste) (now : Z) (id : string) (p : Paste) :
  Get s now id = (p, true) -> s !! id = Some p /\ now <= Paste.ExpiresAt p.
Proof.
  unfold Get. destruct (s !! id) as [q|]; [|discriminate].
  destruct (Z.ltb_spec (Paste.ExpiresAt q) now); [discriminate|].
  intros [= ->]. split; [reflexivity|lia].
Qed.

Lemma lookup_Put (s : gmap string Paste) (p : Paste) :
  Put s p !! Paste.ID p = Some p.
Proof. apply lookup_insert_eq. Qed.

Lemma lookup_Put_ne (s : gmap string Paste) (p : Paste) (id : string) :
  Paste.ID p <> id -> Put s p !! id = s !! id.
Proof. intros H. now apply lookup_insert_ne. Qed.

Lemma lookup_sweep (s : gmap string Paste) (now : Z) (id : string) :
  sweep s now !! id
  = match s !! id with
    | Some p => if Paste.ExpiresAt p <? now then None else Some p
    | None => None
    end.
Proof.
  unfold sweep. destruct (s !! id) as [p|] eqn:E.
  - destruct (Z.ltb_spec (Paste.ExpiresAt p) now).
    + apply map_lookup_filter_None. right. intros q Hq. rewrite E in Hq.
      injection Hq as <-. simpl. tauto.
    + apply map_lookup_filter_Some. split; [assumption|]. simpl. lia.
  - apply map_lookup_filter_None. left. assumption.
Qed.

(** Sweeps that ran no later than [now] keep an entry that [now] has
    not passed. *)
Lemma lookup_sweeps_kept (ticks : list Z) :
  forall (s : gmap string Paste) (now : Z) (id : string) (p : Paste),
    s !! id = Some p ->
    now <= Paste.ExpiresAt p ->
    Forall (fun t => t <= now) ticks ->
    fold_left sweep ticks s !! id = Some p.
Proof.
  induction ticks as [|t ticks IH]; intros s now id p Hl Hn Ht; [exact Hl|].
  inversion Ht as [|? ? Hle Hrest]; subst. cbn [fold_left].
  apply (IH _ now); try assumption.
  rewrite lookup_sweep, Hl.
  destruct (Z.ltb_spec (Paste.ExpiresAt p) t); [lia|reflexivity].
Qed.

(** A sweep never adds or changes an entry. *)
Lemma lookup_sweeps_sub (ticks : list Z) :
  forall (s : gmap string Paste) (id : string) (q : Paste),
    fold_left sweep ticks s !! id = Some q -> s !! id = Some q.
Proof.
  induction ticks as [|t ticks IH]; intros s id q H; [exact H|].
  cbn [fold_left] in H. apply IH in H.
  rewrite lookup_sweep in H. destruct (s !! id) as [p|]; [|discriminate].
  destruct (_ <? _); [discriminate|assumption].
Qed.

Lemma CountActive_size (s : gmap string Paste) (now : Z) :
  CountActive s now = size (filter (store.active now) s).
Proof.
  unfold CountActive.
  induction s as [|id p s Hid Hfold IH] using map_first_key_ind.
  - rewrite map_fold_empty, map_filter_empty. reflexivity.
  - rewrite map_fold_insert_first_key by assumption.
    rewrite IH.
    destruct (Z.ltb_spec now (Paste.ExpiresAt p)).
    + rewrite map_filter_insert_True by (unfold store.active; simpl; lia).
      rewrite map_size_insert_None; [reflexivity|].
      apply map_lookup_filter_None. now left.
    + rewrite map_filter_insert_False by (unfold store.active; simpl; lia).
      rewrite delete_id by assumption. reflexivity.
Qed.

End StoreFacts.

(** The edit token policy. *)

Section PolicyFacts.

Import model httpx.

Lemma canEditPaste_token (r : Request) (p : Paste) :
  canEditPaste r p
  = Paste.Editable p
    && negb (String.eqb (presentedToken r p) "")
    && String.eqb (presentedToken r p) (Paste.EditKey p).
Proof.
  unfold canEditPaste, presentedToken.
  destruct (Paste.Editable p); reflexivity.
Qed.

End PolicyFacts.

(** ** Creation *)

Section CreateFacts.
Context {F : Flate} {D : Durations}.

Import model httpx.

Lemma EncodeToString_nonempty (l : list byte) :
  l <> [] -> Base64.EncodeToString l <> EmptyString.
Proof.
  destruct l as [|a [|b [|c l]]]; [congruence| | |]; intros _; discriminate.
Qed.

Lemma NewID_nonempty (e : util.Entropy) (w : time.Wall) (n : nat) :
  (0 < n)%nat -> util.NewID e w n <> EmptyString.
Proof.
  intros Hn. unfold util.NewID.
  destruct (util.rand_err e); apply EncodeToString_nonempty.
  - discriminate.
  - destruct n; [lia|]. discriminate.
Qed.

(** The shape of a paste that [buildPaste] returns without error. *)
Lemma buildPaste_ok now e_id e_key w_id w_key code lang ttl theme editable author p :
  buildPaste now e_id e_key w_id w_key code lang ttl theme editable author = (p, None) ->
  GoStrings.TrimSpace code <> EmptyString
  /\ snd (util.ParseTTL ttl) = None
  /\ Paste.ID p = util.NewID e_id w_id 8
  /\ Paste.ExpiresAt p = now + fst (util.ParseTTL ttl)
  /\ Paste.Editable p = editable
  /\ Paste.EditKey p = (if editable then util.NewID e_key w_key 12 else EmptyString)
  /\ Paste.Versions p
     = [ {| Version.ZCode := util.GzipEncode (GoStrings.TrimSpace code);
            Version.Lang := normalizeLang lang;
            Version.Author := author; Version.At := now |} ]
  /\ Paste.CreatedAt p = now
  /\ Paste.UpdatedAt p = now.
Proof.
  unfold buildPaste.
  destruct (String.eqb_spec (GoStrings.TrimSpace code) EmptyString) as [E|E];
    [discriminate|].
  destruct (util.ParseTTL ttl) as [dur [err|]]; [discriminate|].
  destruct editable; intros [= <-]; cbn; repeat split; assumption.
Qed.

Lemma ParseTTL_other (s : string) :
  s <> "1h"%string -> s <> "24h"%string -> s <> "168h"%string ->
  s <> "7d"%string -> s <> EmptyString ->
  util.ParseTTL s = ParseDuration s.
Proof.
  intros H1 H2 H3 H4 H5. unfold util.ParseTTL.
  apply String.eqb_neq in H1, H2, H3, H4, H5.
  now rewrite H1, H2, H3, H4, H5.
Qed.

End CreateFacts.

(** ** Edits *)

Section EditFacts.
Context {F : Flate} {D : Durations}.

Import model httpx.

(** The version an edit appends. *)
Let appended (now : Z) (code lang author : string) : Version :=
  {| Version.ZCode := util.GzipEncode code; Version.Lang := lang;
     Version.Author := author; Version.At := now |}.

Lemma last_version_app (l : list Version) (v : Version) :
  last_version (l ++ [v]) = Some v.
Proof.
  unfold last_version. rewrite length_app. cbn [length].
  rewrite lookup_app_r by lia.
  replace (length l + 1 - 1 - length l)%nat with 0%nat by lia. reflexivity.
Qed.

Lemma last_version_Some (l : list Version) (v : Version) :
  last_version l = Some v -> l <> [].
Proof. intros H ->. discriminate H. Qed.

Lemma edited_frame p now code lang author p' :
  edited p now code lang author = Some p' ->
  Paste.ID p' = Paste.ID p
  /\ Paste.ExpiresAt p' = Paste.ExpiresAt p
  /\ Paste.Editable p' = Paste.Editable p
  /\ Paste.EditKey p' = Paste.EditKey p
  /\ Paste.CreatedAt p' = Paste.CreatedAt p
  /\ Paste.UpdatedAt p' = now
  /\ Paste.Author p' = (if String.eqb author "" then Paste.Author p else author).
Proof.
  unfold edited. destruct (last_version (Paste.Versions p)) as [last|]; [|discriminate].
  destruct (util.GzipDecode (Version.ZCode last)) as [prev err].
  intros [= <-]. cbn [Paste.ID Paste.ExpiresAt Paste.Editable Paste.EditKey
                      Paste.CreatedAt Paste.UpdatedAt Paste.Author].
  destruct (String.eqb author ""); repeat split.
Qed.

Lemma edited_versions p now code lang author p' :
  edited p now code lang author = Some p' ->
  exists last,
    last_version (Paste.Versions p) = Some last
    /\ Paste.Versions p'
       = if String.eqb code (fst (util.GzipDecode (Version.ZCode last)))
            && String.eqb lang (Version.Lang last)
         then Paste.Versions p
         else Paste.Versions p ++ [appended now code lang author].
Proof.
  unfold edited. destruct (last_version (Paste.Versions p)) as [last|]; [|discriminate].
  intros H. exists last. split; [reflexivity|].
  destruct (util.GzipDecode (Version.ZCode last)) as [prev err].
  injection H as <-. cbn [Paste.Versions fst].
  destruct (String.eqb code prev), (String.eqb lang (Version.Lang last)); reflexivity.
Qed.

Lemma edited_total p now code lang author last :
  last_version (Paste.Versions p) = Some last ->
  exists p', edited p now code lang author = Some p'.
Proof.
  intros Hl. unfold edited. rewrite Hl.
  destruct (util.GzipDecode (Version.ZCode last)). eauto.
Qed.

(** What an accepted edit did: it read a live, editable paste, edited
    its copy and put the copy back. *)
Lemma accepted_edit_inv cfg s t_get now r s' code lang author :
  accepted_edit cfg s t_get now r s' code lang author ->
  exists p p',
    store.Get s t_get (URLParam_id r) = (p, true)
    /\ Paste.Editable p = true
    /\ code <> EmptyString
    /\ edited p now code lang author = Some p'
    /\ s' = store.Put s p'.
Proof.
  intros [(w & Hrun & Hst & -> & -> & ->) | (w & req & Hrun & Hst & Hreq & -> & -> & ->)].
  - unfold handleEditSave in Hrun.
    destruct (store.Get s t_get (URLParam_id r)) as [p ok].
    destruct ok; cbn [negb] in Hrun; [|injection Hrun as <- <-; discriminate Hst].
    destruct (canEditPaste r p) eqn:Hcan; cbn [negb] in Hrun;
      [|injection Hrun as <- <-; discriminate Hst].
    destruct (ParseFormErr r); [injection Hrun as <- <-; discriminate Hst|].
    destruct (String.eqb_spec (GoStrings.TrimSpace (FormValue r "code")) "");
      [injection Hrun as <- <-; discriminate Hst|].
    destruct (edited p now _ _ _) as [p'|] eqn:He; [|discriminate].
    injection Hrun as <- <-.
    exists p, p'. repeat split; try assumption.
    rewrite canEditPaste_token in Hcan.
    destruct (Paste.Editable p); [reflexivity | discriminate Hcan].
  - unfold handleAPIEdit in Hrun. rewrite Hreq in Hrun.
    destruct (store.Get s t_get (URLParam_id r)) as [p ok].
    destruct ok; cbn [negb] in Hrun; [|injection Hrun as <- <-; discriminate Hst].
    destruct (String.eqb (QueryGet r "key") "");
      [injection Hrun as <- <-; discriminate Hst|].
    destruct (Paste.Editable p) eqn:Hed; cbn [negb orb] in Hrun;
      [|injection Hrun as <- <-; discriminate Hst].
    destruct (String.eqb (QueryGet r "key") (Paste.EditKey p)); cbn [negb] in Hrun;
      [|injection Hrun as <- <-; discriminate Hst].
    destruct (String.eqb_spec (GoStrings.TrimSpace (apiReq.Code req)) "");
      [injection Hrun as <- <-; discriminate Hst|].
    destruct (edited p now _ _ _) as [p'|] eqn:He; [|discriminate].
    injection Hrun as <- <-.
    exists p, p'. repeat split; assumption.
Qed.

(** The entry of the edited identifier after an accepted edit. *)
Lemma accepted_edit_entry cfg s t_get now r s' code lang author p :
  accepted_edit cfg s t_get now r s' code lang author ->
  s !! URLParam_id r = Some p ->
  Paste.ID p = URLParam_id r ->
  exists p',
    edited p now code lang author = Some p'
    /\ s' !! URLParam_id r = Some p'
    /\ t_get <= Paste.ExpiresAt p.
Proof.
  intros Ha Hl Hid.
  destruct (accepted_edit_inv _ _ _ _ _ _ _ _ _ Ha) as (q & p' & Hg & _ & _ & He & ->).
  apply Get_true in Hg as [Hq Hlive]. rewrite Hl in Hq. injection Hq as <-.
  exists p'. split; [assumption|]. split; [|assumption].
  destruct (edited_frame _ _ _ _ _ _ He) as (Hid' & _).
  rewrite <- Hid, <- Hid'. apply lookup_Put.
Qed.

Lemma handleRaw_last s t (r : Request) p v :
  s !! URLParam_id r = Some p ->
  t <= Paste.ExpiresAt p ->
  last_version (Paste.Versions p) = Some v ->
  handleRaw s t r
  = Done s {| Status := StatusOK;
              Body := Text (fst (util.GzipDecode (Version.ZCode v)));
              Location := ""; SetCookies := [] |}.
Proof.
  intros Hl Ht Hv. unfold handleRaw.
  rewrite (Get_found _ _ _ _ Hl Ht). cbn [negb]. rewrite Hv.
  destruct (util.GzipDecode (Version.ZCode v)). reflexivity.
Qed.

End EditFacts.

(** ** Reads of a version that does not decode *)

Section ReadFacts.
Context {F : Flate} {D : Durations}.

Import model httpx.

(** What [handleView] hands to the renderer is the decoded text of one
    of the versions, with the error of the decoding dropped. *)
Lemma handleView_source_selected s t (r : Request) p k code lang :
  s !! URLParam_id r = Some p ->
  handleView_source s t r = inr (Some (k, code, lang)) ->
  exists v,
    Paste.Versions p !! k = Some v
    /\ code = fst (util.GzipDecode (Version.ZCode v))
    /\ lang = Version.Lang v.
Proof.
  intros Hl. unfold handleView_source, store.Get. rewrite Hl.
  destruct (Paste.ExpiresAt p <? t); cbn [negb]; [discriminate|].
  match goal with |- context [if ?c then inr None else _] => destruct c end;
    [discriminate|].
  match goal with |- context [Paste.Versions p !! ?i] =>
    destruct (Paste.Versions p !! i) as [v|] eqn:Ev end; [|discriminate].
  destruct (util.GzipDecode (Version.ZCode v)) as [c e] eqn:Ed.
  intros [= <- <- <-]. exists v. rewrite Ed. repeat split. exact Ev.
Qed.

End ReadFacts.

(** ** Two edits in flight *)

Section InflightFacts.
Context {F : Flate} {D : Durations}.

Import model httpx inflight.

(** Run alone, the two steps of a request are the handler. *)
Lemma handleEditSave_commit s t_get now r :
  handleEditSave s t_get now r = commit s now r (store.Get s t_get (URLParam_id r)).
Proof. reflexivity. Qed.

Lemma canEditPaste_edited r p p' now code lang author :
  edited p now code lang author = Some p' ->
  canEditPaste r p' = canEditPaste r p.
Proof.
  intros He.
  destruct (edited_frame _ _ _ _ _ _ He) as (Hid & _ & Hed & Hkey & _).
  unfold canEditPaste. now rewrite Hid, Hed, Hkey.
Qed.

Lemma admissible_edited r p p' now code lang author :
  edited p now code lang author = Some p' ->
  admissible r p -> admissible r p'.
Proof.
  intros He (Hid & Hcan & Hform & Hcode).
  destruct (edited_frame _ _ _ _ _ _ He) as (Hid' & _).
  repeat split; try assumption.
  - congruence.
  - now rewrite (canEditPaste_edited _ _ _ _ _ _ _ He).
Qed.

(** The write step of an admissible request that read [p]. *)
Lemma step_Read r p last now :
  admissible r p ->
  last_version (Paste.Versions p) = Some last ->
  exists p' w,
    edited p now (GoStrings.TrimSpace (FormValue r "code"))
      (normalizeLang (GoStrings.TrimSpace (FormValue r "lang")))
      (GoStrings.TrimSpace (FormValue r "author")) = Some p'
    /\ Status w = StatusSeeOther
    /\ forall s, step s (Read now r (p, true)) = (store.Put s p', Finished w).
Proof.
  intros (Hid & Hcan & Hform & Hcode) Hlast.
  destruct (edited_total p now (GoStrings.TrimSpace (FormValue r "code"))
              (normalizeLang (GoStrings.TrimSpace (FormValue r "lang")))
              (GoStrings.TrimSpace (FormValue r "author")) last Hlast) as (p' & He).
  exists p'. eexists. split; [exact He|]. split; [|intros s].
  2:{ cbn [step commit negb]. rewrite Hcan, Hform. cbn [negb].
      apply String.eqb_neq in Hcode. rewrite Hcode, He. reflexivity. }
  reflexivity.
Qed.

Lemma edited_length_changed p p' last now code lang author :
  edited p now code lang author = Some p' ->
  last_version (Paste.Versions p) = Some last ->
  code <> fst (util.GzipDecode (Version.ZCode last)) ->
  length (Paste.Versions p') = S (length (Paste.Versions p))
  /\ last_version (Paste.Versions p')
     = Some {| Version.ZCode := util.GzipEncode code; Version.Lang := lang;
               Version.Author := author; Version.At := now |}.
Proof.
  intros He Hlast Hne.
  destruct (edited_versions _ _ _ _ _ _ He) as (last' & Hlast' & Hv).
  rewrite Hlast in Hlast'. injection Hlast' as <-.
  apply String.eqb_neq in Hne. rewrite Hne in Hv. cbn [andb] in Hv.
  rewrite Hv, length_app. cbn [length]. split; [lia|apply last_version_app].
Qed.

(** The requests exchanged, the schedule mirrored. *)
Lemma run_swap sch :
  forall s a b,
    run (map negb sch) s a b
    = let '(s', b', a') := run sch s b a in (s', a', b').
Proof.
  induction sch as [|[|] sch IH]; intros s a b; cbn [map negb run]; [reflexivity| |].
  - destruct (step s b) as [s1 b1]. apply IH.
  - destruct (step s a) as [s1 a1]. apply IH.
Qed.

Lemma step_Start s t now r :
  step s (Start t now r) = (s, Read now r (store.Get s t (URLParam_id r))).
Proof. reflexivity. Qed.

(** The first request reads and writes, then the second. *)
Lemma run_serial (Hs : flate_sound F) s p last ra rb ta na tb nb :
  s !! Paste.ID p = Some p ->
  last_version (Paste.Versions p) = Some last ->
  admissible ra p -> admissible rb p ->
  ta <= Paste.ExpiresAt p -> tb <= Paste.ExpiresAt p ->
  GoStrings.TrimSpace (FormValue ra "code")
    <> fst (util.GzipDecode (Version.ZCode last)) ->
  GoStrings.TrimSpace (FormValue rb "code")
    <> GoStrings.TrimSpace (FormValue ra "code") ->
  exists s' wa wb p',
    run [true; true; false; false] s (Start ta na ra) (Start tb nb rb)
    = (s', Finished wa, Finished wb)
    /\ Status wa = StatusSeeOther /\ Status wb = StatusSeeOther
    /\ s' !! Paste.ID p = Some p'
    /\ length (Paste.Versions p') = (length (Paste.Versions p) + 2)%nat.
Proof.
  intros Hl Hlast Ha Hb Hta Htb Hna Hnb.
  destruct (step_Read ra p last na Ha Hlast) as (pa & wa & Hea & Hwa & Hstep_a).
  destruct (edited_length_changed _ _ _ _ _ _ _ Hea Hlast Hna) as (Hlen_a & Hlast_a).
  destruct (edited_frame _ _ _ _ _ _ Hea) as (Hid_a & Hexp_a & _).
  pose proof (admissible_edited _ _ _ _ _ _ _ Hea Hb) as Hb'.
  destruct (step_Read rb pa _ nb Hb' Hlast_a) as (pb & wb & Heb & Hwb & Hstep_b).
  assert (Hnb' : GoStrings.TrimSpace (FormValue rb "code")
                 <> fst (util.GzipDecode (Version.ZCode
                      {| Version.ZCode :=
                           util.GzipEncode (GoStrings.TrimSpace (FormValue ra "code"));
                         Version.Lang :=
                           normalizeLang (GoStrings.TrimSpace (FormValue ra "lang"));
                         Version.Author := GoStrings.TrimSpace (FormValue ra "author");
                         Version.At := na |}))).
  { cbn [Version.ZCode]. now rewrite (decode_encode Hs _). }
  destruct (edited_length_changed _ _ _ _ _ _ _ Heb Hlast_a Hnb') as (Hlen_b & _).
  destruct (edited_frame _ _ _ _ _ _ Heb) as (Hid_b & _).
  exists (store.Put (store.Put s pa) pb), wa, wb, pb.
  split; [|split; [exact Hwa|split; [exact Hwb|split]]].
  - destruct Ha as (Hra & _), Hb as (Hrb & _).
    cbn [run]. rewrite step_Start, Hra, (Get_found _ _ _ _ Hl Hta).
    cbv beta iota. rewrite Hstep_a. cbv beta iota.
    rewrite step_Start, Hrb.
    rewrite (Get_found (store.Put s pa) tb (Paste.ID p) pa);
      [| rewrite <- Hid_a; apply lookup_Put | lia].
    cbv beta iota. now rewrite Hstep_b.
  - rewrite <- Hid_a, <- Hid_b. apply lookup_Put.
  - lia.
Qed.

(** Both requests read before either writes; the second write is the
    one that stays. *)
Lemma run_overlapping s p last ra rb ta na tb nb (second_first : bool) :
  s !! Paste.ID p = Some p ->
  last_version (Paste.Versions p) = Some last ->
  admissible ra p -> admissible rb p ->
  ta <= Paste.ExpiresAt p -> tb <= Paste.ExpiresAt p ->
  GoStrings.TrimSpace (FormValue ra "code")
    <> fst (util.GzipDecode (Version.ZCode last)) ->
  GoStrings.TrimSpace (FormValue rb "code")
    <> fst (util.GzipDecode (Version.ZCode last)) ->
  exists s' wa wb p',
    run (if second_first then [true; false; false; true] else [true; false; true; false])
      s (Start ta na ra) (Start tb nb rb)
    = (s', Finished wa, Finished wb)
    /\ Status wa = StatusSeeOther /\ Status wb = StatusSeeOther
    /\ s' !! Paste.ID p = Some p'
    /\ length (Paste.Versions p') = (length (Paste.Versions p) + 1)%nat.
Proof.
  intros Hl Hlast Ha Hb Hta Htb Hna Hnb.
  destruct (step_Read ra p last na Ha Hlast) as (pa & wa & Hea & Hwa & Hstep_a).
  destruct (step_Read rb p last nb Hb Hlast) as (pb & wb & Heb & Hwb & Hstep_b).
  destruct (edited_length_changed _ _ _ _ _ _ _ Hea Hlast Hna) as (Hlen_a & _).
  destruct (edited_length_changed _ _ _ _ _ _ _ Heb Hlast Hnb) as (Hlen_b & _).
  destruct (edited_frame _ _ _ _ _ _ Hea) as (Hid_a & _).
  destruct (edited_frame _ _ _ _ _ _ Heb) as (Hid_b & _).
  destruct Ha as (Hra & _), Hb as (Hrb & _).
  destruct second_first.
  - exists (store.Put (store.Put s pb) pa), wa, wb, pa.
    split; [|split; [exact Hwa|split; [exact Hwb|split]]].
    + cbn [run]. rewrite step_Start, Hra, (Get_found _ _ _ _ Hl Hta).
      cbv beta iota. rewrite step_Start, Hrb, (Get_found _ _ _ _ Hl Htb).
      cbv beta iota. rewrite Hstep_b. cbv beta iota. now rewrite Hstep_a.
    + rewrite <- Hid_a. apply lookup_Put.
    + lia.
  - exists (store.Put (store.Put s pa) pb), wa, wb, pb.
    split; [|split; [exact Hwa|split; [exact Hwb|split]]].
    + cbn [run]. rewrite step_Start, Hra, (Get_found _ _ _ _ Hl Hta).
      cbv beta iota. rewrite step_Start, Hrb, (Get_found _ _ _ _ Hl Htb).
      cbv beta iota. rewrite Hstep_a. cbv beta iota. now rewrite Hstep_b.
    + rewrite <- Hid_b. apply lookup_Put.
    + lia.
Qed.

End InflightFacts.

(** ** What every reachable store satisfies *)

Section ServerFacts.
Context {F : Flate} {D : Durations}.

Import model httpx server.

Lemma wf_New : wf store.New.
Proof. intros id p H. unfold store.New in H. now rewrite lookup_empty in H. Qed.

Lemma wf_Put s p :
  wf s ->
  Paste.Versions p <> [] ->
  Forall encoded (Paste.Versions p) ->
  wf (store.Put s p).
Proof.
  intros Hwf Hne Henc id q Hq. unfold store.Put in Hq.
  destruct (String.eqb_spec (Paste.ID p) id) as [<-|E].
  - rewrite lookup_insert_eq in Hq. injection Hq as <-. repeat split; assumption.
  - rewrite lookup_insert_ne in Hq by assumption. now apply Hwf.
Qed.

Lemma wf_sweep s now : wf s -> wf (store.sweep s now).
Proof.
  intros Hwf id q Hq. rewrite lookup_sweep in Hq.
  destruct (s !! id) as [p|] eqn:E; [|discriminate].
  destruct (_ <? _); [discriminate|]. injection Hq as <-. now apply Hwf.
Qed.

Lemma edited_wf p p' now code lang author :
  edited p now code lang author = Some p' ->
  Forall encoded (Paste.Versions p) ->
  Paste.Versions p' <> [] /\ Forall encoded (Paste.Versions p').
Proof.
  intros He Henc.
  destruct (edited_versions _ _ _ _ _ _ He) as (last & Hlast & Hv).
  rewrite Hv. destruct (_ && _).
  - split; [now apply last_version_Some in Hlast | assumption].
  - split; [now destruct (Paste.Versions p)|].
    apply Forall_app. split; [assumption|].
    constructor; [now exists code | constructor].
Qed.

(** A run of [handleEditSave] leaves the map as it was or puts back an
    edited copy of an entry. *)
Lemma handleEditSave_Done s t_get now r s' w :
  handleEditSave s t_get now r = Done s' w ->
  s' = s
  \/ exists p p' code lang author,
       s !! URLParam_id r = Some p
       /\ edited p now code lang author = Some p'
       /\ s' = store.Put s p'.
Proof.
  unfold handleEditSave.
  destruct (store.Get s t_get (URLParam_id r)) as [p ok] eqn:Hg.
  destruct ok; cbn [negb]; [|intros [= <- _]; now left].
  destruct (canEditPaste r p); cbn [negb]; [|intros [= <- _]; now left].
  destruct (ParseFormErr r); [intros [= <- _]; now left|].
  destruct (String.eqb _ ""); [intros [= <- _]; now left|].
  destruct (edited p now _ _ _) as [p'|] eqn:He; [|discriminate].
  intros [= <- _]. right. apply Get_true in Hg as [Hl _]. eauto 10.
Qed.

Lemma handleAPIEdit_Done cfg s t_get now r s' w :
  handleAPIEdit cfg s t_get now r = Done s' w ->
  s' = s
  \/ exists p p' code lang author,
       s !! URLParam_id r = Some p
       /\ edited p now code lang author = Some p'
       /\ s' = store.Put s p'.
Proof.
  unfold handleAPIEdit.
  destruct (store.Get s t_get (URLParam_id r)) as [p ok] eqn:Hg.
  destruct ok; cbn [negb]; [|intros [= <- _]; now left].
  destruct (String.eqb (QueryGet r "key") ""); [intros [= <- _]; now left|].
  destruct (negb (Paste.Editable p) || _); [intros [= <- _]; now left|].
  destruct (JSONBody r) as [req|]; [|intros [= <- _]; now left].
  destruct (String.eqb _ ""); [intros [= <- _]; now left|].
  destruct (edited p now _ _ _) as [p'|] eqn:He; [|discriminate].
  intros [= <- _]. right. apply Get_true in Hg as [Hl _]. eauto 10.
Qed.

Lemma step_wf cfg s s' : step cfg s s' -> wf s -> wf s'.
Proof.
  intros Hstep Hwf. destruct Hstep as [s now e_id e_key w_id w_key code lang ttl theme
                                         editable author p Hb
                                      | s t_get now r s' w Hrun
                                      | s t_get now r s' w Hrun
                                      | s now].
  - destruct (buildPaste_ok _ _ _ _ _ _ _ _ _ _ _ _ Hb)
      as (_ & _ & _ & _ & _ & _ & Hv & _).
    apply wf_Put; [assumption | now rewrite Hv |].
    rewrite Hv. constructor; [|constructor]. now eexists.
  - destruct (handleEditSave_Done _ _ _ _ _ _ Hrun)
      as [->|(p & p' & c & l & a & Hl & He & ->)]; [assumption|].
    destruct (Hwf _ _ Hl) as (_ & _ & Henc).
    destruct (edited_wf _ _ _ _ _ _ He Henc). now apply wf_Put.
  - destruct (handleAPIEdit_Done _ _ _ _ _ _ _ Hrun)
      as [->|(p & p' & c & l & a & Hl & He & ->)]; [assumption|].
    destruct (Hwf _ _ Hl) as (_ & _ & Henc).
    destruct (edited_wf _ _ _ _ _ _ He Henc). now apply wf_Put.
  - now apply wf_sweep.
Qed.

Theorem reachable_wf cfg s : reachable cfg s -> wf s.
Proof.
  induction 1 as [|s s' _ IH Hstep]; [apply wf_New | exact (step_wf _ _ _ Hstep IH)].
Qed.

(** With a sound compress/flate, no version of a reachable store fails
    to decode. *)
Corollary reachable_decodes cfg s id p v :
  flate_sound F ->
  reachable cfg s ->
  s !! id = Some p ->
  In v (Paste.Versions p) ->
  snd (util.GzipDecode (Version.ZCode v)) = None.
Proof.
  intros Hs Hr Hl Hv.
  destruct (reachable_wf _ _ Hr _ _ Hl) as (_ & _ & Henc).
  rewrite Forall_forall in Henc.
  destruct (Henc v) as (code & ->); [now apply list_elem_of_In|].
  now rewrite (decode_encode Hs code).
Qed.

End ServerFacts.

(** ** The scenarios of the specification, run *)

Section Scenarios.

Import model httpx examples.

(** Scenario A: a paste that is not editable has one version and no edit
    key, and reads back with its text. *)
Example scenario_A :
  length (Paste.Versions plain) = 1%nat
  /\ Paste.EditKey plain = EmptyString
  /\ answered (handleRaw (F := StoredFlate.impl) (store.Put store.New plain)
                (created + 1) (request (Paste.ID plain) [] []))
     = {| Status := 200; Body := Text "print(1)"; Location := ""; SetCookies := [] |}.
Proof. repeat split; vm_compute; reflexivity. Qed.

(** Scenario B: an edit with the right key makes a second version, which
    is then the current one, and the first is still there by index. *)
Example scenario_B :
  Paste.EditKey paste <> EmptyString
  /\ Status (answered bob_saves) = StatusSeeOther
  /\ (length ∘ Paste.Versions) <$> (saved bob_saves !! Paste.ID paste) = Some 2%nat
  /\ Body (answered (handleRaw (F := StoredFlate.impl) (saved bob_saves)
                      (created + 3) read_paste)) = Text "print(2)"
  /\ handleView_source (F := StoredFlate.impl) (saved bob_saves) (created + 3) view_first
     = inr (Some (0%nat, "print(1)"%string, "python"%string)).
Proof. repeat split; try (vm_compute; reflexivity). vm_compute. discriminate. Qed.

(** Scenario C: a paste whose TTL has passed is not found. *)
Example scenario_C :
  store.Get (store.Put store.New brief) (created + 2) (Paste.ID brief)
  = (Paste.zero, false).
Proof. vm_compute. reflexivity. Qed.

End Scenarios.

Ltac absurd_In :=
  let H := fresh "H" in
  intros H; cbn in H; repeat (destruct H as [H|H]; [discriminate H|]); destruct H.

(** * The claims of the specification *)

(** C1 as stated fails at the boundary: a paste built with a TTL of one
    hour is still found by a read at exactly creation plus one hour. *)
Lemma Get_at_expiry_found :
  examples.built = (examples.paste, None)
  /\ model.Paste.ExpiresAt examples.paste = examples.created + time.Hour
  /\ store.Get examples.items (examples.created + time.Hour)
       (model.Paste.ID examples.paste) = (examples.paste, true).
Proof.
  split; [reflexivity|]. split; [reflexivity|].
  apply Get_found; [apply lookup_Put | vm_compute; discriminate].
Qed.

(** C1, amended. For every object created with TTL [t] and stored,
    [Get] returns the object at every read instant up to and including
    creation plus [t], and reports it not found at every read instant
    strictly after creation plus [t], whatever sweeps of the janitor ran
    before the read. *)
Theorem Get_after_create (F : Flate) (D : Durations)
    (s : gmap string Paste) (created : Z) (e_id e_key : util.Entropy)
    (w_id w_key : time.Wall) (code lang ttl theme : string) (editable : bool)
    (author : string) (p : Paste) (t : Z) (ticks : list Z) (now : Z) :
  httpx.buildPaste created e_id e_key w_id w_key code lang ttl theme editable author
    = (p, None) ->
  util.ParseTTL ttl = (t, None) ->
  Forall (fun tick => tick <= now) ticks ->
  let s' := fold_left store.sweep ticks (store.Put s p) in
  (now <= created + t -> store.Get s' now (model.Paste.ID p) = (p, true))
  /\ (created + t < now ->
      store.Get s' now (model.Paste.ID p) = (model.Paste.zero, false)).
Proof.
  intros Hb Ht Hticks s'.
  destruct (buildPaste_ok _ _ _ _ _ _ _ _ _ _ _ _ Hb)
    as (_ & _ & _ & Hexp & _).
  rewrite Ht in Hexp. cbn in Hexp.
  split; intros Hnow.
  - apply Get_found; [|lia].
    apply (lookup_sweeps_kept ticks _ now); [apply lookup_Put | lia | assumption].
  - destruct (s' !! model.Paste.ID p) as [q|] eqn:E.
    + pose proof (lookup_sweeps_sub _ _ _ _ E) as Hq.
      rewrite lookup_Put in Hq. injection Hq as <-.
      apply (Get_expired _ _ _ p); [assumption|lia].
    + now apply Get_absent.
Qed.

Lemma Get_after_create_witness :
  store.Get (fold_left store.sweep [examples.created + 5]
               (store.Put store.New examples.paste))
    (examples.created + time.Hour) (model.Paste.ID examples.paste)
  = (examples.paste, true).
Proof.
  apply (Get_after_create StoredFlate.impl PlainDurations.impl store.New
           examples.created examples.entropy_id examples.entropy_key
           examples.wall examples.wall
           "print(1)" "python" "1h" "dark" true "alice"
           examples.paste time.Hour [examples.created + 5]
           (examples.created + time.Hour)).
  - reflexivity.
  - reflexivity.
  - repeat constructor. vm_compute. discriminate.
  - lia.
Defined.

(** C2 as stated fails: two accepted edits of one paste with different
    texts, each reading before the other writes, leave two versions, not
    three. *)
Lemma lost_update :
  inflight.accepted (snd (fst examples.race)) = true
  /\ inflight.accepted (snd examples.race) = true
  /\ length (model.Paste.Versions examples.paste) = 1%nat
  /\ (length ∘ model.Paste.Versions) <$> (fst (fst examples.race) !! model.Paste.ID examples.paste)
     = Some 2%nat.
Proof. repeat split; vm_compute; reflexivity. Qed.

(** C2, amended. [Store.Get] and [Store.Put] are each atomic, the
    sequence from the read to the write of an edit is not. Two edits in
    flight on one live object, with texts that differ from each other and
    from the current one, are both accepted under every schedule of their
    steps; when one writes before the other reads, [Versions] ends two
    longer, and when both read before either writes, the later write
    replaces the earlier one and [Versions] ends one longer. *)
Theorem two_edits_in_flight (F : Flate) (D : Durations)
    (s : gmap string Paste) (p : Paste) (last : Version)
    (ra rb : httpx.Request) (ta na tb nb : Z) (sch : list bool) :
  flate_sound F ->
  s !! model.Paste.ID p = Some p ->
  httpx.last_version (model.Paste.Versions p) = Some last ->
  inflight.admissible ra p ->
  inflight.admissible rb p ->
  ta <= model.Paste.ExpiresAt p ->
  tb <= model.Paste.ExpiresAt p ->
  GoStrings.TrimSpace (httpx.FormValue ra "code")
    <> fst (util.GzipDecode (model.Version.ZCode last)) ->
  GoStrings.TrimSpace (httpx.FormValue rb "code")
    <> fst (util.GzipDecode (model.Version.ZCode last)) ->
  GoStrings.TrimSpace (httpx.FormValue ra "code")
    <> GoStrings.TrimSpace (httpx.FormValue rb "code") ->
  In sch (inflight.serial ++ inflight.overlapping) ->
  exists s' wa wb p',
    inflight.run sch s (inflight.Start ta na ra) (inflight.Start tb nb rb)
    = (s', inflight.Finished wa, inflight.Finished wb)
    /\ httpx.Status wa = httpx.StatusSeeOther
    /\ httpx.Status wb = httpx.StatusSeeOther
    /\ s' !! model.Paste.ID p = Some p'
    /\ (In sch inflight.serial ->
        length (model.Paste.Versions p') = (length (model.Paste.Versions p) + 2)%nat)
    /\ (In sch inflight.overlapping ->
        length (model.Paste.Versions p') = (length (model.Paste.Versions p) + 1)%nat).
Proof.
  intros Hs Hl Hlast Ha Hb Hta Htb Hna Hnb Hab Hsch.
  assert (Hba : GoStrings.TrimSpace (httpx.FormValue rb "code")
                <> GoStrings.TrimSpace (httpx.FormValue ra "code")) by congruence.
  cbn in Hsch.
  destruct Hsch as [<-|[<-|[<-|[<-|[<-|[<-|[]]]]]]].
  - destruct (run_serial Hs s p last ra rb ta na tb nb Hl Hlast Ha Hb Hta Htb Hna Hba)
      as (s' & wa & wb & p' & Hrun & Hwa & Hwb & Hl' & Hlen).
    exists s', wa, wb, p'. repeat split; try assumption.
    all: try (intros _; assumption); absurd_In.
  - destruct (run_serial Hs s p last rb ra tb nb ta na Hl Hlast Hb Ha Htb Hta Hnb Hab)
      as (s' & wb & wa & p' & Hrun & Hwb & Hwa & Hl' & Hlen).
    exists s', wa, wb, p'.
    change [false; false; true; true] with (map negb [true; true; false; false]).
    rewrite run_swap, Hrun. repeat split; try assumption.
    all: try (intros _; assumption); absurd_In.
  - destruct (run_overlapping s p last ra rb ta na tb nb false
                Hl Hlast Ha Hb Hta Htb Hna Hnb)
      as (s' & wa & wb & p' & Hrun & Hwa & Hwb & Hl' & Hlen).
    exists s', wa, wb, p'. repeat split; try assumption.
    all: try (intros _; assumption); absurd_In.
  - destruct (run_overlapping s p last ra rb ta na tb nb true
                Hl Hlast Ha Hb Hta Htb Hna Hnb)
      as (s' & wa & wb & p' & Hrun & Hwa & Hwb & Hl' & Hlen).
    exists s', wa, wb, p'. repeat split; try assumption.
    all: try (intros _; assumption); absurd_In.
  - destruct (run_overlapping s p last rb ra tb nb ta na true
                Hl Hlast Hb Ha Htb Hta Hnb Hna)
      as (s' & wb & wa & p' & Hrun & Hwb & Hwa & Hl' & Hlen).
    exists s', wa, wb, p'.
    change [false; true; true; false] with (map negb [true; false; false; true]).
    rewrite run_swap, Hrun. repeat split; try assumption.
    all: try (intros _; assumption); absurd_In.
  - destruct (run_overlapping s p last rb ra tb nb ta na false
                Hl Hlast Hb Ha Htb Hta Hnb Hna)
      as (s' & wb & wa & p' & Hrun & Hwb & Hwa & Hl' & Hlen).
    exists s', wa, wb, p'.
    change [false; true; false; true] with (map negb [true; false; true; false]).
    rewrite run_swap, Hrun. repeat split; try assumption.
    all: try (intros _; assumption); absurd_In.
Qed.

Lemma two_edits_in_flight_witness :
  exists s' wa wb p',
    inflight.run (F := StoredFlate.impl) [true; true; false; false] examples.items
      (inflight.Start (examples.created + 1) (examples.created + 2) examples.edit_bob)
      (inflight.Start (examples.created + 3) (examples.created + 4) examples.edit_carol)
    = (s', inflight.Finished wa, inflight.Finished wb)
    /\ s' !! model.Paste.ID examples.paste = Some p'
    /\ length (model.Paste.Versions p') = 3%nat.
Proof.
  destruct (two_edits_in_flight StoredFlate.impl PlainDurations.impl
              examples.items examples.paste _ examples.edit_bob examples.edit_carol
              (examples.created + 1) (examples.created + 2)
              (examples.created + 3) (examples.created + 4)
              [true; true; false; false] stored_sound (lookup_Put _ _) eq_refl)
    as (s' & wa & wb & p' & Hrun & _ & _ & Hl & Hser & _).
  - repeat split; vm_compute; discriminate.
  - repeat split; vm_compute; discriminate.
  - vm_compute. discriminate.
  - vm_compute. discriminate.
  - vm_compute. discriminate.
  - vm_compute. discriminate.
  - vm_compute. discriminate.
  - left. reflexivity.
  - exists s', wa, wb, p'. split; [exact Hrun|]. split; [exact Hl|].
    apply Hser. left. reflexivity.
Defined.

(** C3. For every content string [s], decoding what [GzipEncode] returns
    for [s] succeeds and gives [s] back: [GzipDecode (GzipEncode s)] is
    [(s, nil)], for every implementation of compress/flate that decodes
    what it encodes. *)
Theorem GzipDecode_GzipEncode (F : Flate) (s : string) :
  flate_sound F ->
  util.GzipDecode (util.GzipEncode s) = (s, None).
Proof. intros Hs. exact (decode_encode Hs s). Qed.

Lemma GzipDecode_GzipEncode_witness :
  flate_sound StoredFlate.impl /\
  util.GzipDecode (F := StoredFlate.impl) (util.GzipEncode (F := StoredFlate.impl) "print(1)")
  = ("print(1)", None).
Proof.
  split; [exact stored_sound | exact (GzipDecode_GzipEncode StoredFlate.impl "print(1)" stored_sound)].
Defined.

(** C4. For every object and every presented token, [canEditPaste] is
    true if and only if the object is editable, the token is not empty and
    the token equals the object's edit key; an empty token, a wrong token
    and an object that is not editable each give false. *)
Theorem canEditPaste_iff (r : httpx.Request) (p : Paste) :
  (httpx.canEditPaste r p = true
   <-> model.Paste.Editable p = true
       /\ httpx.presentedToken r p <> EmptyString
       /\ httpx.presentedToken r p = model.Paste.EditKey p)
  /\ (httpx.presentedToken r p = EmptyString -> httpx.canEditPaste r p = false)
  /\ (httpx.presentedToken r p <> model.Paste.EditKey p -> httpx.canEditPaste r p = false)
  /\ (model.Paste.Editable p = false -> httpx.canEditPaste r p = false).
Proof.
  rewrite canEditPaste_token.
  destruct (model.Paste.Editable p);
    destruct (String.eqb_spec (httpx.presentedToken r p) EmptyString) as [E|E];
    destruct (String.eqb_spec (httpx.presentedToken r p) (model.Paste.EditKey p)) as [K|K];
    cbn; intuition congruence.
Qed.

Lemma canEditPaste_iff_witness :
  httpx.canEditPaste examples.edit_bob examples.paste = true
  /\ httpx.canEditPaste (examples.request "x" [] []) examples.paste = false.
Proof.
  split.
  - destruct (canEditPaste_iff examples.edit_bob examples.paste) as (Hiff & _).
    apply Hiff.
    split; [reflexivity | split; [intros H; vm_compute in H; discriminate H | reflexivity]].
  - destruct (canEditPaste_iff (examples.request "x" [] []) examples.paste)
      as (_ & Hempty & _).
    apply Hempty. reflexivity.
Defined.

(** C5. An accepted edit whose text differs from that of the current
    (last) version appends exactly one version, so that the length of
    [Versions] grows by one, and the new version is the current one of
    the reads that follow: [Get] returns the paste with it last, and
    [handleRaw] answers with its text. *)
Theorem different_text_appends (F : Flate) (D : Durations) (cfg : httpx.Config)
    (s s' : gmap string Paste) (t_get now : Z) (r : httpx.Request)
    (code lang author : string) (p : Paste) (last : Version) :
  flate_sound F ->
  httpx.accepted_edit cfg s t_get now r s' code lang author ->
  s !! httpx.URLParam_id r = Some p ->
  model.Paste.ID p = httpx.URLParam_id r ->
  httpx.last_version (model.Paste.Versions p) = Some last ->
  code <> fst (util.GzipDecode (model.Version.ZCode last)) ->
  exists (p' : Paste) (v : Version),
    s' !! httpx.URLParam_id r = Some p'
    /\ model.Paste.Versions p' = model.Paste.Versions p ++ [v]
    /\ length (model.Paste.Versions p') = S (length (model.Paste.Versions p))
    /\ fst (util.GzipDecode (model.Version.ZCode v)) = code
    /\ model.Version.Lang v = lang
    /\ forall (t : Z) (r' : httpx.Request),
         t <= model.Paste.ExpiresAt p ->
         httpx.URLParam_id r' = httpx.URLParam_id r ->
         store.Get s' t (httpx.URLParam_id r) = (p', true)
         /\ httpx.last_version (model.Paste.Versions p') = Some v
         /\ httpx.handleRaw s' t r'
            = httpx.Done s' {| httpx.Status := httpx.StatusOK;
                               httpx.Body := httpx.Text code;
                               httpx.Location := EmptyString;
                               httpx.SetCookies := [] |}.
Proof.
  intros Hs Ha Hl Hid Hlast Hne.
  destruct (accepted_edit_entry _ _ _ _ _ _ _ _ _ _ Ha Hl Hid) as (p' & He & Hl' & _).
  destruct (edited_versions _ _ _ _ _ _ He) as (last' & Hlast' & Hv).
  rewrite Hlast in Hlast'. injection Hlast' as <-.
  apply String.eqb_neq in Hne. rewrite Hne in Hv. cbn [andb] in Hv.
  destruct (edited_frame _ _ _ _ _ _ He) as (_ & Hexp & _).
  eexists p', _. split; [exact Hl'|]. split; [exact Hv|].
  split; [rewrite Hv, length_app; cbn [length]; lia|].
  cbn [model.Version.ZCode model.Version.Lang].
  rewrite (decode_encode Hs code).
  split; [reflexivity|]. split; [reflexivity|].
  intros t r' Ht Hr'.
  assert (Hlv : httpx.last_version (model.Paste.Versions p') = Some _)
    by (rewrite Hv; apply last_version_app).
  split; [apply Get_found; [assumption|lia]|]. split; [exact Hlv|].
  assert (Hl'' : s' !! httpx.URLParam_id r' = Some p') by now rewrite Hr'.
  assert (Ht' : t <= model.Paste.ExpiresAt p') by lia.
  rewrite (handleRaw_last s' t r' p' _ Hl'' Ht' Hlv).
  cbn [model.Version.ZCode]. now rewrite (decode_encode Hs code).
Qed.

Lemma different_text_appends_witness :
  exists p' : Paste,
    examples.saved examples.bob_saves !! model.Paste.ID examples.paste = Some p'
    /\ length (model.Paste.Versions p') = 2%nat.
Proof.
  assert (Ha : httpx.accepted_edit (F := StoredFlate.impl) examples.config examples.items
                 (examples.created + 1) (examples.created + 2) examples.edit_bob
                 (examples.saved examples.bob_saves) "print(2)" "python" "bob").
  { left. exists (examples.answered examples.bob_saves).
    repeat split; vm_compute; reflexivity. }
  destruct (different_text_appends StoredFlate.impl PlainDurations.impl examples.config
              examples.items _ _ _ examples.edit_bob _ _ _ examples.paste
              _ stored_sound Ha (lookup_Put _ _) eq_refl eq_refl)
    as (p' & v & Hl & _ & Hlen & _).
  { vm_compute. discriminate. }
  exists p'. split; [exact Hl | exact Hlen].
Defined.

(** C6. An accepted edit of a live editable object whose text and
    language both equal those of the current (last) version appends no
    version: [Versions] and its length are unchanged, while [UpdatedAt]
    becomes the instant of the edit and [Author] the submitted author when
    that is not empty. *)
Theorem same_text_keeps_history (F : Flate) (D : Durations) (cfg : httpx.Config)
    (s s' : gmap string Paste) (t_get now : Z) (r : httpx.Request)
    (code lang author : string) (p : Paste) (last : Version) :
  httpx.accepted_edit cfg s t_get now r s' code lang author ->
  s !! httpx.URLParam_id r = Some p ->
  model.Paste.ID p = httpx.URLParam_id r ->
  httpx.last_version (model.Paste.Versions p) = Some last ->
  code = fst (util.GzipDecode (model.Version.ZCode last)) ->
  lang = model.Version.Lang last ->
  exists p' : Paste,
    s' !! httpx.URLParam_id r = Some p'
    /\ model.Paste.Versions p' = model.Paste.Versions p
    /\ length (model.Paste.Versions p') = length (model.Paste.Versions p)
    /\ model.Paste.UpdatedAt p' = now
    /\ (author <> EmptyString -> model.Paste.Author p' = author)
    /\ (author = EmptyString -> model.Paste.Author p' = model.Paste.Author p).
Proof.
  intros Ha Hl Hid Hlast Hc Hg.
  destruct (accepted_edit_entry _ _ _ _ _ _ _ _ _ _ Ha Hl Hid) as (p' & He & Hl' & _).
  destruct (edited_versions _ _ _ _ _ _ He) as (last' & Hlast' & Hv).
  rewrite Hlast in Hlast'. injection Hlast' as <-.
  rewrite <- Hc, <- Hg, !String.eqb_refl in Hv. cbn [andb] in Hv.
  destruct (edited_frame _ _ _ _ _ _ He) as (_ & _ & _ & _ & _ & Hup & Hau).
  exists p'. split; [exact Hl'|]. split; [exact Hv|].
  split; [now rewrite Hv|]. split; [exact Hup|].
  destruct (String.eqb_spec author EmptyString) as [E|E]; split; congruence.
Qed.

Lemma same_text_keeps_history_witness :
  exists p' : Paste,
    examples.saved examples.same_saves !! model.Paste.ID examples.paste = Some p'
    /\ length (model.Paste.Versions p') = 1%nat
    /\ model.Paste.Author p' = "dave"%string.
Proof.
  assert (Ha : httpx.accepted_edit (F := StoredFlate.impl) examples.config examples.items
                 (examples.created + 1) (examples.created + 2) examples.edit_same
                 (examples.saved examples.same_saves) "print(1)" "python" "dave").
  { left. exists (examples.answered examples.same_saves).
    repeat split; vm_compute; reflexivity. }
  destruct (same_text_keeps_history StoredFlate.impl PlainDurations.impl examples.config
              examples.items _ _ _ examples.edit_same _ _ _ examples.paste
              _ Ha (lookup_Put _ _) eq_refl eq_refl)
    as (p' & Hl & _ & Hlen & _ & Hau & _).
  { vm_compute. reflexivity. }
  { reflexivity. }
  exists p'. split; [exact Hl|]. split; [exact Hlen|].
  apply Hau. discriminate.
Defined.

(** C7. [buildPaste] rejects a text that is empty once trimmed with the
    error of an empty text, and a TTL that does not parse with the error
    of an invalid TTL, building no object in either case; a paste it
    returns has exactly one version, an edit key that is non-empty exactly
    when [editable] was asked for, and expires at the instant of creation
    plus the parsed TTL; the TTL is one of "1h", "24h", "168h" or "7d",
    the empty string for 24 hours, and otherwise what [time.ParseDuration]
    accepts. *)
Theorem buildPaste_contract (F : Flate) (D : Durations)
    (now : Z) (e_id e_key : util.Entropy) (w_id w_key : time.Wall)
    (code lang ttl theme : string) (editable : bool) (author : string) :
  let built :=
    httpx.buildPaste now e_id e_key w_id w_key code lang ttl theme editable author in
  (GoStrings.TrimSpace code = EmptyString ->
   built = (model.Paste.zero, Some (Errorf "Code darf nicht leer sein")))
  /\ (GoStrings.TrimSpace code <> EmptyString ->
      snd (util.ParseTTL ttl) <> None ->
      built = (model.Paste.zero, Some (Errorf "Ungültige TTL")))
  /\ (forall p : Paste,
        built = (p, None) ->
        length (model.Paste.Versions p) = 1%nat
        /\ (model.Paste.EditKey p <> EmptyString <-> editable = true)
        /\ snd (util.ParseTTL ttl) = None
        /\ model.Paste.CreatedAt p = now
        /\ model.Paste.ExpiresAt p = now + fst (util.ParseTTL ttl))
  /\ util.ParseTTL "1h" = (time.Hour, None)
  /\ util.ParseTTL "24h" = (24 * time.Hour, None)
  /\ util.ParseTTL "168h" = (168 * time.Hour, None)
  /\ util.ParseTTL "7d" = (168 * time.Hour, None)
  /\ util.ParseTTL "" = (24 * time.Hour, None)
  /\ (ttl <> "1h"%string -> ttl <> "24h"%string -> ttl <> "168h"%string ->
      ttl <> "7d"%string -> ttl <> EmptyString ->
      util.ParseTTL ttl = ParseDuration ttl).
Proof.
  intros built. subst built.
  split; [|split; [|split; [|repeat split; try reflexivity]]].
  - intros E. unfold httpx.buildPaste. now rewrite E.
  - intros E Herr. unfold httpx.buildPaste.
    apply String.eqb_neq in E. rewrite E.
    destruct (util.ParseTTL ttl) as [dur [err|]]; [reflexivity|].
    now contradiction Herr.
  - intros p Hp.
    destruct (buildPaste_ok _ _ _ _ _ _ _ _ _ _ _ _ Hp)
      as (_ & Hnone & _ & Hexp & _ & Hkey & Hv & Hc & _).
    rewrite Hv, Hkey. repeat split; try assumption.
    + destruct editable; [reflexivity|congruence].
    + intros ->. apply NewID_nonempty. lia.
  - apply ParseTTL_other.
Qed.

Lemma buildPaste_contract_witness :
  length (model.Paste.Versions examples.paste) = 1%nat
  /\ model.Paste.ExpiresAt examples.paste = examples.created + time.Hour.
Proof.
  destruct (buildPaste_contract StoredFlate.impl PlainDurations.impl
              examples.created examples.entropy_id examples.entropy_key
              examples.wall examples.wall
              "print(1)" "python" "1h" "dark" true "alice")
    as (_ & _ & Hok & _).
  destruct (Hok examples.paste) as (Hlen & _ & _ & _ & Hexp); [reflexivity|].
  split; [exact Hlen | exact Hexp].
Defined.

(** C8 as stated fails: the only version of a stored paste holds bytes
    that do not decode, and [handleRaw] answers 200 with an empty text,
    as [handleView] hands the empty text to the renderer. *)
Lemma corrupt_read_serves_empty :
  util.GzipDecode (F := StoredFlate.impl) [x1f; x8b; x08]
  = (EmptyString, Some io_ErrUnexpectedEOF)
  /\ httpx.handleRaw (F := StoredFlate.impl) examples.corrupt_items 1001
       examples.read_corrupt
     = httpx.Done examples.corrupt_items
         {| httpx.Status := 200; httpx.Body := httpx.Text EmptyString;
            httpx.Location := EmptyString; httpx.SetCookies := [] |}
  /\ httpx.handleView_source (F := StoredFlate.impl) examples.corrupt_items 1001
       examples.read_corrupt
     = inr (Some (0%nat, EmptyString, "go"%string)).
Proof. repeat split; vm_compute; reflexivity. Qed.

(** C8, amended. When the stored bytes of a version fail to decode,
    [GzipDecode] returns the empty string together with the error; the
    read handlers drop that error: [handleRaw] answers 200 with the empty
    string as the text of the last version, and [handleView] hands the
    empty string to the renderer as the text of the version it selected. *)
Theorem decode_failure_dropped (F : Flate) (D : Durations)
    (s : gmap string Paste) (t : Z) (r : httpx.Request) (p : Paste) :
  s !! httpx.URLParam_id r = Some p ->
  t <= model.Paste.ExpiresAt p ->
  (forall (v : Version) (e : error),
      snd (util.GzipDecode (model.Version.ZCode v)) = Some e ->
      util.GzipDecode (model.Version.ZCode v) = (EmptyString, Some e))
  /\ (forall (v : Version) (e : error),
        httpx.last_version (model.Paste.Versions p) = Some v ->
        snd (util.GzipDecode (model.Version.ZCode v)) = Some e ->
        httpx.handleRaw s t r
        = httpx.Done s {| httpx.Status := httpx.StatusOK;
                          httpx.Body := httpx.Text EmptyString;
                          httpx.Location := EmptyString;
                          httpx.SetCookies := [] |})
  /\ (forall (k : nat) (code lang : string) (v : Version) (e : error),
        httpx.handleView_source s t r = inr (Some (k, code, lang)) ->
        model.Paste.Versions p !! k = Some v ->
        snd (util.GzipDecode (model.Version.ZCode v)) = Some e ->
        code = EmptyString).
Proof.
  intros Hl Ht. split; [|split].
  - intros v e. apply GzipDecode_error.
  - intros v e Hv He.
    rewrite (handleRaw_last s t r p v Hl Ht Hv).
    now rewrite (GzipDecode_error _ _ He).
  - intros k code lang v e Hsrc Hk He.
    destruct (handleView_source_selected _ _ _ _ _ _ _ Hl Hsrc) as (v' & Hk' & -> & _).
    rewrite Hk in Hk'. injection Hk' as <-.
    now rewrite (GzipDecode_error _ _ He).
Qed.

Lemma decode_failure_dropped_witness :
  httpx.handleRaw (F := StoredFlate.impl) examples.corrupt_items 1001
    examples.read_corrupt
  = httpx.Done examples.corrupt_items
      {| httpx.Status := httpx.StatusOK; httpx.Body := httpx.Text EmptyString;
         httpx.Location := EmptyString; httpx.SetCookies := [] |}.
Proof.
  destruct (decode_failure_dropped StoredFlate.impl PlainDurations.impl
              examples.corrupt_items 1001 examples.read_corrupt examples.corrupt)
    as (_ & Hraw & _).
  - apply lookup_Put.
  - vm_compute. discriminate.
  - eapply Hraw; [reflexivity | vm_compute; reflexivity].
Defined.

(** C9. An accepted edit leaves the object's [ExpiresAt] as it was, and
    likewise its [ID], [Editable], [EditKey] and [CreatedAt]. *)
Theorem edit_frame (F : Flate) (D : Durations) (cfg : httpx.Config)
    (s s' : gmap string Paste) (t_get now : Z) (r : httpx.Request)
    (code lang author : string) (p : Paste) :
  httpx.accepted_edit cfg s t_get now r s' code lang author ->
  s !! httpx.URLParam_id r = Some p ->
  exists p',
    s' !! httpx.URLParam_id r = Some p'
    /\ model.Paste.ExpiresAt p' = model.Paste.ExpiresAt p
    /\ model.Paste.ID p' = model.Paste.ID p
    /\ model.Paste.Editable p' = model.Paste.Editable p
    /\ model.Paste.EditKey p' = model.Paste.EditKey p
    /\ model.Paste.CreatedAt p' = model.Paste.CreatedAt p.
Proof.
  intros Ha Hl.
  destruct (accepted_edit_inv _ _ _ _ _ _ _ _ _ Ha) as (q & p' & Hg & _ & _ & He & ->).
  apply Get_true in Hg as [Hq _]. rewrite Hl in Hq. injection Hq as <-.
  destruct (edited_frame _ _ _ _ _ _ He) as (Hid & Hexp & Hed & Hkey & Hcr & _).
  destruct (String.eqb_spec (model.Paste.ID p) (httpx.URLParam_id r)) as [E|E].
  - exists p'. rewrite <- E, <- Hid at 1. rewrite lookup_Put. tauto.
  - exists p. rewrite lookup_Put_ne by congruence. tauto.
Qed.

Lemma edit_frame_witness :
  exists p',
    examples.saved examples.bob_saves !! model.Paste.ID examples.paste = Some p'
    /\ model.Paste.ExpiresAt p' = examples.created + time.Hour.
Proof.
  assert (Ha : httpx.accepted_edit (F := StoredFlate.impl) examples.config examples.items
                 (examples.created + 1) (examples.created + 2) examples.edit_bob
                 (examples.saved examples.bob_saves) "print(2)" "python" "bob").
  { left. exists (examples.answered examples.bob_saves).
    repeat split; vm_compute; reflexivity. }
  destruct (edit_frame StoredFlate.impl PlainDurations.impl examples.config
              examples.items _ _ _ examples.edit_bob _ _ _ examples.paste Ha
              (lookup_Put _ _))
    as (p' & Hl & Hexp & _).
  exists p'. split; [exact Hl | exact Hexp].
Defined.

(** C10. [Get] and [CountActive] compare strictly in opposite
    directions: at the instant that equals an object's [ExpiresAt],
    [Get] still finds the object, while [CountActive], which counts
    exactly the entries whose [ExpiresAt] lies strictly after the
    instant of the call, does not count it. *)
Theorem boundary_Get_CountActive
    (s : gmap string Paste) (now : Z) (id : string) (p : Paste) :
  s !! id = Some p ->
  model.Paste.ExpiresAt p = now ->
  store.Get s now id = (p, true)
  /\ store.CountActive s now
     = size (filter (fun kv : string * Paste => now < model.Paste.ExpiresAt kv.2) s)
  /\ store.CountActive s now = store.CountActive (delete id s) now.
Proof.
  intros Hl He. split; [|split].
  - apply Get_found; [assumption|lia].
  - apply CountActive_size.
  - rewrite !CountActive_size.
    rewrite <- (insert_delete_id s id p) at 1 by assumption.
    rewrite map_filter_insert_False by (unfold store.active; simpl; lia).
    now rewrite delete_delete_eq.
Qed.

Lemma boundary_Get_CountActive_witness :
  store.Get examples.items (examples.created + time.Hour)
    (model.Paste.ID examples.paste) = (examples.paste, true)
  /\ store.CountActive examples.items (examples.created + time.Hour) = 0%nat.
Proof.
  pose proof (boundary_Get_CountActive examples.items
                (examples.created + time.Hour)
                (model.Paste.ID examples.paste) examples.paste
                (lookup_Put _ _) eq_refl) as (Hg & _ & Hc).
  split; [exact Hg|].
  rewrite Hc. unfold examples.items, store.Put, store.New.
  rewrite delete_insert_eq, delete_empty. reflexivity.
Defined.

(** * Further properties of the code *)

(** ** The store *)

(** X1. What [Put] stores, [Get] returns until the entry expires, and a
    [Put] changes what [Get] returns for no other identifier. *)
Theorem Get_Put (s : gmap string Paste) (p : Paste) (now : Z) (id : string) :
  store.Get (store.Put s p) now (model.Paste.ID p)
  = (if model.Paste.ExpiresAt p <? now then (model.Paste.zero, false) else (p, true))
  /\ (id <> model.Paste.ID p -> store.Get (store.Put s p) now id = store.Get s now id).
Proof.
  split.
  - unfold store.Get. now rewrite lookup_Put.
  - intros Hne. unfold store.Get. rewrite lookup_Put_ne by congruence. reflexivity.
Qed.

(** X2. A sweep of the janitor changes the result of no later [Get]: for
    every read at or after the instant of the sweep, the swept map answers
    as the unswept one. *)
Theorem sweep_invisible_to_Get (s : gmap string Paste) (tick now : Z) (id : string) :
  tick <= now ->
  store.Get (store.sweep s tick) now id = store.Get s now id.
Proof.
  intros Hle. unfold store.Get. rewrite lookup_sweep.
  destruct (s !! id) as [p|]; [|reflexivity].
  destruct (Z.ltb_spec (model.Paste.ExpiresAt p) tick); [|reflexivity].
  destruct (Z.ltb_spec (model.Paste.ExpiresAt p) now); [reflexivity|lia].
Qed.

Lemma sweep_invisible_to_Get_witness :
  store.Get (store.sweep examples.items (examples.created + 7)) (examples.created + 9)
    (model.Paste.ID examples.paste)
  = store.Get examples.items (examples.created + 9) (model.Paste.ID examples.paste).
Proof.
  apply (sweep_invisible_to_Get examples.items (examples.created + 7)
           (examples.created + 9) (model.Paste.ID examples.paste)).
  vm_compute. discriminate.
Defined.

(** X3. A sweep changes no later count either: [CountActive] at or after
    the instant of a sweep is the same on the swept map. *)
Theorem sweep_invisible_to_CountActive (s : gmap string Paste) (tick now : Z) :
  tick <= now ->
  store.CountActive (store.sweep s tick) now = store.CountActive s now.
Proof.
  intros Hle. rewrite !CountActive_size. f_equal. unfold store.sweep.
  rewrite map_filter_filter. apply map_filter_ext.
  intros id p _. unfold store.active. simpl. lia.
Qed.

Lemma sweep_invisible_to_CountActive_witness :
  store.CountActive (store.sweep examples.items (examples.created + 7)) (examples.created + 9)
  = store.CountActive examples.items (examples.created + 9).
Proof.
  apply (sweep_invisible_to_CountActive examples.items (examples.created + 7)
           (examples.created + 9)).
  vm_compute. discriminate.
Defined.

(** X4. [CountActive] never exceeds the number of entries, and on a map
    that is not written to it does not grow with time. *)
Theorem CountActive_antitone (s : gmap string Paste) (now later : Z) :
  now <= later ->
  (store.CountActive s later <= store.CountActive s now)%nat
  /\ (store.CountActive s now <= size s)%nat.
Proof.
  intros Hle. rewrite !CountActive_size. split.
  - apply map_subseteq_size, map_filter_subseteq_ext.
    intros id p _. unfold store.active. simpl. lia.
  - apply map_subseteq_size, map_filter_subseteq.
Qed.

Lemma CountActive_antitone_witness :
  (store.CountActive examples.items (examples.created + time.Hour)
   <= store.CountActive examples.items examples.created)%nat.
Proof.
  apply (CountActive_antitone examples.items examples.created
           (examples.created + time.Hour)).
  vm_compute. discriminate.
Defined.

(** X5. Two sweeps are one sweep at the later instant, a sweep drops
    entries only, and after a sweep no entry is left that had expired
    before its instant. *)
Theorem sweep_sweep (s : gmap string Paste) (t1 t2 : Z) :
  store.sweep (store.sweep s t1) t2 = store.sweep s (Z.max t1 t2)
  /\ (size (store.sweep s t1) <= size s)%nat
  /\ (forall id p, store.sweep s t1 !! id = Some p ->
                   s !! id = Some p /\ t1 <= model.Paste.ExpiresAt p).
Proof.
  split; [|split].
  - apply map_eq. intros id. rewrite !lookup_sweep.
    destruct (s !! id) as [p|]; [|reflexivity].
    destruct (Z.ltb_spec (model.Paste.ExpiresAt p) t1);
      destruct (Z.ltb_spec (model.Paste.ExpiresAt p) (Z.max t1 t2)); try lia;
      try reflexivity;
      destruct (Z.ltb_spec (model.Paste.ExpiresAt p) t2); try lia; reflexivity.
  - apply map_subseteq_size, map_filter_subseteq.
  - intros id p. rewrite lookup_sweep.
    destruct (s !! id) as [q|]; [|discriminate].
    destruct (Z.ltb_spec (model.Paste.ExpiresAt q) t1); [discriminate|].
    intros [= <-]. split; [reflexivity|lia].
Qed.

(** X6. The last [Put] under an identifier is the one that stays, and
    [Put]s under different identifiers commute. *)
Theorem Put_Put (s : gmap string Paste) (p q : Paste) :
  (model.Paste.ID p = model.Paste.ID q ->
   store.Put (store.Put s p) q = store.Put s q)
  /\ (model.Paste.ID p <> model.Paste.ID q ->
      store.Put (store.Put s p) q = store.Put (store.Put s q) p).
Proof.
  unfold store.Put. split.
  - intros ->. apply insert_insert_eq.
  - intros Hne. now apply insert_insert_ne.
Qed.

(** ** The edit handlers on their error paths *)

Section RejectFacts.
Context {F : Flate} {D : Durations}.

Import model httpx.

Lemma handleEditSave_status s t_get now r s' w :
  handleEditSave s t_get now r = Done s' w ->
  Status w = StatusSeeOther
  \/ (s' = s /\ (Status w = StatusNotFound \/ Status w = StatusForbidden
                 \/ Status w = StatusBadRequest)).
Proof.
  unfold handleEditSave.
  destruct (store.Get s t_get (URLParam_id r)) as [p [|]]; cbn [negb];
    [|intros [= <- <-]; right; split; [reflexivity|now left]].
  destruct (canEditPaste r p); cbn [negb];
    [|intros [= <- <-]; right; split; [reflexivity|right; now left]].
  destruct (ParseFormErr r);
    [intros [= <- <-]; right; split; [reflexivity|right; now right]|].
  destruct (String.eqb _ "");
    [intros [= <- <-]; right; split; [reflexivity|right; now right]|].
  destruct (edited p now _ _ _); [|discriminate].
  intros [= <- <-]. now left.
Qed.

Lemma handleAPIEdit_status cfg s t_get now r s' w :
  handleAPIEdit cfg s t_get now r = Done s' w ->
  Status w = StatusOK
  \/ (s' = s /\ (Status w = StatusNotFound \/ Status w = StatusUnauthorized
                 \/ Status w = StatusForbidden \/ Status w = StatusBadRequest)).
Proof.
  unfold handleAPIEdit.
  destruct (store.Get s t_get (URLParam_id r)) as [p [|]]; cbn [negb];
    [|intros [= <- <-]; right; split; [reflexivity|now left]].
  destruct (String.eqb (QueryGet r "key") "");
    [intros [= <- <-]; right; split; [reflexivity|right; now left]|].
  destruct (negb (Paste.Editable p) || _);
    [intros [= <- <-]; right; split; [reflexivity|right; right; now left]|].
  destruct (JSONBody r) as [req|];
    [|intros [= <- <-]; right; split; [reflexivity|right; right; now right]].
  destruct (String.eqb _ "");
    [intros [= <- <-]; right; split; [reflexivity|right; right; now right]|].
  destruct (edited p now _ _ _); [|discriminate].
  intros [= <- <-]. now left.
Qed.

End RejectFacts.

(** X7. An edit that is not accepted changes nothing: whenever
    [handleEditSave] answers with another status than 303, or
    [handleAPIEdit] with another than 200, the store is the one it was
    called on, and the status is one of 404, 401, 403 and 400. *)
Theorem rejected_edit_keeps_store (F : Flate) (D : Durations) (cfg : httpx.Config)
    (s s' : gmap string Paste) (t_get now : Z) (r : httpx.Request) (w : httpx.Response) :
  (httpx.handleEditSave s t_get now r = httpx.Done s' w
   /\ httpx.Status w <> httpx.StatusSeeOther)
  \/ (httpx.handleAPIEdit cfg s t_get now r = httpx.Done s' w
      /\ httpx.Status w <> httpx.StatusOK) ->
  s' = s
  /\ In (httpx.Status w) [httpx.StatusNotFound; httpx.StatusUnauthorized;
                          httpx.StatusForbidden; httpx.StatusBadRequest].
Proof.
  intros [[Hrun Hst]|[Hrun Hst]].
  - destruct (handleEditSave_status _ _ _ _ _ _ Hrun) as [H|[-> H]]; [contradiction|].
    split; [reflexivity|]. cbn [In]. intuition congruence.
  - destruct (handleAPIEdit_status _ _ _ _ _ _ _ Hrun) as [H|[-> H]]; [contradiction|].
    split; [reflexivity|]. cbn [In]. intuition congruence.
Qed.

Lemma rejected_edit_keeps_store_witness :
  examples.saved
    (httpx.handleEditSave (F := StoredFlate.impl) examples.items (examples.created + 1)
       (examples.created + 2) examples.edit_wrong_key)
  = examples.items
  /\ In httpx.StatusForbidden
       [httpx.StatusNotFound; httpx.StatusUnauthorized;
        httpx.StatusForbidden; httpx.StatusBadRequest].
Proof.
  apply (rejected_edit_keeps_store StoredFlate.impl PlainDurations.impl examples.config
           examples.items examples.items (examples.created + 1) (examples.created + 2)
           examples.edit_wrong_key
           (httpx.Error "Forbidden (kein Edit-Zugriff)" httpx.StatusForbidden)).
  left. split.
  - vm_compute. reflexivity.
  - vm_compute. discriminate.
Defined.

(** X8. A paste that is not editable is never edited: for every request,
    whatever key or cookie it carries, [handleEditSave] answers 404 or 403
    and [handleAPIEdit] 404, 401 or 403, and both leave the store as it
    was. *)
Theorem non_editable_never_edited (F : Flate) (D : Durations) (cfg : httpx.Config)
    (s : gmap string Paste) (t_get now : Z) (r : httpx.Request) (p : Paste) :
  s !! httpx.URLParam_id r = Some p ->
  model.Paste.Editable p = false ->
  (exists w, httpx.handleEditSave s t_get now r = httpx.Done s w
             /\ (httpx.Status w = httpx.StatusNotFound
                 \/ httpx.Status w = httpx.StatusForbidden))
  /\ (exists w, httpx.handleAPIEdit cfg s t_get now r = httpx.Done s w
                /\ (httpx.Status w = httpx.StatusNotFound
                    \/ httpx.Status w = httpx.StatusUnauthorized
                    \/ httpx.Status w = httpx.StatusForbidden)).
Proof.
  intros Hl Hed. unfold httpx.handleEditSave, httpx.handleAPIEdit, store.Get.
  rewrite Hl. destruct (model.Paste.ExpiresAt p <? t_get); cbn [negb].
  - split; eexists; (split; [reflexivity|]); now left.
  - unfold httpx.canEditPaste. rewrite Hed. cbn [negb orb]. split.
    + eexists. split; [reflexivity|]. now right.
    + destruct (String.eqb (httpx.QueryGet r "key") "");
        eexists; (split; [reflexivity|]); tauto.
Qed.

Lemma non_editable_never_edited_witness :
  (exists w, httpx.handleEditSave (F := StoredFlate.impl) examples.plain_items
               (examples.created + 1) (examples.created + 2) examples.edit_plain
             = httpx.Done examples.plain_items w
             /\ (httpx.Status w = httpx.StatusNotFound
                 \/ httpx.Status w = httpx.StatusForbidden))
  /\ (exists w, httpx.handleAPIEdit (F := StoredFlate.impl) examples.config
                  examples.plain_items (examples.created + 1) (examples.created + 2)
                  examples.edit_plain
                = httpx.Done examples.plain_items w
                /\ (httpx.Status w = httpx.StatusNotFound
                    \/ httpx.Status w = httpx.StatusUnauthorized
                    \/ httpx.Status w = httpx.StatusForbidden)).
Proof.
  apply (non_editable_never_edited StoredFlate.impl PlainDurations.impl examples.config
           examples.plain_items (examples.created + 1) (examples.created + 2)
           examples.edit_plain examples.plain).
  - apply lookup_Put.
  - reflexivity.
Defined.

(** X9. Expiry is enforced by every handler that reads the store: once
    the clock has passed [ExpiresAt], and likewise for an identifier that
    is not in the map, [handleRaw], [handleView], [handleEditSave] and
    [handleAPIEdit] all answer 404 and leave the store as it was, whether
    or not a sweep has removed the entry. *)
Theorem expired_is_not_found (F : Flate) (D : Durations) (cfg : httpx.Config)
    (s : gmap string Paste) (t_get now : Z) (r : httpx.Request) :
  (forall p, s !! httpx.URLParam_id r = Some p -> model.Paste.ExpiresAt p < t_get) ->
  httpx.handleRaw s t_get r = httpx.Done s httpx.NotFound
  /\ httpx.handleView_source s t_get r = inl httpx.NotFound
  /\ httpx.handleEditSave s t_get now r = httpx.Done s httpx.NotFound
  /\ httpx.handleAPIEdit cfg s t_get now r = httpx.Done s httpx.NotFound
  /\ httpx.Status httpx.NotFound = 404.
Proof.
  intros Hexp.
  assert (Hg : store.Get s t_get (httpx.URLParam_id r) = (model.Paste.zero, false)).
  { destruct (s !! httpx.URLParam_id r) as [p|] eqn:E.
    - apply (Get_expired _ _ _ p E). now apply Hexp.
    - now apply Get_absent. }
  unfold httpx.handleRaw, httpx.handleView_source, httpx.handleEditSave,
    httpx.handleAPIEdit.
  rewrite Hg. cbn [negb]. repeat split.
Qed.

Lemma expired_is_not_found_witness :
  httpx.handleRaw (F := StoredFlate.impl) examples.items
    (examples.created + 2 * time.Hour) examples.read_paste
  = httpx.Done examples.items httpx.NotFound
  /\ httpx.handleView_source (F := StoredFlate.impl) examples.items
       (examples.created + 2 * time.Hour) examples.read_paste
     = inl httpx.NotFound
  /\ httpx.handleEditSave (F := StoredFlate.impl) examples.items
       (examples.created + 2 * time.Hour) (examples.created + 2 * time.Hour)
       examples.read_paste
     = httpx.Done examples.items httpx.NotFound
  /\ httpx.handleAPIEdit (F := StoredFlate.impl) examples.config examples.items
       (examples.created + 2 * time.Hour) (examples.created + 2 * time.Hour)
       examples.read_paste
     = httpx.Done examples.items httpx.NotFound
  /\ httpx.Status httpx.NotFound = 404.
Proof.
  apply (expired_is_not_found StoredFlate.impl PlainDurations.impl examples.config
           examples.items (examples.created + 2 * time.Hour)
           (examples.created + 2 * time.Hour) examples.read_paste).
  intros p Hp.
  assert (Hl : examples.items !! httpx.URLParam_id examples.read_paste
               = Some examples.paste) by apply lookup_Put.
  rewrite Hl in Hp. injection Hp as <-. vm_compute. reflexivity.
Defined.

(** ** Trimming *)

Section TrimFacts.

Import GoStrings.

Section Strips.
Variable f : list N -> list N.
Hypothesis Hf : strips f.

Lemma strips_suffix (n : nat) :
  forall l, (length l <= n)%nat -> exists p, l = p ++ f l.
Proof.
  induction n as [|n IH]; intros l Hn.
  - destruct l; [|simpl in Hn; lia].
    destruct (Hf []) as [H|(p & r & Hp & Hl & _)]; [exists []; now rewrite H|].
    destruct p; [congruence|discriminate].
  - destruct (Hf l) as [H|(p & r & Hp & Hl & Hfl & _)]; [exists []; now rewrite H|].
    destruct (IH r) as (p' & Hp').
    { subst l. rewrite length_app in Hn. destruct p; [congruence|simpl in Hn; lia]. }
    exists (p ++ p'). rewrite Hfl, <- app_assoc, <- Hp'. exact Hl.
Qed.

Lemma strips_length l : (length (f l) <= length l)%nat.
Proof.
  destruct (strips_suffix (length l) l (le_n _)) as (p & Hp).
  rewrite Hp at 2. rewrite length_app. lia.
Qed.

Lemma strips_idem (n : nat) :
  forall l, (length l <= n)%nat -> f (f l) = f l.
Proof.
  induction n as [|n IH]; intros l Hn.
  - destruct l; [|simpl in Hn; lia].
    destruct (Hf []) as [H|(p & r & Hp & Hl & _)]; [now rewrite !H|].
    destruct p; [congruence|discriminate].
  - destruct (Hf l) as [H|(p & r & Hp & Hl & Hfl & _)]; [now rewrite !H|].
    rewrite Hfl. apply IH.
    subst l. rewrite length_app in Hn. destruct p; [congruence|simpl in Hn; lia].
Qed.

Lemma strips_prefix (p q : list N) : f (p ++ q) = p ++ q -> f p = p.
Proof.
  intros H.
  destruct (Hf p) as [Hp|(p1 & r & Hp1 & Hl & _ & Hq)]; [exact Hp|].
  exfalso. subst p. rewrite <- app_assoc, Hq in H.
  pose proof (strips_length (r ++ q)) as Hle. rewrite H in Hle.
  rewrite !length_app in Hle. destruct p1; [congruence|simpl in Hle; lia].
Qed.

End Strips.

Lemma trimLeft_strips : strips trimLeft.
Proof.
  intros l. destruct l as [|c r]; [now left|].
  cbn [trimLeft]. destruct (asciiSpace c) eqn:E1.
  { right. exists [c], r. repeat split; [discriminate|].
    intros q. cbn [app trimLeft]. now rewrite E1. }
  destruct r as [|d r2]; [now left|].
  destruct ((c =? 194) && ((d =? 133) || (d =? 160)))%N eqn:E2.
  { right. exists [c; d], r2. repeat split; [discriminate|].
    intros q. cbn [app trimLeft]. now rewrite E1, E2. }
  destruct r2 as [|e r3]; [now left|].
  match goal with |- context [if ?b then _ else _] => destruct b eqn:E3 end;
    [|now left].
  right. exists [c; d; e], r3. repeat split; [discriminate|].
  intros q. cbn [app trimLeft]. now rewrite E1, E2, E3.
Qed.

Lemma trimRightRev_strips : strips trimRightRev.
Proof.
  intros l. destruct l as [|c r]; [now left|].
  cbn [trimRightRev]. destruct (asciiSpace c) eqn:E1.
  { right. exists [c], r. repeat split; [discriminate|].
    intros q. cbn [app trimRightRev]. now rewrite E1. }
  destruct r as [|d r2]; [now left|].
  destruct ((d =? 194) && ((c =? 133) || (c =? 160)))%N eqn:E2.
  { right. exists [c; d], r2. repeat split; [discriminate|].
    intros q. cbn [app trimRightRev]. now rewrite E1, E2. }
  destruct r2 as [|e r3]; [now left|].
  match goal with |- context [if ?b then _ else _] => destruct b eqn:E3 end;
    [|now left].
  right. exists [c; d; e], r3. repeat split; [discriminate|].
  intros q. cbn [app trimRightRev]. now rewrite E1, E2, E3.
Qed.

Lemma bytes_of_bound (s : string) : Forall (fun n => (n < 256)%N) (bytes_of s).
Proof.
  unfold bytes_of. apply Forall_forall. intros n Hn.
  apply list_elem_of_In, in_map_iff in Hn as (c & <- & _). apply N_ascii_bounded.
Qed.

Lemma bytes_of_of_bytes (l : list N) :
  Forall (fun n => (n < 256)%N) l -> bytes_of (of_bytes l) = l.
Proof.
  unfold bytes_of, of_bytes. rewrite list_ascii_of_string_of_list_ascii.
  induction 1 as [|n l Hn _ IH]; [reflexivity|].
  cbn [map]. rewrite IH. f_equal. now apply N_ascii_embedding.
Qed.

Lemma of_bytes_bytes_of (s : string) : of_bytes (bytes_of s) = s.
Proof.
  unfold bytes_of, of_bytes. rewrite map_map.
  rewrite (map_ext _ (fun c => c)) by apply ascii_N_embedding.
  rewrite map_id. apply string_of_list_ascii_of_string.
Qed.

(** The bytes that [TrimSpace] keeps: a run of the bytes of [s] with no
    white space at either end. *)
Lemma TrimSpace_bytes (s : string) :
  let m := rev (trimRightRev (rev (trimLeft (bytes_of s)))) in
  bytes_of (TrimSpace s) = m
  /\ trimLeft m = m
  /\ trimRightRev (rev m) = rev m.
Proof.
  intros m.
  destruct (strips_suffix _ trimLeft_strips _ (bytes_of s) (le_n _)) as (p1 & Hp1).
  destruct (strips_suffix _ trimRightRev_strips _ (rev (trimLeft (bytes_of s))) (le_n _))
    as (p2 & Hp2).
  assert (Hm : trimLeft (bytes_of s) = m ++ rev p2).
  { subst m. rewrite <- rev_app_distr, <- Hp2. now rewrite rev_involutive. }
  split; [|split].
  - unfold TrimSpace. fold m. apply bytes_of_of_bytes.
    pose proof (bytes_of_bound s) as Hb. rewrite Hp1, Hm in Hb.
    rewrite !Forall_app in Hb. tauto.
  - apply (strips_prefix _ trimLeft_strips m (rev p2)). rewrite <- Hm.
    apply (strips_idem _ trimLeft_strips _ _ (le_n _)).
  - subst m. rewrite rev_involutive. apply (strips_idem _ trimRightRev_strips _ _ (le_n _)).
Qed.

Lemma TrimSpace_idem (s : string) : TrimSpace (TrimSpace s) = TrimSpace s.
Proof.
  destruct (TrimSpace_bytes s) as (Hb & Hl & Hr).
  unfold TrimSpace at 1. rewrite Hb, Hl, Hr, rev_involutive.
  rewrite <- Hb. apply of_bytes_bytes_of.
Qed.

Lemma TrimSpace_Langs (l : string) :
  Contains httpx.Langs l = true -> TrimSpace l = l.
Proof.
  unfold httpx.Langs. cbn [Contains].
  repeat match goal with
         | |- context [String.eqb ?a l] =>
             destruct (String.eqb_spec a l) as [<-|_]; [intros _; reflexivity|]
         end.
  discriminate.
Qed.

Lemma normalizeLang_known (l : string) : Contains httpx.Langs (httpx.normalizeLang l) = true.
Proof.
  unfold httpx.normalizeLang. destruct (Contains httpx.Langs l) eqn:E; [exact E|reflexivity].
Qed.

Lemma normalizeLang_id (l : string) :
  Contains httpx.Langs l = true -> httpx.normalizeLang l = l.
Proof. intros H. unfold httpx.normalizeLang. now rewrite H. Qed.

End TrimFacts.

(** ** What the handlers keep true of every entry *)

Section SoundFacts.
Context {F : Flate} {D : Durations}.

Import model httpx server.

Lemma buildPaste_fields now e_id e_key w_id w_key code lang ttl theme editable author p :
  buildPaste now e_id e_key w_id w_key code lang ttl theme editable author = (p, None) ->
  Paste.Lang p = normalizeLang lang
  /\ Paste.Code p = GoStrings.TrimSpace code
  /\ Paste.Theme p = (if GoStrings.Contains Themes theme then theme else "dark"%string)
  /\ Paste.Author p = author.
Proof.
  unfold buildPaste.
  destruct (String.eqb (GoStrings.TrimSpace code) ""); [discriminate|].
  destruct (util.ParseTTL ttl) as [dur [err|]]; [discriminate|].
  destruct (GoStrings.Contains Themes theme); cbn [negb];
    destruct editable; intros [= <-]; repeat split.
Qed.

Lemma buildPaste_sound now e_id e_key w_id w_key code lang ttl theme editable author p :
  buildPaste now e_id e_key w_id w_key code lang ttl theme editable author = (p, None) ->
  sound (Paste.ID p) p.
Proof.
  intros Hb.
  destruct (buildPaste_ok _ _ _ _ _ _ _ _ _ _ _ _ Hb)
    as (Hcode & _ & _ & _ & Hed & Hkey & Hv & _).
  destruct (buildPaste_fields _ _ _ _ _ _ _ _ _ _ _ _ Hb) as (Hlang & Hc & Hth & _).
  unfold sound. rewrite Hv, Hlang, Hc, Hth, Hkey, Hed.
  split; [reflexivity|]. split; [discriminate|].
  split; [apply normalizeLang_known|].
  split; [destruct (GoStrings.Contains Themes theme) eqn:E; [exact E|reflexivity]|].
  split; [constructor; [apply normalizeLang_known|constructor]|].
  split; [exact Hcode|]. split; [apply TrimSpace_idem|].
  destruct editable; split; try congruence.
  intros _. apply NewID_nonempty. lia.
Qed.

Lemma buildPaste_mirrors now e_id e_key w_id w_key code lang ttl theme editable author p :
  flate_sound F ->
  buildPaste now e_id e_key w_id w_key code lang ttl theme editable author = (p, None) ->
  mirrors p.
Proof.
  intros Hs Hb.
  destruct (buildPaste_ok _ _ _ _ _ _ _ _ _ _ _ _ Hb)
    as (_ & _ & _ & _ & _ & _ & Hv & _).
  destruct (buildPaste_fields _ _ _ _ _ _ _ _ _ _ _ _ Hb) as (Hlang & Hc & _).
  eexists. rewrite Hv. split; [reflexivity|].
  cbn [Version.ZCode Version.Lang]. rewrite (decode_encode Hs). now rewrite Hlang, Hc.
Qed.

Lemma edited_fields p now code lang author p' :
  edited p now code lang author = Some p' ->
  Paste.Lang p' = lang /\ Paste.Code p' = code /\ Paste.Theme p' = Paste.Theme p.
Proof.
  unfold edited. destruct (last_version (Paste.Versions p)) as [last|]; [|discriminate].
  destruct (util.GzipDecode (Version.ZCode last)) as [prev err].
  intros [= <-]. repeat split.
Qed.

Lemma edited_sound id p now code lang author p' :
  edited p now code lang author = Some p' ->
  sound id p ->
  code <> EmptyString ->
  GoStrings.TrimSpace code = code ->
  GoStrings.Contains Langs lang = true ->
  sound id p'.
Proof.
  intros He (Hid & Hne & Hl & Hth & Hvl & Hc & Htr & Hkey) Hcode Htrim Hlang.
  destruct (edited_frame _ _ _ _ _ _ He) as (Hid' & _ & Hed' & Hkey' & _).
  destruct (edited_fields _ _ _ _ _ _ He) as (Hl' & Hc' & Hth').
  destruct (edited_versions _ _ _ _ _ _ He) as (last & Hlast & Hv).
  unfold sound. rewrite Hid', Hl', Hc', Hth', Hed', Hkey', Hv.
  repeat split; try assumption; try tauto.
  - destruct (_ && _); [assumption|]. now destruct (Paste.Versions p).
  - destruct (_ && _); [assumption|].
    apply Forall_app. split; [assumption|]. constructor; [exact Hlang|constructor].
Qed.

Lemma edited_mirrors p now code lang author p' :
  flate_sound F ->
  edited p now code lang author = Some p' ->
  mirrors p'.
Proof.
  intros Hs He.
  destruct (edited_fields _ _ _ _ _ _ He) as (Hl' & Hc' & _).
  destruct (edited_versions _ _ _ _ _ _ He) as (last & Hlast & Hv).
  unfold mirrors. rewrite Hv, Hl', Hc'.
  destruct (String.eqb_spec code (fst (util.GzipDecode (Version.ZCode last)))) as [Ec|Ec];
    destruct (String.eqb_spec lang (Version.Lang last)) as [El|El]; cbn [andb].
  - exists last. repeat split; congruence.
  - eexists. split; [apply last_version_app|].
    cbn [Version.ZCode Version.Lang]. now rewrite (decode_encode Hs).
  - eexists. split; [apply last_version_app|].
    cbn [Version.ZCode Version.Lang]. now rewrite (decode_encode Hs).
  - eexists. split; [apply last_version_app|].
    cbn [Version.ZCode Version.Lang]. now rewrite (decode_encode Hs).
Qed.

(** A run of an edit handler leaves the map as it was or puts back a
    copy edited with a text that is trimmed and not empty and a language
    that is a known tag. *)
Lemma edit_Done cfg s t_get now r s' w :
  handleEditSave s t_get now r = Done s' w
  \/ handleAPIEdit cfg s t_get now r = Done s' w ->
  s' = s
  \/ exists p p' code lang author,
       s !! URLParam_id r = Some p
       /\ edited p now code lang author = Some p'
       /\ s' = store.Put s p'
       /\ code <> EmptyString
       /\ GoStrings.TrimSpace code = code
       /\ GoStrings.Contains Langs lang = true.
Proof.
  intros [Hrun|Hrun].
  - unfold handleEditSave in Hrun.
    destruct (store.Get s t_get (URLParam_id r)) as [p ok] eqn:Hg.
    destruct ok; cbn [negb] in Hrun; [|injection Hrun as <- _; now left].
    destruct (canEditPaste r p); cbn [negb] in Hrun; [|injection Hrun as <- _; now left].
    destruct (ParseFormErr r); [injection Hrun as <- _; now left|].
    destruct (String.eqb_spec (GoStrings.TrimSpace (FormValue r "code")) "") as [E|E];
      [injection Hrun as <- _; now left|].
    destruct (edited p now _ _ _) as [p'|] eqn:He; [|discriminate].
    injection Hrun as <- _. right. apply Get_true in Hg as [Hl _].
    exists p, p'. do 3 eexists. split; [exact Hl|]. split; [exact He|].
    split; [reflexivity|]. split; [exact E|].
    split; [apply TrimSpace_idem|apply normalizeLang_known].
  - unfold handleAPIEdit in Hrun.
    destruct (store.Get s t_get (URLParam_id r)) as [p ok] eqn:Hg.
    destruct ok; cbn [negb] in Hrun; [|injection Hrun as <- _; now left].
    destruct (String.eqb (QueryGet r "key") ""); [injection Hrun as <- _; now left|].
    destruct (negb (Paste.Editable p) || _); [injection Hrun as <- _; now left|].
    destruct (JSONBody r) as [req|]; [|injection Hrun as <- _; now left].
    destruct (String.eqb_spec (GoStrings.TrimSpace (apiReq.Code req)) "") as [E|E];
      [injection Hrun as <- _; now left|].
    destruct (edited p now _ _ _) as [p'|] eqn:He; [|discriminate].
    injection Hrun as <- _. right. apply Get_true in Hg as [Hl _].
    exists p, p'. do 3 eexists. split; [exact Hl|]. split; [exact He|].
    split; [reflexivity|]. split; [exact E|].
    split; [apply TrimSpace_idem|apply normalizeLang_known].
Qed.

Lemma Put_all (P : string -> Paste -> Prop) s p :
  (forall id q, s !! id = Some q -> P id q) ->
  P (Paste.ID p) p ->
  forall id q, store.Put s p !! id = Some q -> P id q.
Proof.
  intros Hs Hp id q Hq. unfold store.Put in Hq.
  destruct (String.eqb_spec (Paste.ID p) id) as [<-|E].
  - rewrite lookup_insert_eq in Hq. now injection Hq as <-.
  - rewrite lookup_insert_ne in Hq by assumption. now apply Hs.
Qed.

Lemma sweep_all (P : string -> Paste -> Prop) s now :
  (forall id q, s !! id = Some q -> P id q) ->
  forall id q, store.sweep s now !! id = Some q -> P id q.
Proof.
  intros Hs id q Hq. rewrite lookup_sweep in Hq.
  destruct (s !! id) as [p|] eqn:E; [|discriminate].
  destruct (_ <? _); [discriminate|]. injection Hq as <-. now apply Hs.
Qed.

Lemma step_sound cfg s s' : step cfg s s' -> all_sound s -> all_sound s'.
Proof.
  intros Hstep Hall.
  destruct Hstep as [s now e_id e_key w_id w_key code lang ttl theme editable author p Hb
                    | s t_get now r s' w Hrun
                    | s t_get now r s' w Hrun
                    | s now].
  - refine (Put_all sound _ _ Hall _). exact (buildPaste_sound _ _ _ _ _ _ _ _ _ _ _ _ Hb).
  - destruct (edit_Done cfg _ _ _ _ _ _ (or_introl Hrun))
      as [->|(p & p' & c & l & a & Hl & He & -> & Hc & Ht & Hk)]; [assumption|].
    refine (Put_all sound _ _ Hall _).
    destruct (edited_frame _ _ _ _ _ _ He) as (Hid & _).
    pose proof (Hall _ _ Hl) as Hp. destruct Hp as (Hidp & _).
    rewrite Hid, Hidp. apply (edited_sound _ _ _ _ _ _ _ He (Hall _ _ Hl) Hc Ht Hk).
  - destruct (edit_Done cfg _ _ _ _ _ _ (or_intror Hrun))
      as [->|(p & p' & c & l & a & Hl & He & -> & Hc & Ht & Hk)]; [assumption|].
    refine (Put_all sound _ _ Hall _).
    destruct (edited_frame _ _ _ _ _ _ He) as (Hid & _).
    pose proof (Hall _ _ Hl) as Hp. destruct Hp as (Hidp & _).
    rewrite Hid, Hidp. apply (edited_sound _ _ _ _ _ _ _ He (Hall _ _ Hl) Hc Ht Hk).
  - exact (sweep_all sound _ _ Hall).
Qed.

Lemma reachable_all_sound cfg s : reachable cfg s -> all_sound s.
Proof.
  induction 1 as [|s s' _ IH Hstep].
  - intros id p H. unfold store.New in H. now rewrite lookup_empty in H.
  - exact (step_sound _ _ _ Hstep IH).
Qed.

Lemma step_mirror (Hs : flate_sound F) cfg s s' :
  step cfg s s' -> all_mirror s -> all_mirror s'.
Proof.
  intros Hstep Hall.
  destruct Hstep as [s now e_id e_key w_id w_key code lang ttl theme editable author p Hb
                    | s t_get now r s' w Hrun
                    | s t_get now r s' w Hrun
                    | s now].
  - refine (Put_all (fun _ q => mirrors q) _ _ Hall _).
    exact (buildPaste_mirrors _ _ _ _ _ _ _ _ _ _ _ _ Hs Hb).
  - destruct (edit_Done cfg _ _ _ _ _ _ (or_introl Hrun))
      as [->|(p & p' & c & l & a & Hl & He & -> & _)]; [assumption|].
    refine (Put_all (fun _ q => mirrors q) _ _ Hall _).
    exact (edited_mirrors _ _ _ _ _ _ Hs He).
  - destruct (edit_Done cfg _ _ _ _ _ _ (or_intror Hrun))
      as [->|(p & p' & c & l & a & Hl & He & -> & _)]; [assumption|].
    refine (Put_all (fun _ q => mirrors q) _ _ Hall _).
    exact (edited_mirrors _ _ _ _ _ _ Hs He).
  - exact (sweep_all (fun _ q => mirrors q) _ _ Hall).
Qed.

Lemma reachable_all_mirror (Hs : flate_sound F) cfg s : reachable cfg s -> all_mirror s.
Proof.
  induction 1 as [|s s' _ IH Hstep].
  - intros id p H. unfold store.New in H. now rewrite lookup_empty in H.
  - exact (step_mirror Hs _ _ _ Hstep IH).
Qed.

(** The store of the examples is reachable: it is made by one creation. *)
Lemma reachable_create cfg s now e_id e_key w_id w_key code lang ttl theme editable
    author p :
  reachable cfg s ->
  buildPaste now e_id e_key w_id w_key code lang ttl theme editable author = (p, None) ->
  reachable cfg (store.Put s p).
Proof.
  intros Hr Hb. apply (reach_step cfg s); [exact Hr|].
  exact (step_create cfg s _ _ _ _ _ _ _ _ _ _ _ _ Hb).
Qed.

End SoundFacts.

Lemma reachable_items :
  server.reachable (F := StoredFlate.impl) (D := PlainDurations.impl)
    examples.config examples.items.
Proof.
  apply (reachable_create (F := StoredFlate.impl) (D := PlainDurations.impl)
           examples.config store.New examples.created examples.entropy_id
           examples.entropy_key examples.wall examples.wall
           "print(1)" "python" "1h" "dark" true "alice" examples.paste).
  - apply server.reach_new.
  - reflexivity.
Qed.

(** X10. Every entry of a store that the handlers and the janitor can
    reach is filed under its own [ID] and has at least one version; its
    language, its theme and the language of each of its versions are tags
    of the fixed lists; its text is trimmed and not empty; and it has an
    edit key exactly when it is editable. *)
Theorem reachable_entries_sound (F : Flate) (D : Durations) (cfg : httpx.Config)
    (s : gmap string Paste) (id : string) (p : Paste) :
  server.reachable cfg s ->
  s !! id = Some p ->
  server.sound id p.
Proof. intros Hr Hl. exact (reachable_all_sound cfg s Hr id p Hl). Qed.

Lemma reachable_entries_sound_witness :
  server.sound (model.Paste.ID examples.paste) examples.paste.
Proof.
  exact (reachable_entries_sound StoredFlate.impl PlainDurations.impl examples.config
           examples.items _ _ reachable_items (lookup_Put _ _)).
Defined.

(** X11. In a reachable store the summary fields of an entry repeat its
    last version: [Code] is the decoded text of the last version and
    [Lang] its language, so that [handleRaw] serves [Code] for as long as
    the entry has not expired. *)
Theorem summary_mirrors_last_version (F : Flate) (D : Durations) (cfg : httpx.Config)
    (s : gmap string Paste) (id : string) (p : Paste) :
  flate_sound F ->
  server.reachable cfg s ->
  s !! id = Some p ->
  server.mirrors p
  /\ forall (t : Z) (r : httpx.Request),
       httpx.URLParam_id r = id ->
       t <= model.Paste.ExpiresAt p ->
       httpx.handleRaw s t r
       = httpx.Done s {| httpx.Status := httpx.StatusOK;
                         httpx.Body := httpx.Text (model.Paste.Code p);
                         httpx.Location := EmptyString;
                         httpx.SetCookies := [] |}.
Proof.
  intros Hs Hr Hl.
  pose proof (reachable_all_mirror Hs cfg s Hr id p Hl) as Hm.
  split; [exact Hm|]. intros t r Hid Ht.
  destruct Hm as (last & Hlast & Hc & _). subst id.
  rewrite (handleRaw_last s t r p last Hl Ht Hlast). now rewrite Hc.
Qed.

Lemma summary_mirrors_last_version_witness :
  httpx.handleRaw (F := StoredFlate.impl) examples.items (examples.created + 1)
    examples.read_paste
  = httpx.Done examples.items
      {| httpx.Status := httpx.StatusOK; httpx.Body := httpx.Text "print(1)";
         httpx.Location := EmptyString; httpx.SetCookies := [] |}.
Proof.
  destruct (summary_mirrors_last_version StoredFlate.impl PlainDurations.impl
              examples.config examples.items (model.Paste.ID examples.paste)
              examples.paste stored_sound reachable_items (lookup_Put _ _))
    as (_ & Hraw).
  apply (Hraw (examples.created + 1) examples.read_paste); [reflexivity|].
  vm_compute. discriminate.
Defined.

(** X12. On a reachable store no handler panics: the index of the last
    version, which [handleEditSave], [handleAPIEdit], [handleEditForm]
    and [handleView] take without a check, is always in range. *)
Theorem handlers_do_not_panic (F : Flate) (D : Durations) (cfg : httpx.Config)
    (s : gmap string Paste) (t_get now : Z) (r : httpx.Request) :
  server.reachable cfg s ->
  httpx.handleEditSave s t_get now r <> httpx.Panic
  /\ httpx.handleAPIEdit cfg s t_get now r <> httpx.Panic
  /\ httpx.handleEditForm s t_get r <> inr None
  /\ httpx.handleView_source s t_get r <> inr None.
Proof.
  intros Hr.
  assert (Hlast : forall p, store.Get s t_get (httpx.URLParam_id r) = (p, true) ->
                            exists n, length (model.Paste.Versions p) = S n).
  { intros p Hg. apply Get_true in Hg as [Hl _].
    destruct (reachable_all_sound cfg s Hr _ p Hl) as (_ & Hne & _).
    destruct (model.Paste.Versions p); [congruence|]. now eexists. }
  assert (Hlv : forall p, store.Get s t_get (httpx.URLParam_id r) = (p, true) ->
                          exists v, httpx.last_version (model.Paste.Versions p) = Some v).
  { intros p Hg. destruct (Hlast p Hg) as (n & Hn).
    destruct (httpx.last_version (model.Paste.Versions p)) as [v|] eqn:E; [now exists v|].
    unfold httpx.last_version in E. apply lookup_ge_None in E. lia. }
  unfold httpx.handleEditSave, httpx.handleAPIEdit, httpx.handleEditForm,
    httpx.handleView_source.
  destruct (store.Get s t_get (httpx.URLParam_id r)) as [p ok] eqn:Hg.
  destruct ok; cbn [negb]; [|repeat split; discriminate].
  destruct (Hlv p eq_refl) as (v & Hv). destruct (Hlast p eq_refl) as (n & Hn).
  repeat split.
  - destruct (httpx.canEditPaste r p); cbn [negb]; [|discriminate].
    destruct (httpx.ParseFormErr r); [discriminate|].
    destruct (String.eqb _ ""); [discriminate|].
    destruct (edited_total p now
                (GoStrings.TrimSpace (httpx.FormValue r "code"))
                (httpx.normalizeLang (GoStrings.TrimSpace (httpx.FormValue r "lang")))
                (GoStrings.TrimSpace (httpx.FormValue r "author")) v Hv) as (p' & ->).
    discriminate.
  - destruct (String.eqb (httpx.QueryGet r "key") ""); [discriminate|].
    destruct (negb (model.Paste.Editable p) || _); [discriminate|].
    destruct (httpx.JSONBody r) as [req|]; [|discriminate].
    destruct (String.eqb _ ""); [discriminate|].
    destruct (edited_total p now
                (GoStrings.TrimSpace (httpx.apiReq.Code req))
                (httpx.normalizeLang (httpx.apiReq.Lang req))
                (GoStrings.TrimSpace (httpx.apiReq.Author req)) v Hv) as (p' & ->).
    discriminate.
  - destruct (httpx.canEditPaste r p); cbn [negb]; [|discriminate].
    rewrite Hv. destruct (util.GzipDecode (model.Version.ZCode v)). discriminate.
  - rewrite Hn.
    match goal with |- context [if ?c <? 0 then _ else _] => set (k := c) end.
    assert (Hk : 0 <= k < Z.of_nat (S n)).
    { subst k. destruct (negb _); [|lia].
      destruct (GoStrings.Atoi _) as [j|]; [|lia].
      destruct ((1 <=? j) && (j <=? Z.of_nat (S n))) eqn:E; [|lia].
      apply andb_prop in E as [E1 E2]. apply Z.leb_le in E1, E2. lia. }
    destruct (Z.ltb_spec k 0); [lia|].
    destruct (model.Paste.Versions p !! Z.to_nat k) as [cv|] eqn:E.
    + destruct (util.GzipDecode (model.Version.ZCode cv)). discriminate.
    + apply lookup_ge_None in E. lia.
Qed.

Lemma handlers_do_not_panic_witness :
  httpx.handleEditSave (F := StoredFlate.impl) examples.items (examples.created + 1)
    (examples.created + 2) examples.edit_bob <> httpx.Panic.
Proof.
  apply (handlers_do_not_panic StoredFlate.impl PlainDurations.impl examples.config
           examples.items (examples.created + 1) (examples.created + 2) examples.edit_bob
           reachable_items).
Defined.



(** ** Numbers in links *)

Section NumberFacts.

Import GoStrings.

Lemma digits_string_of_uint (d : Decimal.uint) :
  forall acc : nat,
    digits (list_ascii_of_string (NilEmpty.string_of_uint d)) (Z.of_nat acc)
    = Some (Z.of_nat (Nat.of_uint_acc d acc)).
Proof.
  induction d; intros acc; cbn [NilEmpty.string_of_uint list_ascii_of_string digits];
    [reflexivity|..];
    cbn [Nat.of_uint_acc]; rewrite <- IHd, Nat.tail_mul_spec;
    cbv [N_of_ascii N_of_digits Z.of_N Z.leb Z.compare Pos.compare Pos.compare_cont
         andb N.add N.mul Pos.add Pos.mul Pos.succ];
    f_equal; lia.
Qed.

Lemma string_of_uint_head (d : Decimal.uint) :
  d <> Decimal.Nil ->
  exists c r,
    list_ascii_of_string (NilEmpty.string_of_uint d) = c :: r
    /\ Ascii.eqb c "-" = false /\ Ascii.eqb c "+" = false.
Proof.
  destruct d; [congruence|..]; intros _; eexists _, _; repeat split.
Qed.

Lemma to_uint_not_Nil (n : nat) : Nat.to_uint n <> Decimal.Nil.
Proof.
  intros H. pose proof (DecimalNat.Unsigned.to_of (Nat.to_uint n)) as Hn.
  rewrite DecimalNat.Unsigned.of_to, H in Hn. discriminate Hn.
Qed.

Lemma Itoa_digits (n : nat) : Itoa n = NilEmpty.string_of_uint (Nat.to_uint n).
Proof.
  unfold Itoa, NilZero.string_of_uint.
  pose proof (to_uint_not_Nil n). destruct (Nat.to_uint n); [congruence|..]; reflexivity.
Qed.

(** [strconv.Atoi] reads back what [strconv.Itoa] prints. *)
Lemma Atoi_Itoa (n : nat) : Z.of_nat n < 2 ^ 63 -> Atoi (Itoa n) = Some (Z.of_nat n).
Proof.
  intros Hn. unfold Atoi. rewrite Itoa_digits.
  destruct (string_of_uint_head _ (to_uint_not_Nil n)) as (c & r & Hs & Hm & Hp).
  rewrite Hs, Hm, Hp. rewrite <- Hs.
  change 0 with (Z.of_nat 0). rewrite digits_string_of_uint.
  fold (Nat.of_uint (Nat.to_uint n)). rewrite DecimalNat.Unsigned.of_to.
  destruct (Z.leb_spec (- 2 ^ 63) (Z.of_nat n)); [|lia].
  destruct (Z.leb_spec (Z.of_nat n) (2 ^ 63 - 1)); [reflexivity|lia].
Qed.

End NumberFacts.

Section PlainFacts.

Import GoStrings.

(** A byte below 0x80 that is no ASCII white space stops both scans of
    [TrimSpace]. *)
Lemma trimLeft_plain (c : N) (l : list N) :
  (c < 128)%N -> asciiSpace c = false -> trimLeft (c :: l) = c :: l.
Proof.
  intros Hc Hs. cbn [trimLeft]. rewrite Hs.
  assert (H1 : (c =? 194)%N = false) by (apply N.eqb_neq; lia).
  assert (H2 : (c =? 225)%N = false) by (apply N.eqb_neq; lia).
  assert (H3 : (c =? 226)%N = false) by (apply N.eqb_neq; lia).
  assert (H4 : (c =? 227)%N = false) by (apply N.eqb_neq; lia).
  destruct l as [|d [|e r]]; [reflexivity|now rewrite H1|].
  now rewrite H1, H2, H3, H4.
Qed.

Lemma trimRightRev_plain (c : N) (l : list N) :
  (c < 128)%N -> asciiSpace c = false -> trimRightRev (c :: l) = c :: l.
Proof.
  intros Hc Hs. cbn [trimRightRev]. rewrite Hs.
  assert (H1 : (c =? 133)%N = false) by (apply N.eqb_neq; lia).
  assert (H2 : (c =? 160)%N = false) by (apply N.eqb_neq; lia).
  assert (H3 : (c =? 128)%N = false) by (apply N.eqb_neq; lia).
  assert (H4 : (c =? 159)%N = false) by (apply N.eqb_neq; lia).
  assert (H5 : space_E2_80 c = false).
  { unfold space_E2_80.
    replace (128 <=? c)%N with false by (symmetry; apply N.leb_gt; lia).
    replace (c =? 168)%N with false by (symmetry; apply N.eqb_neq; lia).
    replace (c =? 169)%N with false by (symmetry; apply N.eqb_neq; lia).
    replace (c =? 175)%N with false by (symmetry; apply N.eqb_neq; lia).
    reflexivity. }
  destruct l as [|d [|e r]]; [reflexivity| |];
    rewrite ?H1, ?H2, ?H3, ?H4, ?H5, ?andb_false_r; reflexivity.
Qed.

(** A string that begins and ends with such a byte is its own trim. *)
Lemma TrimSpace_plain_ends (s : string) (c c' : N) (l l' : list N) :
  bytes_of s = c :: l ->
  rev (bytes_of s) = c' :: l' ->
  (c < 128)%N -> asciiSpace c = false ->
  (c' < 128)%N -> asciiSpace c' = false ->
  TrimSpace s = s.
Proof.
  intros Hb Hr Hc Hs Hc' Hs'. unfold TrimSpace.
  rewrite Hb, (trimLeft_plain c l Hc Hs), <- Hb, Hr,
    (trimRightRev_plain c' l' Hc' Hs'), <- Hr, rev_involutive.
  apply of_bytes_bytes_of.
Qed.

Lemma string_of_uint_digit_bytes (d : Decimal.uint) :
  Forall digit_byte (bytes_of (NilEmpty.string_of_uint d)).
Proof.
  unfold bytes_of.
  induction d; cbn [NilEmpty.string_of_uint list_ascii_of_string map];
    constructor; try assumption; unfold digit_byte; cbn; lia.
Qed.

Lemma TrimSpace_Itoa (n : nat) : TrimSpace (Itoa n) = Itoa n.
Proof.
  pose proof (string_of_uint_digit_bytes (Nat.to_uint n)) as Hd.
  rewrite <- Itoa_digits in Hd.
  assert (Hne : bytes_of (Itoa n) <> []).
  { rewrite Itoa_digits. pose proof (to_uint_not_Nil n).
    destruct (Nat.to_uint n); [congruence|..]; discriminate. }
  destruct (bytes_of (Itoa n)) as [|c l] eqn:Hb; [congruence|].
  destruct (rev (c :: l)) as [|c' l'] eqn:Hr.
  { apply (f_equal (@length N)) in Hr. rewrite length_rev in Hr. discriminate. }
  assert (Hc : digit_byte c) by (now inversion Hd).
  assert (Hc' : digit_byte c').
  { rewrite Forall_forall in Hd. apply Hd.
    apply list_elem_of_In, in_rev. rewrite Hr. now left. }
  unfold digit_byte in *.
  apply (TrimSpace_plain_ends _ c c' l l' Hb); rewrite ?Hb; try assumption; try lia.
  - unfold asciiSpace.
    replace (c <=? 13)%N with false by (symmetry; apply N.leb_gt; lia).
    replace (c =? 32)%N with false by (symmetry; apply N.eqb_neq; lia).
    now rewrite andb_false_r.
  - unfold asciiSpace.
    replace (c' <=? 13)%N with false by (symmetry; apply N.leb_gt; lia).
    replace (c' =? 32)%N with false by (symmetry; apply N.eqb_neq; lia).
    now rewrite andb_false_r.
Qed.

End PlainFacts.

(** ** Views and forms *)

(** X14. [handleView] always selects a version that exists: the one
    [?v=j] names when [j] is a number between 1 and the number of
    versions, and the last one in every other case, when the parameter is
    missing, is no number or is out of range. *)
Theorem view_selects (F : Flate) (D : Durations)
    (s : gmap string Paste) (t : Z) (r : httpx.Request) (p : Paste) :
  s !! httpx.URLParam_id r = Some p ->
  t <= model.Paste.ExpiresAt p ->
  model.Paste.Versions p <> [] ->
  let n := length (model.Paste.Versions p) in
  let asked := GoStrings.Atoi (GoStrings.TrimSpace (httpx.QueryGet r "v")) in
  exists (k : nat) (v : Version),
    httpx.handleView_source s t r
    = inr (Some (k, fst (util.GzipDecode (model.Version.ZCode v)), model.Version.Lang v))
    /\ model.Paste.Versions p !! k = Some v
    /\ (forall j, asked = Some j -> 1 <= j <= Z.of_nat n -> Z.of_nat k = j - 1)
    /\ ((forall j, asked = Some j -> j < 1 \/ Z.of_nat n < j) -> k = (n - 1)%nat).
Proof.
  intros Hl Ht Hne n asked.
  assert (Hn : (0 < n)%nat) by (subst n; destruct (model.Paste.Versions p); [congruence|simpl; lia]).
  assert (Hempty : GoStrings.TrimSpace (httpx.QueryGet r "v") = EmptyString -> asked = None).
  { intros E. subst asked. now rewrite E. }
  unfold httpx.handleView_source. rewrite (Get_found _ _ _ _ Hl Ht). cbn [negb].
  fold n. fold asked.
  match goal with |- context [if ?c <? 0 then _ else _] => set (k := c) end.
  assert (Hk : 0 <= k < Z.of_nat n
               /\ (forall j, asked = Some j -> 1 <= j <= Z.of_nat n -> k = j - 1)
               /\ ((forall j, asked = Some j -> j < 1 \/ Z.of_nat n < j) ->
                   k = Z.of_nat n - 1)).
  { subst k.
    destruct (String.eqb_spec (GoStrings.TrimSpace (httpx.QueryGet r "v")) "") as [E|E];
      cbn [negb].
    - rewrite (Hempty E). repeat split; try lia. intros j [=].
    - destruct asked as [j|]; [|repeat split; try lia; intros j [=]].
      destruct ((1 <=? j) && (j <=? Z.of_nat n)) eqn:Ej.
      + apply andb_prop in Ej as [E1 E2]. apply Z.leb_le in E1, E2.
        repeat split; try lia.
        * intros j' [= <-] _. reflexivity.
        * intros Hall. destruct (Hall j eq_refl); lia.
      + apply andb_false_iff in Ej.
        repeat split; try lia.
        intros j' [= <-] Hin. destruct Ej as [Ej|Ej]; apply Z.leb_gt in Ej; lia. }
  destruct Hk as (Hk & Hin & Hout).
  destruct (Z.ltb_spec k 0); [lia|].
  destruct (model.Paste.Versions p !! Z.to_nat k) as [v|] eqn:Ev.
  - exists (Z.to_nat k), v.
    destruct (util.GzipDecode (model.Version.ZCode v)) as [c e].
    repeat split; try assumption.
    + intros j Hj Hr. rewrite Z2Nat.id by lia. now apply Hin.
    + intros Hall. rewrite (Hout Hall). lia.
  - apply lookup_ge_None in Ev. fold n in Ev. lia.
Qed.

Lemma view_selects_witness :
  httpx.handleView_source (F := StoredFlate.impl) (examples.saved examples.bob_saves)
    (examples.created + 3) examples.view_first
  = inr (Some (0%nat, "print(1)"%string, "python"%string)).
Proof.
  destruct (view_selects StoredFlate.impl PlainDurations.impl
              (examples.saved examples.bob_saves) (examples.created + 3)
              examples.view_first
              (default examples.paste
                 (examples.saved examples.bob_saves !! model.Paste.ID examples.paste)))
    as (k & v & Hrun & Hv & Hin & _).
  - vm_compute. reflexivity.
  - vm_compute. discriminate.
  - vm_compute. discriminate.
  - assert (Hk : Z.of_nat k = 1 - 1) by (apply Hin; [reflexivity|vm_compute; split; discriminate]).
    assert (k = 0%nat) by lia. subst k.
    rewrite Hrun. vm_compute in Hv. injection Hv as <-. vm_compute. reflexivity.
Defined.

(** X15. The redirect of an accepted [handleEditSave] names the last
    version: its target is [/p/<ID>?v=<n>] with [n] the number of
    versions after the edit, and in a reachable store the view of that
    [?v=<n>] hands the renderer the text and the language that were just
    saved. *)
Theorem redirect_shows_saved_text (F : Flate) (D : Durations) (cfg : httpx.Config)
    (s s' : gmap string Paste) (t_get now t : Z) (r r' : httpx.Request)
    (w : httpx.Response) (p p' : Paste) :
  flate_sound F ->
  server.reachable cfg s ->
  httpx.handleEditSave s t_get now r = httpx.Done s' w ->
  httpx.Status w = httpx.StatusSeeOther ->
  s !! httpx.URLParam_id r = Some p ->
  s' !! httpx.URLParam_id r = Some p' ->
  Z.of_nat (length (model.Paste.Versions p')) < 2 ^ 63 ->
  httpx.URLParam_id r' = httpx.URLParam_id r ->
  httpx.Query r' = [("v"%string, GoStrings.Itoa (length (model.Paste.Versions p')))] ->
  t <= model.Paste.ExpiresAt p ->
  httpx.Location w
  = ("/p/" +:+ httpx.URLParam_id r +:+ "?v="
     +:+ GoStrings.Itoa (length (model.Paste.Versions p')))%string
  /\ httpx.handleView_source s' t r'
     = inr (Some ((length (model.Paste.Versions p') - 1)%nat,
                  GoStrings.TrimSpace (httpx.FormValue r "code"),
                  httpx.normalizeLang (GoStrings.TrimSpace (httpx.FormValue r "lang")))).
Proof.
  intros Hs Hr Hrun Hst Hl Hl' Hlen Hid' Hq Ht.
  assert (Ha : httpx.accepted_edit cfg s t_get now r s'
                 (GoStrings.TrimSpace (httpx.FormValue r "code"))
                 (httpx.normalizeLang (GoStrings.TrimSpace (httpx.FormValue r "lang")))
                 (GoStrings.TrimSpace (httpx.FormValue r "author")))
    by (left; exists w; repeat split; assumption).
  destruct (reachable_all_sound cfg s Hr _ p Hl) as (Hidp & _).
  destruct (accepted_edit_entry _ _ _ _ _ _ _ _ _ _ Ha Hl Hidp) as (q & He & Hq' & _).
  rewrite Hl' in Hq'. injection Hq' as <-.
  destruct (edited_frame _ _ _ _ _ _ He) as (Hid & Hexp & _).
  destruct (edited_fields _ _ _ _ _ _ He) as (Hlang & Hcode & _).
  destruct (edited_mirrors _ _ _ _ _ _ Hs He) as (last & Hlast & Hc & Hg).
  split.
  - unfold httpx.handleEditSave in Hrun.
    destruct (store.Get s t_get (httpx.URLParam_id r)) as [p0 ok] eqn:Hg0.
    destruct ok; cbn [negb] in Hrun; [|injection Hrun as _ <-; discriminate Hst].
    apply Get_true in Hg0 as [Hp0 _]. rewrite Hl in Hp0. injection Hp0 as <-.
    destruct (httpx.canEditPaste r p); cbn [negb] in Hrun;
      [|injection Hrun as _ <-; discriminate Hst].
    destruct (httpx.ParseFormErr r); [injection Hrun as _ <-; discriminate Hst|].
    destruct (String.eqb _ ""); [injection Hrun as _ <-; discriminate Hst|].
    rewrite He in Hrun. injection Hrun as _ <-. cbn [httpx.Location].
    now rewrite Hid, Hidp.
  - unfold httpx.handleView_source. rewrite Hid'.
    rewrite (Get_found _ _ _ _ Hl'); [|lia]. cbn [negb].
    unfold httpx.QueryGet. rewrite Hq. cbn [httpx.first]. rewrite String.eqb_refl.
    rewrite TrimSpace_Itoa, (Atoi_Itoa _ Hlen).
    assert (Hpos : (0 < length (model.Paste.Versions p'))%nat).
    { apply last_version_Some in Hlast. destruct (model.Paste.Versions p'); [congruence|simpl; lia]. }
    assert (Hitoa : String.eqb (GoStrings.Itoa (length (model.Paste.Versions p'))) "" = false).
    { apply String.eqb_neq. intros E.
      pose proof (Atoi_Itoa _ Hlen) as HA. rewrite E in HA. discriminate HA. }
    rewrite Hitoa. cbn [negb].
    destruct (Z.leb_spec 1 (Z.of_nat (length (model.Paste.Versions p')))); [|lia].
    rewrite Z.leb_refl. cbn [andb].
    destruct (Z.ltb_spec (Z.of_nat (length (model.Paste.Versions p')) - 1) 0); [lia|].
    replace (Z.to_nat (Z.of_nat (length (model.Paste.Versions p')) - 1))
      with (length (model.Paste.Versions p') - 1)%nat by lia.
    unfold httpx.last_version in Hlast. rewrite Hlast.
    destruct (util.GzipDecode (model.Version.ZCode last)) as [c e].
    cbn [fst] in Hc. now rewrite Hc, Hg, Hcode, Hlang.
Qed.

Lemma redirect_shows_saved_text_witness :
  httpx.Location (examples.answered examples.bob_saves) = "/p/CzBVep_E6Q4?v=2"%string
  /\ httpx.handleView_source (F := StoredFlate.impl) (examples.saved examples.bob_saves)
       (examples.created + 3) examples.view_second
     = inr (Some (1%nat, "print(2)"%string, "python"%string)).
Proof.
  destruct (redirect_shows_saved_text StoredFlate.impl PlainDurations.impl examples.config
           examples.items (examples.saved examples.bob_saves)
           (examples.created + 1) (examples.created + 2) (examples.created + 3)
           examples.edit_bob examples.view_second (examples.answered examples.bob_saves)
           examples.paste
           (default examples.paste
              (examples.saved examples.bob_saves !! model.Paste.ID examples.paste))
           stored_sound reachable_items) as [Hloc Hview].
  - vm_compute. reflexivity.
  - reflexivity.
  - apply lookup_Put.
  - vm_compute. reflexivity.
  - vm_compute. reflexivity.
  - reflexivity.
  - vm_compute. reflexivity.
  - vm_compute. discriminate.
  - split.
    + rewrite Hloc. vm_compute. reflexivity.
    + rewrite Hview. vm_compute. reflexivity.
Defined.

(** X16. Saving the edit form as it was served changes no history: in a
    reachable store, when [handleEditForm] serves a form and its text and
    language are submitted back through [handleEditSave] by a request that
    may edit, the edit is accepted and the entry keeps exactly the
    versions it had. *)
Theorem resubmitted_form_appends_nothing (F : Flate) (D : Durations)
    (cfg : httpx.Config) (s : gmap string Paste) (t t_get now : Z)
    (r1 r2 : httpx.Request) (form : httpx.EditForm) (p : Paste) :
  flate_sound F ->
  server.reachable cfg s ->
  s !! httpx.URLParam_id r1 = Some p ->
  httpx.handleEditForm s t r1 = inr (Some form) ->
  httpx.URLParam_id r2 = httpx.URLParam_id r1 ->
  httpx.canEditPaste r2 p = true ->
  httpx.ParseFormErr r2 = false ->
  httpx.FormValue r2 "code" = httpx.form_Code form ->
  httpx.FormValue r2 "lang" = httpx.form_Lang form ->
  t_get <= model.Paste.ExpiresAt p ->
  exists s' w p',
    httpx.handleEditSave s t_get now r2 = httpx.Done s' w
    /\ httpx.Status w = httpx.StatusSeeOther
    /\ s' !! httpx.URLParam_id r1 = Some p'
    /\ model.Paste.Versions p' = model.Paste.Versions p
    /\ httpx.form_Code form = model.Paste.Code p.
Proof.
  intros Hs Hr Hl Hform Hid Hcan Hpf Hcode Hlang Ht.
  destruct (reachable_all_sound cfg s Hr _ p Hl)
    as (Hidp & _ & Hlp & _ & _ & Hne & Htrim & _).
  destruct (reachable_all_mirror Hs cfg s Hr _ p Hl) as (last & Hlast & Hc & Hg).
  assert (Hf : httpx.form_Code form = model.Paste.Code p
               /\ httpx.form_Lang form = model.Paste.Lang p).
  { unfold httpx.handleEditForm in Hform.
    destruct (store.Get s t (httpx.URLParam_id r1)) as [p0 ok] eqn:Hg0.
    destruct ok; cbn [negb] in Hform; [|discriminate].
    apply Get_true in Hg0 as [Hp0 _]. rewrite Hl in Hp0. injection Hp0 as <-.
    destruct (httpx.canEditPaste r1 p); cbn [negb] in Hform; [|discriminate].
    rewrite Hlast in Hform.
    destruct (util.GzipDecode (model.Version.ZCode last)) as [c e].
    injection Hform as <-. cbn [httpx.form_Code httpx.form_Lang fst] in *.
    split; assumption. }
  destruct Hf as (Hfc & Hfl).
  destruct (edited_total p now (model.Paste.Code p) (model.Paste.Lang p)
              (GoStrings.TrimSpace (httpx.FormValue r2 "author")) last Hlast)
    as (p' & He).
  destruct (edited_versions _ _ _ _ _ _ He) as (last' & Hlast' & Hv).
  rewrite Hlast in Hlast'. injection Hlast' as <-.
  rewrite Hc, Hg, !String.eqb_refl in Hv. cbn [andb] in Hv.
  destruct (edited_frame _ _ _ _ _ _ He) as (Hid' & _).
  unfold httpx.handleEditSave. rewrite Hid, (Get_found _ _ _ _ Hl Ht). cbn [negb].
  rewrite Hcan, Hpf, Hcode, Hlang, Hfc, Hfl, Htrim. cbn [negb].
  apply String.eqb_neq in Hne. rewrite Hne.
  rewrite (TrimSpace_Langs _ Hlp), (normalizeLang_id _ Hlp), He.
  do 2 eexists. exists p'. split; [reflexivity|]. split; [reflexivity|].
  split; [rewrite <- Hidp, <- Hid'; apply lookup_Put|]. split; [exact Hv|reflexivity].
Qed.

Lemma resubmitted_form_appends_nothing_witness :
  exists s' w p',
    httpx.handleEditSave (F := StoredFlate.impl) examples.items (examples.created + 2)
      (examples.created + 3) examples.edit_unchanged
    = httpx.Done s' w
    /\ httpx.Status w = httpx.StatusSeeOther
    /\ s' !! httpx.URLParam_id examples.open_form = Some p'
    /\ model.Paste.Versions p' = model.Paste.Versions examples.paste
    /\ httpx.form_Code examples.served_form = model.Paste.Code examples.paste.
Proof.
  apply (resubmitted_form_appends_nothing StoredFlate.impl PlainDurations.impl
           examples.config examples.items (examples.created + 1) (examples.created + 2)
           (examples.created + 3) examples.open_form examples.edit_unchanged
           examples.served_form examples.paste stored_sound reachable_items).
  - apply lookup_Put.
  - vm_compute. reflexivity.
  - reflexivity.
  - vm_compute. reflexivity.
  - reflexivity.
  - reflexivity.
  - reflexivity.
  - vm_compute. discriminate.
Defined.

(** X17. [handleAPIEdit] takes the key from the query only: a request
    without [?key] is answered 401 and changes nothing, even when it
    carries the cookie of the paste, the cookie with which the same
    request passes the check of the form handlers. *)
Theorem api_edit_wants_query_key (F : Flate) (D : Durations) (cfg : httpx.Config)
    (s : gmap string Paste) (t_get now : Z) (r : httpx.Request) (p : Paste) :
  s !! httpx.URLParam_id r = Some p ->
  t_get <= model.Paste.ExpiresAt p ->
  httpx.QueryGet r "key" = EmptyString ->
  httpx.handleAPIEdit cfg s t_get now r
  = httpx.Done s (httpx.Error "missing ?key" httpx.StatusUnauthorized)
  /\ (model.Paste.Editable p = true ->
      model.Paste.EditKey p <> EmptyString ->
      httpx.Cookie r ("npk_" +:+ model.Paste.ID p) = Some (model.Paste.EditKey p) ->
      httpx.canEditPaste r p = true).
Proof.
  intros Hl Ht Hk. split.
  - unfold httpx.handleAPIEdit. rewrite (Get_found _ _ _ _ Hl Ht). cbn [negb].
    now rewrite Hk.
  - intros Hed Hne Hc. unfold httpx.canEditPaste. rewrite Hed, Hk, Hc. cbn.
    apply String.eqb_neq in Hne. now rewrite Hne, String.eqb_refl.
Qed.

Lemma api_edit_wants_query_key_witness :
  httpx.handleAPIEdit (F := StoredFlate.impl) examples.config examples.items
    (examples.created + 1) (examples.created + 2) examples.edit_by_cookie
  = httpx.Done examples.items (httpx.Error "missing ?key" httpx.StatusUnauthorized)
  /\ httpx.canEditPaste examples.edit_by_cookie examples.paste = true.
Proof.
  destruct (api_edit_wants_query_key StoredFlate.impl PlainDurations.impl examples.config
              examples.items (examples.created + 1) (examples.created + 2)
              examples.edit_by_cookie examples.paste)
    as (H401 & Hcan).
  - apply lookup_Put.
  - vm_compute. discriminate.
  - reflexivity.
  - split; [exact H401|]. apply Hcan; [reflexivity| |reflexivity].
    vm_compute. discriminate.
Defined.

(** ** The create handlers *)

Section CreateHandlerFacts.
Context {F : Flate} {D : Durations} {U : GoStrings.Unicode} {C : Calendar}.

Import model httpx.

(** [handleCreate] answers 400 and leaves the map, or stores what
    [buildPaste] returned. *)
Lemma handleCreate_cases s now e_id e_key w_id w_key (r : Request) :
  (exists msg,
     handleCreate s now e_id e_key w_id w_key r = Done s (Error msg StatusBadRequest))
  \/ exists p author cookies,
       buildPaste now e_id e_key w_id w_key
         (GoStrings.TrimSpace (FormValue r "code")) (GoStrings.TrimSpace (FormValue r "lang"))
         (GoStrings.TrimSpace (FormValue r "ttl")) (GoStrings.TrimSpace (FormValue r "theme"))
         (util.IsTruthy (FormValue r "editable")) author = (p, None)
       /\ handleCreate s now e_id e_key w_id w_key r
          = Done (store.Put s p)
              {| Status := StatusSeeOther; Body := Text "";
                 Location := "/p/" +:+ Paste.ID p; SetCookies := cookies |}
       /\ (Paste.Editable p = true ->
           In (WriteCookie ("npk_" +:+ Paste.ID p) (Paste.EditKey p) (365 * 24 * time.Hour))
             cookies).
Proof.
  unfold handleCreate. destruct (ParseFormErr r); [left; eexists; reflexivity|].
  match goal with
  | |- context [buildPaste ?a ?b ?c ?d ?e ?f ?g ?h ?i ?j ?k] =>
      destruct (buildPaste a b c d e f g h i j k) as [p [err|]] eqn:Hb
  end.
  - left. eexists. reflexivity.
  - right. do 3 eexists. split; [exact Hb|]. split; [reflexivity|].
    intros ->. apply in_or_app. right. left. reflexivity.
Qed.

(** [handleAPIPaste] answers 400 and leaves the map, or stores what
    [buildPaste] returned and answers 200. *)
Lemma handleAPIPaste_cases cfg s now e_id e_key w_id w_key (a : APIRequest) :
  (exists msg,
     handleAPIPaste cfg s now e_id e_key w_id w_key a = Done s (Error msg StatusBadRequest))
  \/ exists p code lang ttl theme editable author w,
       buildPaste now e_id e_key w_id w_key code lang ttl theme editable author = (p, None)
       /\ handleAPIPaste cfg s now e_id e_key w_id w_key a = Done (store.Put s p) w
       /\ Status w = StatusOK
       /\ (GoStrings.HasPrefix (ContentType a) "application/json"
           || (0 <? length (RawBody a))%nat && bytesHasJSONPrefix (RawBody a) = false ->
           code = string_of_list_byte (RawBody a)).
Proof.
  unfold handleAPIPaste.
  destruct (GoStrings.HasPrefix (ContentType a) "application/json"
            || (0 <? length (RawBody a))%nat && bytesHasJSONPrefix (RawBody a)) eqn:Hj.
  - destruct (JSONBody (Req a)) as [req|]; [|left; eexists; reflexivity].
    match goal with
    | |- context [buildPaste ?a ?b ?c ?d ?e ?f ?g ?h ?i ?j ?k] =>
        destruct (buildPaste a b c d e f g h i j k) as [p [err|]] eqn:Hb
    end; [left; eexists; reflexivity|].
    right. exists p. do 6 eexists.
    destruct (GoStrings.ContainsStr (Accept a) "application/json"
              || String.eqb (QueryGet (Req a) "format") "json");
      [|destruct (negb (String.eqb _ ""))];
      (eexists; split; [exact Hb|]; split; [reflexivity|]; split; [reflexivity|];
       discriminate).
  - match goal with
    | |- context [buildPaste ?a ?b ?c ?d ?e ?f ?g ?h ?i ?j ?k] =>
        destruct (buildPaste a b c d e f g h i j k) as [p [err|]] eqn:Hb
    end; [left; eexists; reflexivity|].
    right. exists p. do 6 eexists.
    destruct (GoStrings.ContainsStr (Accept a) "application/json"
              || String.eqb (QueryGet (Req a) "format") "json");
      [|destruct (negb (String.eqb _ ""))];
      (eexists; split; [exact Hb|]; split; [reflexivity|]; split; [reflexivity|];
       reflexivity).
Qed.

(** The text of a paste that was just built is what [handleRaw] serves
    from any map it was put in. *)
Lemma raw_of_built s now e_id e_key w_id w_key code lang ttl theme editable author p
    t (r : Request) :
  flate_sound F ->
  buildPaste now e_id e_key w_id w_key code lang ttl theme editable author = (p, None) ->
  URLParam_id r = Paste.ID p ->
  t <= Paste.ExpiresAt p ->
  handleRaw (store.Put s p) t r
  = Done (store.Put s p)
      {| Status := StatusOK; Body := Text (GoStrings.TrimSpace code);
         Location := ""; SetCookies := [] |}.
Proof.
  intros Hs Hb Hid Ht.
  destruct (buildPaste_ok _ _ _ _ _ _ _ _ _ _ _ _ Hb) as (_ & _ & _ & _ & _ & _ & Hv & _).
  rewrite (handleRaw_last (store.Put s p) t r p
             {| Version.ZCode := util.GzipEncode (GoStrings.TrimSpace code);
                Version.Lang := normalizeLang lang;
                Version.Author := author; Version.At := now |}).
  - cbn [Version.ZCode]. now rewrite (decode_encode Hs).
  - rewrite Hid. apply lookup_Put.
  - exact Ht.
  - rewrite Hv. reflexivity.
Qed.

End CreateHandlerFacts.

(** X18. A form that [handleCreate] does not answer with the redirect
    is answered 400 without a cookie, and the map is left as it was. *)
Theorem rejected_create_keeps_store (F : Flate) (D : Durations) (U : GoStrings.Unicode)
    (s s' : gmap string Paste) (now : Z) (e_id e_key : util.Entropy)
    (w_id w_key : time.Wall) (r : httpx.Request) (w : httpx.Response) :
  httpx.handleCreate s now e_id e_key w_id w_key r = httpx.Done s' w ->
  httpx.Status w <> httpx.StatusSeeOther ->
  s' = s /\ httpx.Status w = httpx.StatusBadRequest /\ httpx.SetCookies w = [].
Proof.
  intros Hrun Hst.
  destruct (handleCreate_cases s now e_id e_key w_id w_key r)
    as [[msg H]|(p & author & cookies & _ & H & _)];
    rewrite H in Hrun; injection Hrun as <- <-.
  - repeat split.
  - now contradiction Hst.
Qed.

Lemma rejected_create_keeps_store_witness :
  examples.saved
    (httpx.handleCreate (F := StoredFlate.impl) (D := PlainDurations.impl)
       (U := examples.unicode) examples.items examples.created examples.entropy_id
       examples.entropy_key examples.wall examples.wall examples.blank_form)
  = examples.items.
Proof.
  destruct (rejected_create_keeps_store StoredFlate.impl PlainDurations.impl
              examples.unicode examples.items examples.items examples.created
              examples.entropy_id examples.entropy_key examples.wall examples.wall
              examples.blank_form
              (httpx.Error "Code darf nicht leer sein" httpx.StatusBadRequest))
    as (_ & _ & _).
  - vm_compute. reflexivity.
  - vm_compute. discriminate.
  - vm_compute. reflexivity.
Defined.

(** X19. What [handleCreate] stores is what [handleRaw] serves: after
    the redirect to [/p/<id>], a read of [/raw/<id>] up to the expiry
    returns the text of the form with the white space around it
    removed. *)
Theorem created_paste_is_served (F : Flate) (D : Durations) (U : GoStrings.Unicode)
    (s s' : gmap string Paste) (now t : Z) (e_id e_key : util.Entropy)
    (w_id w_key : time.Wall) (r r' : httpx.Request) (w : httpx.Response) :
  flate_sound F ->
  httpx.handleCreate s now e_id e_key w_id w_key r = httpx.Done s' w ->
  httpx.Location w = ("/p/" +:+ httpx.URLParam_id r')%string ->
  t <= now + fst (util.ParseTTL (GoStrings.TrimSpace (httpx.FormValue r "ttl"))) ->
  httpx.handleRaw s' t r'
  = httpx.Done s'
      {| httpx.Status := httpx.StatusOK;
         httpx.Body := httpx.Text (GoStrings.TrimSpace (httpx.FormValue r "code"));
         httpx.Location := ""; httpx.SetCookies := [] |}.
Proof.
  intros Hs Hrun Hloc Ht.
  destruct (handleCreate_cases s now e_id e_key w_id w_key r)
    as [[msg H]|(p & author & cookies & Hb & H & _)];
    rewrite H in Hrun; injection Hrun as <- <-.
  - discriminate Hloc.
  - cbn [httpx.Location] in Hloc. injection Hloc as Hid.
    destruct (buildPaste_ok _ _ _ _ _ _ _ _ _ _ _ _ Hb) as (_ & _ & _ & He & _).
    rewrite (raw_of_built s _ _ _ _ _ _ _ _ _ _ _ p t r' Hs Hb).
    + now rewrite TrimSpace_idem.
    + now symmetry.
    + now rewrite He.
Qed.

Lemma created_paste_is_served_witness :
  httpx.handleRaw (F := StoredFlate.impl) (examples.saved examples.alice_creates)
    (examples.created + 5) (examples.raw_of "CzBVep_E6Q4")
  = httpx.Done (examples.saved examples.alice_creates)
      {| httpx.Status := httpx.StatusOK; httpx.Body := httpx.Text "print(1)";
         httpx.Location := ""; httpx.SetCookies := [] |}.
Proof.
  apply (created_paste_is_served StoredFlate.impl PlainDurations.impl examples.unicode
           store.New (examples.saved examples.alice_creates) examples.created
           (examples.created + 5) examples.entropy_id examples.entropy_key
           examples.wall examples.wall examples.create_form
           (examples.raw_of "CzBVep_E6Q4") (examples.answered examples.alice_creates)
           stored_sound).
  - vm_compute. reflexivity.
  - vm_compute. reflexivity.
  - vm_compute. discriminate.
Defined.

(** X20. The cookie that [handleCreate] sets for an editable paste is
    the one [canEditPaste] accepts: a later request without [?key] that
    sends the cookie back may edit the paste. *)
Theorem creation_cookie_grants_edit (F : Flate) (D : Durations) (U : GoStrings.Unicode)
    (s s' : gmap string Paste) (now : Z) (e_id e_key : util.Entropy)
    (w_id w_key : time.Wall) (r : httpx.Request) (w : httpx.Response) :
  httpx.handleCreate s now e_id e_key w_id w_key r = httpx.Done s' w ->
  httpx.Status w = httpx.StatusSeeOther ->
  util.IsTruthy (httpx.FormValue r "editable") = true ->
  exists p c,
    httpx.Location w = ("/p/" +:+ model.Paste.ID p)%string
    /\ s' !! model.Paste.ID p = Some p
    /\ In c (httpx.SetCookies w)
    /\ httpx.Name c = ("npk_" +:+ model.Paste.ID p)%string
    /\ forall r' : httpx.Request,
         httpx.QueryGet r' "key" = EmptyString ->
         httpx.Cookie r' (httpx.Name c) = Some (httpx.Value c) ->
         httpx.canEditPaste r' p = true.
Proof.
  intros Hrun Hst Hed.
  destruct (handleCreate_cases s now e_id e_key w_id w_key r)
    as [[msg H]|(p & author & cookies & Hb & H & Hc)];
    rewrite H in Hrun; injection Hrun as <- <-.
  - discriminate Hst.
  - destruct (buildPaste_ok _ _ _ _ _ _ _ _ _ _ _ _ Hb)
      as (_ & _ & _ & _ & He & Hk & _).
    rewrite Hed in He, Hk.
    exists p. eexists. split; [reflexivity|]. split; [apply lookup_Put|].
    split; [exact (Hc He)|]. split; [reflexivity|].
    intros r' Hq Hck. cbn [httpx.Name httpx.Value httpx.WriteCookie] in Hck.
    unfold httpx.canEditPaste. rewrite He, Hq, Hck. cbn [negb String.eqb].
    assert (Hne : model.Paste.EditKey p <> EmptyString)
      by (rewrite Hk; apply NewID_nonempty; lia).
    apply String.eqb_neq in Hne. now rewrite Hne, String.eqb_refl.
Qed.

Lemma creation_cookie_grants_edit_witness :
  exists p c,
    httpx.Location (examples.answered examples.alice_creates)
    = ("/p/" +:+ model.Paste.ID p)%string
    /\ examples.saved examples.alice_creates !! model.Paste.ID p = Some p
    /\ In c (httpx.SetCookies (examples.answered examples.alice_creates))
    /\ httpx.Name c = ("npk_" +:+ model.Paste.ID p)%string
    /\ forall r' : httpx.Request,
         httpx.QueryGet r' "key" = EmptyString ->
         httpx.Cookie r' (httpx.Name c) = Some (httpx.Value c) ->
         httpx.canEditPaste r' p = true.
Proof.
  apply (creation_cookie_grants_edit StoredFlate.impl PlainDurations.impl examples.unicode
           store.New (examples.saved examples.alice_creates) examples.created
           examples.entropy_id examples.entropy_key examples.wall examples.wall
           examples.create_form (examples.answered examples.alice_creates)).
  - vm_compute. reflexivity.
  - reflexivity.
  - vm_compute. reflexivity.
Defined.

(** X21. The create handlers take a reachable map to a reachable map,
    whatever they answer: what holds of every reachable map holds after
    [handleCreate] and after [handleAPIPaste]. *)
Theorem create_handlers_keep_reachable (F : Flate) (D : Durations)
    (U : GoStrings.Unicode) (C : Calendar) (cfg : httpx.Config)
    (s s' : gmap string Paste) (now : Z) (e_id e_key : util.Entropy)
    (w_id w_key : time.Wall) (r : httpx.Request) (a : httpx.APIRequest)
    (w : httpx.Response) :
  server.reachable cfg s ->
  httpx.handleCreate s now e_id e_key w_id w_key r = httpx.Done s' w
  \/ httpx.handleAPIPaste cfg s now e_id e_key w_id w_key a = httpx.Done s' w ->
  server.reachable cfg s'.
Proof.
  intros Hr [Hrun|Hrun].
  - destruct (handleCreate_cases s now e_id e_key w_id w_key r)
      as [[msg H]|(p & author & cookies & Hb & H & _)];
      rewrite H in Hrun; injection Hrun as <- <-; [exact Hr|].
    exact (reachable_create cfg s _ _ _ _ _ _ _ _ _ _ _ p Hr Hb).
  - destruct (handleAPIPaste_cases cfg s now e_id e_key w_id w_key a)
      as [[msg H]|(p & code & lang & ttl & theme & editable & author & w0 & Hb & H & _)];
      rewrite H in Hrun; injection Hrun as <- <-; [exact Hr|].
    exact (reachable_create cfg s _ _ _ _ _ _ _ _ _ _ _ p Hr Hb).
Qed.

Lemma create_handlers_keep_reachable_witness :
  server.reachable (F := StoredFlate.impl) (D := PlainDurations.impl)
    examples.config (examples.saved examples.upload_posts).
Proof.
  apply (create_handlers_keep_reachable StoredFlate.impl PlainDurations.impl
           examples.unicode examples.calendar examples.config examples.items
           (examples.saved examples.upload_posts) (examples.created + 1)
           examples.entropy_key examples.entropy_id examples.wall examples.wall
           examples.create_form examples.upload (examples.answered examples.upload_posts)
           reachable_items).
  right. vm_compute. reflexivity.
Defined.

(** X22. A plain-text upload is served back: when the body of a request
    to [handleAPIPaste] is not read as JSON and the answer is 200, the
    map holds a paste under which [handleRaw] returns, up to the expiry,
    the body with the white space around it removed. *)
Theorem upload_is_served (F : Flate) (D : Durations) (U : GoStrings.Unicode)
    (C : Calendar) (cfg : httpx.Config) (s s' : gmap string Paste) (now : Z)
    (e_id e_key : util.Entropy) (w_id w_key : time.Wall) (a : httpx.APIRequest)
    (w : httpx.Response) :
  flate_sound F ->
  GoStrings.HasPrefix (httpx.ContentType a) "application/json" = false ->
  httpx.bytesHasJSONPrefix (httpx.RawBody a) = false ->
  httpx.handleAPIPaste cfg s now e_id e_key w_id w_key a = httpx.Done s' w ->
  httpx.Status w = httpx.StatusOK ->
  exists p,
    s' !! model.Paste.ID p = Some p
    /\ forall (t : Z) (r' : httpx.Request),
         httpx.URLParam_id r' = model.Paste.ID p ->
         t <= model.Paste.ExpiresAt p ->
         httpx.handleRaw s' t r'
         = httpx.Done s'
             {| httpx.Status := httpx.StatusOK;
                httpx.Body :=
                  httpx.Text (GoStrings.TrimSpace (string_of_list_byte (httpx.RawBody a)));
                httpx.Location := ""; httpx.SetCookies := [] |}.
Proof.
  intros Hs Hct Hj Hrun Hst.
  destruct (handleAPIPaste_cases cfg s now e_id e_key w_id w_key a)
    as [[msg H]|(p & code & lang & ttl & theme & editable & author & w0 & Hb & H & _ & Hc)];
    rewrite H in Hrun; injection Hrun as <- <-.
  - discriminate Hst.
  - rewrite Hct, Hj, andb_false_r in Hc. specialize (Hc eq_refl). subst code.
    exists p. split; [apply lookup_Put|].
    intros t r' Hid Ht. exact (raw_of_built s _ _ _ _ _ _ _ _ _ _ _ p t r' Hs Hb Hid Ht).
Qed.

Lemma upload_is_served_witness :
  exists p,
    examples.saved examples.upload_posts !! model.Paste.ID p = Some p
    /\ forall (t : Z) (r' : httpx.Request),
         httpx.URLParam_id r' = model.Paste.ID p ->
         t <= model.Paste.ExpiresAt p ->
         httpx.handleRaw (F := StoredFlate.impl) (examples.saved examples.upload_posts) t r'
         = httpx.Done (examples.saved examples.upload_posts)
             {| httpx.Status := httpx.StatusOK; httpx.Body := httpx.Text "package main";
                httpx.Location := ""; httpx.SetCookies := [] |}.
Proof.
  apply (upload_is_served StoredFlate.impl PlainDurations.impl examples.unicode
           examples.calendar examples.config examples.items
           (examples.saved examples.upload_posts) (examples.created + 1)
           examples.entropy_key examples.entropy_id examples.wall examples.wall
           examples.upload (examples.answered examples.upload_posts) stored_sound).
  - reflexivity.
  - reflexivity.
  - vm_compute. reflexivity.
  - reflexivity.
Defined.

(** ** Highlighted lines *)

Section HighlightFacts.

Import GoStrings.

Lemma append_nil (s : string) : "" +:+ s = s.
Proof. reflexivity. Qed.

Lemma append_cons (c : ascii) (s1 s2 : string) :
  String c s1 +:+ s2 = String c (s1 +:+ s2).
Proof. reflexivity. Qed.

Lemma chars_app (s1 s2 : string) :
  list_ascii_of_string (s1 +:+ s2) = list_ascii_of_string s1 ++ list_ascii_of_string s2.
Proof.
  induction s1 as [|c s1 IH]; rewrite ?append_nil, ?append_cons;
    cbn [list_ascii_of_string app]; [reflexivity|now rewrite IH].
Qed.

Lemma prefix_one (sep c : ascii) (s : string) :
  String.prefix (String sep "") (String c s) = Ascii.eqb c sep.
Proof.
  cbn [String.prefix]. destruct (ascii_dec sep c) as [->|Hn].
  - rewrite Ascii.eqb_refl. now destruct s.
  - symmetry. apply Ascii.eqb_neq. congruence.
Qed.

(** A string that holds the separator splits in two. *)
Lemma SplitN2_two (s : string) (sep : ascii) :
  ContainsStr s (String sep "") = true -> exists a b, SplitN2 s sep = [a; b].
Proof.
  induction s as [|c s IH]; [discriminate|].
  cbn [ContainsStr SplitN2]. rewrite prefix_one.
  destruct (Ascii.eqb c sep); [intros _; now eexists _, _|].
  cbn [orb]. intros H. destruct (IH H) as (a & b & ->). now eexists _, _.
Qed.

Lemma hl_range_returns (a b : Z) (hl : gset Z) : util.hl_range a b hl <> Panics.
Proof.
  unfold util.hl_range. destruct (b <? a); destruct (_ =? _); discriminate.
Qed.

Lemma hl_part_returns (part : string) (hl : gset Z) : util.hl_part part hl <> Panics.
Proof.
  unfold util.hl_part. destruct (String.eqb _ ""); [discriminate|].
  destruct (ContainsStr _ "-") eqn:E.
  - apply (SplitN2_two _ "-"%char) in E as (a & b & ->).
    destruct (Atoi (TrimSpace a)); [|discriminate].
    destruct (Atoi (TrimSpace b)); [apply hl_range_returns|discriminate].
  - destruct (Atoi _); discriminate.
Qed.

Lemma hl_parts_returns (parts : list string) :
  forall hl : gset Z, util.hl_parts parts hl <> Panics.
Proof.
  induction parts as [|part rest IH]; intros hl; cbn [util.hl_parts]; [discriminate|].
  pose proof (hl_part_returns part hl).
  destruct (util.hl_part part hl); [apply IH|congruence|discriminate].
Qed.

(** What a part adds does not depend on what is in the map. *)
Lemma hl_range_acc (a b : Z) (hl : gset Z) :
  util.hl_range a b hl
  = match util.hl_range a b ∅ with
    | Returns h => Returns (h ∪ hl)
    | Panics => Panics
    | Loops => Loops
    end.
Proof.
  unfold util.hl_range. destruct (b <? a); destruct (_ =? _); try reflexivity;
    now rewrite (right_id_L ∅ (∪)).
Qed.

Lemma hl_part_acc (part : string) (hl : gset Z) :
  util.hl_part part hl
  = match util.hl_part part ∅ with
    | Returns h => Returns (h ∪ hl)
    | Panics => Panics
    | Loops => Loops
    end.
Proof.
  unfold util.hl_part. destruct (String.eqb _ "").
  { now rewrite (left_id_L ∅ (∪)). }
  destruct (ContainsStr _ "-").
  - destruct (SplitN2 _ _) as [|ch0 [|ch1 ?]]; try reflexivity.
    destruct (Atoi (TrimSpace ch0)); [|now rewrite (left_id_L ∅ (∪))].
    destruct (Atoi (TrimSpace ch1)); [|now rewrite (left_id_L ∅ (∪))].
    apply hl_range_acc.
  - destruct (Atoi _); [now rewrite (right_id_L ∅ (∪))|now rewrite (left_id_L ∅ (∪))].
Qed.

Lemma hl_parts_acc (parts : list string) :
  forall hl : gset Z,
    util.hl_parts parts hl
    = match util.hl_parts parts ∅ with
      | Returns h => Returns (h ∪ hl)
      | Panics => Panics
      | Loops => Loops
      end.
Proof.
  induction parts as [|part rest IH]; intros hl; cbn [util.hl_parts].
  { now rewrite (left_id_L ∅ (∪)). }
  rewrite (hl_part_acc part hl).
  destruct (util.hl_part part ∅) as [h0| |]; try reflexivity.
  rewrite (IH (h0 ∪ hl)), (IH h0).
  destruct (util.hl_parts rest ∅) as [r0| |]; try reflexivity.
  now rewrite (assoc_L (∪)).
Qed.

Lemma hl_parts_app (l1 l2 : list string) :
  forall hl : gset Z,
    util.hl_parts (l1 ++ l2) hl
    = match util.hl_parts l1 hl with
      | Returns h => util.hl_parts l2 h
      | Panics => Panics
      | Loops => Loops
      end.
Proof.
  induction l1 as [|part rest IH]; intros hl; cbn [app util.hl_parts]; [reflexivity|].
  destruct (util.hl_part part hl); [apply IH|reflexivity..].
Qed.

Lemma Split_nonempty (s : string) (sep : ascii) : Split s sep <> [].
Proof.
  destruct s as [|c s]; cbn [Split]; [discriminate|].
  destruct (Ascii.eqb c sep); [discriminate|]. destruct (Split s sep); discriminate.
Qed.

Lemma Split_app (s1 s2 : string) (sep : ascii) :
  Split (s1 +:+ String sep s2) sep = Split s1 sep ++ Split s2 sep.
Proof.
  induction s1 as [|c s1 IH]; rewrite ?append_nil, ?append_cons; cbn [Split app].
  - now rewrite Ascii.eqb_refl.
  - destruct (Ascii.eqb c sep); [now rewrite IH|].
    rewrite IH. pose proof (Split_nonempty s1 sep).
    destruct (Split s1 sep); [congruence|reflexivity].
Qed.

Lemma Split_one (s : string) (sep : ascii) :
  Forall (fun c => Ascii.eqb c sep = false) (list_ascii_of_string s) ->
  Split s sep = [s].
Proof.
  induction s as [|c s IH]; cbn [list_ascii_of_string Split]; [reflexivity|].
  intros H. inversion H as [|? ? Hc Hs]; subst. now rewrite Hc, (IH Hs).
Qed.

Lemma SplitN2_app (s1 s2 : string) (sep : ascii) :
  Forall (fun c => Ascii.eqb c sep = false) (list_ascii_of_string s1) ->
  SplitN2 (s1 +:+ String sep s2) sep = [s1; s2].
Proof.
  induction s1 as [|c s1 IH]; rewrite ?append_nil, ?append_cons;
    cbn [list_ascii_of_string SplitN2].
  - now rewrite Ascii.eqb_refl.
  - intros H. inversion H as [|? ? Hc Hs]; subst. now rewrite Hc, (IH Hs).
Qed.

Lemma ContainsStr_app (s1 s2 : string) (sep : ascii) :
  ContainsStr (s1 +:+ String sep s2) (String sep "") = true.
Proof.
  induction s1 as [|c s1 IH]; rewrite ?append_nil, ?append_cons;
    cbn [ContainsStr]; rewrite prefix_one.
  - now rewrite Ascii.eqb_refl.
  - rewrite IH. apply orb_true_r.
Qed.

(** The empty string is one empty part. *)
Lemma ParseHL_parts (s : string) : util.ParseHL s = util.hl_parts (Split s ",") ∅.
Proof.
  unfold util.ParseHL. destruct (String.eqb_spec s ""); [subst|]; reflexivity.
Qed.

Lemma bytes_of_app (s1 s2 : string) : bytes_of (s1 +:+ s2) = bytes_of s1 ++ bytes_of s2.
Proof.
  unfold bytes_of. now rewrite chars_app, map_app.
Qed.

Lemma Itoa_bytes (n : nat) :
  Forall digit_byte (bytes_of (Itoa n)) /\ bytes_of (Itoa n) <> [].
Proof.
  rewrite Itoa_digits. split; [apply string_of_uint_digit_bytes|].
  pose proof (to_uint_not_Nil n). destruct (Nat.to_uint n); [congruence|..]; discriminate.
Qed.

Lemma Itoa_chars (n : nat) (sep : ascii) :
  (N_of_ascii sep < 48)%N ->
  Forall (fun c => Ascii.eqb c sep = false) (list_ascii_of_string (Itoa n)).
Proof.
  intros Hsep. destruct (Itoa_bytes n) as [Hd _]. unfold bytes_of in Hd.
  induction (list_ascii_of_string (Itoa n)) as [|c l IH]; [constructor|].
  cbn [map] in Hd. inversion Hd as [|? ? Hc Hl]; subst.
  constructor; [|exact (IH Hl)].
  apply Ascii.eqb_neq. intros ->. unfold digit_byte in Hc. lia.
Qed.

Lemma digit_byte_plain (c : N) : digit_byte c -> (c < 128)%N /\ asciiSpace c = false.
Proof.
  unfold digit_byte. intros Hc. split; [lia|]. unfold asciiSpace.
  replace (c <=? 13)%N with false by (symmetry; apply N.leb_gt; lia).
  replace (c =? 32)%N with false by (symmetry; apply N.eqb_neq; lia).
  now rewrite andb_false_r.
Qed.

(** A range of two printed numbers is its own trim. *)
Lemma TrimSpace_range (a b : nat) :
  TrimSpace (Itoa a +:+ "-" +:+ Itoa b) = Itoa a +:+ "-" +:+ Itoa b.
Proof.
  destruct (Itoa_bytes a) as [Ha Hane], (Itoa_bytes b) as [Hb Hbne].
  destruct (bytes_of (Itoa a)) as [|c l] eqn:Ea; [congruence|].
  destruct (rev (bytes_of (Itoa b))) as [|c' l'] eqn:Eb.
  { apply (f_equal (@length N)) in Eb. rewrite length_rev in Eb.
    destruct (bytes_of (Itoa b)); [congruence|discriminate]. }
  assert (Hc : digit_byte c) by (now inversion Ha).
  assert (Hc' : digit_byte c').
  { rewrite Forall_forall in Hb. apply Hb, list_elem_of_In, in_rev.
    rewrite Eb. now left. }
  destruct (digit_byte_plain c Hc), (digit_byte_plain c' Hc').
  apply (TrimSpace_plain_ends _ c c' (l ++ bytes_of ("-" +:+ Itoa b))
           (l' ++ rev (bytes_of (Itoa a +:+ "-")))); try assumption.
  - now rewrite bytes_of_app, Ea.
  - rewrite (bytes_of_app (Itoa a)), (bytes_of_app "-" (Itoa b)), app_assoc, rev_app_distr,
      Eb, <- bytes_of_app. reflexivity.
Qed.

End HighlightFacts.

(** X23. [ParseHL] does not panic: a part that holds a dash is split in
    two, so the index [ch[1]] is in range, whatever the query says. *)
Theorem ParseHL_never_panics (s : string) : util.ParseHL s <> Panics.
Proof. rewrite ParseHL_parts. apply hl_parts_returns. Qed.

(** X24. [ParseHL] of a range [a-b] of two line numbers below the
    largest [int] returns the numbers between the two ends, whichever of
    them is written first. *)
Theorem ParseHL_range (a b : nat) :
  Z.of_nat a < 2 ^ 63 - 1 ->
  Z.of_nat b < 2 ^ 63 - 1 ->
  exists hl : gset Z,
    util.ParseHL (GoStrings.Itoa a +:+ "-" +:+ GoStrings.Itoa b) = Returns hl
    /\ forall n : Z,
         n ∈ hl <-> Z.min (Z.of_nat a) (Z.of_nat b) <= n <= Z.max (Z.of_nat a) (Z.of_nat b).
Proof.
  intros Ha Hb. rewrite ParseHL_parts, Split_one.
  2:{ rewrite !chars_app. repeat apply Forall_app_2.
      - apply Itoa_chars. reflexivity.
      - repeat constructor.
      - apply Itoa_chars. reflexivity. }
  cbn [util.hl_parts]. unfold util.hl_part. rewrite TrimSpace_range.
  change (GoStrings.Itoa a +:+ "-" +:+ GoStrings.Itoa b)
    with (GoStrings.Itoa a +:+ String "-" (GoStrings.Itoa b)).
  rewrite (ContainsStr_app _ _ "-"%char), (SplitN2_app _ _ "-"%char)
    by (apply Itoa_chars; reflexivity).
  rewrite !TrimSpace_Itoa, !Atoi_Itoa by lia.
  destruct (String.eqb_spec (GoStrings.Itoa a +:+ String "-" (GoStrings.Itoa b)) "") as [E|_].
  { apply (f_equal list_ascii_of_string) in E. rewrite chars_app in E.
    apply app_eq_nil in E as [_ E]. discriminate E. }
  unfold util.hl_range.
  assert (Ea : (Z.of_nat a =? 2 ^ 63 - 1) = false) by (apply Z.eqb_neq; lia).
  assert (Eb : (Z.of_nat b =? 2 ^ 63 - 1) = false) by (apply Z.eqb_neq; lia).
  destruct (Z.of_nat b <? Z.of_nat a) eqn:E; cbv beta iota; rewrite ?Ea, ?Eb;
    [apply Z.ltb_lt in E|apply Z.ltb_ge in E];
    eexists; (split; [reflexivity|]); intros n;
    rewrite elem_of_union, elem_of_list_to_set, elem_of_seqZ, elem_of_empty; lia.
Qed.

Lemma ParseHL_range_witness :
  exists hl : gset Z,
    util.ParseHL "7-3" = Returns hl /\ forall n : Z, n ∈ hl <-> 3 <= n <= 7.
Proof.
  apply (ParseHL_range 7 3); vm_compute; reflexivity.
Defined.

(** X25. [ParseHL] reads a list part by part: when the lists on the two
    sides of a comma are read to the end, the list as a whole gives the
    lines of both. *)
Theorem ParseHL_comma (s1 s2 : string) (h1 h2 : gset Z) :
  util.ParseHL s1 = Returns h1 ->
  util.ParseHL s2 = Returns h2 ->
  util.ParseHL (s1 +:+ "," +:+ s2) = Returns (h1 ∪ h2).
Proof.
  rewrite !ParseHL_parts.
  change (s1 +:+ "," +:+ s2) with (s1 +:+ String "," s2).
  rewrite Split_app, hl_parts_app. intros -> H2.
  rewrite hl_parts_acc, H2. now rewrite (comm_L (∪)).
Qed.

Lemma ParseHL_comma_witness :
  util.ParseHL "2,5-6" = Returns ({[2]} ∪ {[5; 6]}).
Proof.
  apply (ParseHL_comma "2" "5-6"); vm_compute; reflexivity.
Defined.

(** ** Identifiers *)

Section IdentifierFacts.

Lemma encodeURL_urlsafe (n : N) : Base64.urlsafe (Base64.encodeURL n) = true.
Proof.
  unfold Base64.encodeURL, Base64.urlsafe.
  destruct (N.ltb_spec n 26).
  { rewrite N_ascii_embedding by lia.
    replace (65 <=? 65 + n)%N with true by (symmetry; apply N.leb_le; lia).
    replace (65 + n <=? 90)%N with true by (symmetry; apply N.leb_le; lia).
    reflexivity. }
  destruct (N.ltb_spec n 52).
  { rewrite N_ascii_embedding by lia.
    replace (97 <=? 97 + (n - 26))%N with true by (symmetry; apply N.leb_le; lia).
    replace (97 + (n - 26) <=? 122)%N with true by (symmetry; apply N.leb_le; lia).
    cbn [andb orb]. now rewrite orb_true_r. }
  destruct (N.ltb_spec n 62).
  { rewrite N_ascii_embedding by lia.
    replace (48 <=? 48 + (n - 52))%N with true by (symmetry; apply N.leb_le; lia).
    replace (48 + (n - 52) <=? 57)%N with true by (symmetry; apply N.leb_le; lia).
    cbn [andb orb]. now rewrite !orb_true_r. }
  destruct (n =? 62)%N; reflexivity.
Qed.

(** The encoding, three bytes at a time. *)
Lemma EncodeToString_shape (k : nat) :
  forall src : list byte,
    (length src <= k)%nat ->
    Forall (fun c => Base64.urlsafe c = true)
      (list_ascii_of_string (Base64.EncodeToString src))
    /\ String.length (Base64.EncodeToString src) = ((4 * length src + 2) / 3)%nat.
Proof.
  induction k as [k IH] using lt_wf_ind. intros src Hk.
  destruct src as [|a [|b [|c r]]].
  - split; [constructor|reflexivity].
  - split; [|reflexivity].
    cbn [Base64.EncodeToString list_ascii_of_string].
    repeat constructor; apply encodeURL_urlsafe.
  - split; [|reflexivity].
    cbn [Base64.EncodeToString list_ascii_of_string].
    repeat constructor; apply encodeURL_urlsafe.
  - destruct (IH (length r) ltac:(cbn [length] in Hk; lia) r (le_n _)) as [Hf Hl].
    change (Base64.EncodeToString (a :: b :: c :: r))
      with (let v := (Byte.to_N a * 65536 + Byte.to_N b * 256 + Byte.to_N c)%N in
            String (Base64.encodeURL (v / 262144 mod 64)%N)
              (String (Base64.encodeURL (v / 4096 mod 64)%N)
                 (String (Base64.encodeURL (v / 64 mod 64)%N)
                    (String (Base64.encodeURL (v mod 64)%N) (Base64.EncodeToString r))))).
    cbv zeta. cbn [list_ascii_of_string String.length length]. split.
    + repeat (constructor; [apply encodeURL_urlsafe|]). exact Hf.
    + rewrite Hl. replace (4 * S (S (S (length r))) + 2)%nat
        with (4 * length r + 2 + 4 * 3)%nat by lia.
      rewrite Nat.div_add by lia. lia.
Qed.

End IdentifierFacts.

(** X26. An identifier made by [NewID] is written in the URL-safe
    alphabet (letters, digits, [-] and [_]) and has a fixed length: that
    of the unpadded base64 of [n] bytes, or 14 characters when the random
    source fails and the wall clock is encoded instead. *)
Theorem NewID_shape (e : util.Entropy) (w : time.Wall) (n : nat) :
  Forall (fun c => Base64.urlsafe c = true) (list_ascii_of_string (util.NewID e w n))
  /\ String.length (util.NewID e w n)
     = (if util.rand_err e then 14 else (4 * n + 2) / 3)%nat.
Proof.
  unfold util.NewID. destruct (util.rand_err e).
  - destruct (EncodeToString_shape _ (list_byte_of_string (time.Format150405 w)) (le_n _))
      as [Hf Hl].
    split; [exact Hf|]. rewrite Hl. reflexivity.
  - destruct (EncodeToString_shape _ (map (util.rand_byte e) (seq 0 n)) (le_n _))
      as [Hf Hl].
    split; [exact Hf|]. now rewrite Hl, length_map, length_seq.
Qed.

(** ** Bodies that look like JSON *)

Section BodyFacts.

Import httpx.

Lemma bytesHasJSONPrefix_skip (ws b : list byte) :
  Forall blank ws -> bytesHasJSONPrefix (ws ++ b) = bytesHasJSONPrefix b.
Proof.
  induction 1 as [|c ws Hc _ IH]; [reflexivity|].
  cbn [app bytesHasJSONPrefix]. destruct Hc as [-> | [-> | [-> | ->]]]; exact IH.
Qed.

End BodyFacts.

(** X27. A body whose first byte after spaces, tabs and line ends is an
    opening brace is read as JSON whatever its content type: when it
    does not parse, [handleAPIPaste] answers 400 and stores nothing, and
    the text is not taken as a paste. *)
Theorem brace_body_is_read_as_json (F : Flate) (D : Durations) (U : GoStrings.Unicode)
    (C : Calendar) (cfg : httpx.Config) (s : gmap string Paste) (now : Z)
    (e_id e_key : util.Entropy) (w_id w_key : time.Wall) (a : httpx.APIRequest)
    (ws rest : list byte) :
  httpx.RawBody a = ws ++ x7b :: rest ->
  Forall httpx.blank ws ->
  httpx.JSONBody (httpx.Req a) = None ->
  httpx.handleAPIPaste cfg s now e_id e_key w_id w_key a
  = httpx.Done s (httpx.Error "Invalid JSON" httpx.StatusBadRequest).
Proof.
  intros Hb Hws Hj. unfold httpx.handleAPIPaste.
  rewrite Hb, (bytesHasJSONPrefix_skip ws _ Hws), Hj.
  replace (0 <? length (ws ++ x7b :: rest))%nat with true
    by (symmetry; apply Nat.ltb_lt; rewrite length_app; cbn [length]; lia).
  cbn [httpx.bytesHasJSONPrefix]. now rewrite orb_true_r.
Qed.

Lemma brace_body_is_read_as_json_witness :
  httpx.handleAPIPaste (F := StoredFlate.impl) (D := PlainDurations.impl)
    (U := examples.unicode) (C := examples.calendar) examples.config examples.items
    (examples.created + 1) examples.entropy_key examples.entropy_id examples.wall
    examples.wall examples.upload_brace
  = httpx.Done examples.items (httpx.Error "Invalid JSON" httpx.StatusBadRequest).
Proof.
  apply (brace_body_is_read_as_json StoredFlate.impl PlainDurations.impl examples.unicode
           examples.calendar examples.config examples.items (examples.created + 1)
           examples.entropy_key examples.entropy_id examples.wall examples.wall
           examples.upload_brace [x20; x20] (list_byte_of_string " return 1; }")).
  - reflexivity.
  - repeat constructor.
  - reflexivity.
Defined.

(** X28. No version of a reachable store fails to decode: with a sound
    compress/flate, [GzipDecode] returns a text and no error for every
    version of every entry, so the error that the readers drop does not
    occur on what the handlers stored. *)
Theorem stored_versions_decode (F : Flate) (D : Durations) (cfg : httpx.Config)
    (s : gmap string Paste) (id : string) (p : Paste) :
  flate_sound F ->
  server.reachable cfg s ->
  s !! id = Some p ->
  Forall (fun v => exists code, util.GzipDecode (model.Version.ZCode v) = (code, None))
    (model.Paste.Versions p).
Proof.
  intros Hs Hr Hl. apply Forall_forall. intros v Hv.
  apply list_elem_of_In in Hv.
  pose proof (reachable_decodes cfg s id p v Hs Hr Hl Hv) as Hd.
  destruct (util.GzipDecode (model.Version.ZCode v)) as [code e].
  cbn [snd] in Hd. subst e. now exists code.
Qed.

Lemma stored_versions_decode_witness :
  Forall (fun v => exists code,
            util.GzipDecode (F := StoredFlate.impl) (model.Version.ZCode v) = (code, None))
    (model.Paste.Versions examples.paste).
Proof.
  exact (stored_versions_decode StoredFlate.impl PlainDurations.impl examples.config
           examples.items (model.Paste.ID examples.paste) examples.paste
           stored_sound reachable_items (lookup_Put _ _)).
Defined.
